(** * V-Ray for Blender: the ZMQ plugin exporter

    A shallow embedding of
    [intern/vray_for_blender_rt/src/plugin_exporter/vfb_plugin_exporter_zmq.cpp]:
    the heartbeat singleton [ZmqServer], the image assembly buffer
    [ZmqExporter::ZmqRenderImage::update], and the exporter facade
    [ZmqExporter] with its inbound dispatch [zmqCallback].

    Conventions.
    - C++ [int] values are [Z]; where the source multiplies sizes the model
      checks the [int] range and faults ([None]) outside it.
    - [float] values are IEEE-754 data ([spec_float]); the code only copies
      and compares them.
    - [new float[n]] allocates a block in a store of blocks; a read or a
      write outside a block, or through a null pointer, is a fault ([None]).
    - A call that does not return gives no state either ([None]): the wait
      [waitForMessages] has no timeout, and whether it returns is up to the
      renderer.
    - The transport client [ZmqClient] belongs to an external library: it is
      a record of its observable flags and of the commands handed to [send].
    - The members of the base class [RenderImage] that [update] and
      [get_render_channel] call ([updateRegion], [flip], [resetAlpha],
      [clamp], [deepCopy]) are modelled from their specification.
    - Locks and threads are not represented: every member function, and
      every dispatch of an inbound message, is one sequential step. *)

From Stdlib Require Import ZArith Ascii String List Bool Lia.
From Stdlib Require Import Floats.SpecFloat.
From stdpp Require Import gmap strings list pretty.

Local Open Scope Z_scope.

(** ** Base types *)

Definition float := spec_float.

(** [0.0f], [1.0f] and [1.5f] as binary32 values. *)
Definition f_zero : float := S754_zero false.
Definition f_one : float := S754_finite false 8388608 (-23).
Definition f_one_half : float := S754_finite false 12582912 (-23).

(** The C++ comparison [a != b] on floats. *)
Definition float_neq (a b : float) : bool := negb (SFeqb a b).

Definition INT_MAX : Z := 2147483647.
Definition INT_MIN : Z := -2147483648.

(** The result of an [int] operation: defined only inside the [int] range. *)
Definition int (z : Z) : option Z :=
  if (INT_MIN <=? z) && (z <=? INT_MAX) then Some z else None.

Inductive LogLevel := error | warning | info | debug.

Definition Log := list (LogLevel * string).

(** ** Render channel identifiers and commit actions *)

Inductive RenderChannelType :=
  | RenderChannelTypeNone
  | RenderChannelTypeVfbRealcolor
  | RenderChannelTypeVfbBumpnormal
  | RenderChannelTypeVfbColor
  | RenderChannelTypeVfbDenoised
  | RenderChannelTypeDrbucket
  | RenderChannelTypeVfbNodeid
  | RenderChannelTypeVfbNormal
  | RenderChannelTypeVfbRenderID
  | RenderChannelTypeVfbVelocity
  | RenderChannelTypeVfbZdepth
  | RenderChannelTypeOther (id : Z).

Global Instance RenderChannelType_eq_dec : EqDecision RenderChannelType.
Proof. solve_decision. Defined.

Definition channel_code (c : RenderChannelType) : nat + Z :=
  match c with
  | RenderChannelTypeNone => inl 0%nat
  | RenderChannelTypeVfbRealcolor => inl 1%nat
  | RenderChannelTypeVfbBumpnormal => inl 2%nat
  | RenderChannelTypeVfbColor => inl 3%nat
  | RenderChannelTypeVfbDenoised => inl 4%nat
  | RenderChannelTypeDrbucket => inl 5%nat
  | RenderChannelTypeVfbNodeid => inl 6%nat
  | RenderChannelTypeVfbNormal => inl 7%nat
  | RenderChannelTypeVfbRenderID => inl 8%nat
  | RenderChannelTypeVfbVelocity => inl 9%nat
  | RenderChannelTypeVfbZdepth => inl 10%nat
  | RenderChannelTypeOther id => inr id
  end.

Definition channel_of_code (c : nat + Z) : RenderChannelType :=
  match c with
  | inl 0%nat => RenderChannelTypeNone
  | inl 1%nat => RenderChannelTypeVfbRealcolor
  | inl 2%nat => RenderChannelTypeVfbBumpnormal
  | inl 3%nat => RenderChannelTypeVfbColor
  | inl 4%nat => RenderChannelTypeVfbDenoised
  | inl 5%nat => RenderChannelTypeDrbucket
  | inl 6%nat => RenderChannelTypeVfbNodeid
  | inl 7%nat => RenderChannelTypeVfbNormal
  | inl 8%nat => RenderChannelTypeVfbRenderID
  | inl 9%nat => RenderChannelTypeVfbVelocity
  | inl _ => RenderChannelTypeVfbZdepth
  | inr id => RenderChannelTypeOther id
  end.

Global Instance RenderChannelType_countable : Countable RenderChannelType.
Proof.
  apply (inj_countable' channel_code channel_of_code).
  intros []; reflexivity.
Defined.

Inductive CommitAction := CommitNone | CommitNow | CommitAutoOff | CommitAutoOn.

Global Instance CommitAction_eq_dec : EqDecision CommitAction.
Proof. solve_decision. Defined.

(** ** Outbound commands ([VRayMessage::msg...] factories) *)

Inductive RendererAction :=
  | Init | Start | Stop | Reset | Free | SetRenderMode | SetCurrentFrame
  | SetCropRegion | SetRenderRegion | Resize | SetCurrentCamera
  | SetCommitAction | ExportScene | GetImage | ClearFrameValues | ResetsHosts
  | SetVfbShow | SetQuality | SetViewportImageFormat | SetRendererState.

Inductive RendererType := RendererNone | Preview | RT | Animation | SingleFrame.

Inductive PluginAction := Create | SetProperty | Remove | Replace.

(** Attribute values; [AttrUnknown] has type tag [ValueTypeUnknown]. *)
Inductive AttrValue :=
  | AttrUnknown
  | AttrInt (i : Z)
  | AttrFloat (f : float)
  | AttrString (s : string)
  | AttrListInt (l : list Z).

Inductive ActionArg :=
  | ArgNone
  | ArgBool (b : bool)
  | ArgInt (i : Z)
  | ArgFloat (f : float)
  | ArgString (s : string)
  | ArgListInt (l : list Z)
  | ArgChannel (c : RenderChannelType)   (* [static_cast<int>] of the enumerator *)
  | ArgCommit (ca : CommitAction).       (* [static_cast<int>] of the enumerator *)

Inductive VRayMessage :=
  | msgRendererActionInit (type : RendererType) (EnableDr RenderOnlyOnHosts : bool)
  | msgRendererAction (action : RendererAction) (arg : ActionArg)
  | msgRendererResize (w h : Z)
  | msgPluginAction (name : string) (action : PluginAction)
  | msgPluginReplace (oldPlugin newPlugin : string)
  | msgPluginCreate (name pluginID : string)
  | msgPluginSetProperty (name attrName : string) (value : AttrValue).

(** ** The transport client (external library) *)

Inductive Callback := NoCallback | ExporterCallback | EmptyCallback.

Record ZmqClient := mkClient {
  heartbeat : bool;            (* constructor argument *)
  address : option string;     (* argument of the last [connect] *)
  connected : bool;            (* [connected()] *)
  good : bool;                 (* [good()] *)
  sent : list VRayMessage;     (* arguments of [send], oldest first *)
  callback : Callback;         (* [setCallback] *)
  stopServerCalled : bool;     (* [stopServer()] *)
  stopped : bool               (* [syncStop()] *)
}.

(** What the network makes of a [connect]: the flags the client reports
    afterwards. *)
Record LinkStatus := mkLink { link_connected : bool; link_good : bool }.

Definition new_ZmqClient (hb : bool) : ZmqClient :=
  mkClient hb None false true [] NoCallback false false.

Definition connect (net : LinkStatus) (addr : string) (c : ZmqClient) : ZmqClient :=
  mkClient (heartbeat c) (Some addr) (link_connected net) (link_good net) (sent c)
           (callback c) (stopServerCalled c) (stopped c).

Definition send (m : VRayMessage) (c : ZmqClient) : ZmqClient :=
  mkClient (heartbeat c) (address c) (connected c) (good c) (sent c ++ [m])
           (callback c) (stopServerCalled c) (stopped c).

Definition setCallback (cb : Callback) (c : ZmqClient) : ZmqClient :=
  mkClient (heartbeat c) (address c) (connected c) (good c) (sent c)
           cb (stopServerCalled c) (stopped c).

Definition stopServer (c : ZmqClient) : ZmqClient :=
  mkClient (heartbeat c) (address c) (connected c) (good c) (sent c)
           (callback c) true (stopped c).

Definition syncStop (c : ZmqClient) : ZmqClient :=
  mkClient (heartbeat c) (address c) (connected c) (good c) (sent c)
           (callback c) (stopServerCalled c) true.

(** ** Log-level banding ([enum MessageLevel] and [zmqCallback]) *)

Definition MessageError : Z := 9999.
Definition MessageWarning : Z := 19999.
Definition MessageInfo : Z := 29999.

Definition msgLevel (logLevel : Z) : LogLevel :=
  if logLevel <=? MessageError then error
  else if (logLevel >? MessageError) && (logLevel <=? MessageWarning) then warning
  else if (logLevel >? MessageWarning) && (logLevel <=? MessageInfo) then info
  else debug.

(** ** The heartbeat singleton [ZmqServer] *)

Module ZmqServer.

(** The static members: [serverCheck] and the process log. *)
Record State := mkState {
  serverCheck : option ZmqClient;
  log : Log
}.

Definition isRunning (s : State) : bool :=
  match serverCheck s with
  | Some c => good c && connected c
  | None => false
  end.

Definition start (net : LinkStatus) (addr : string) (s : State) : bool * State :=
  match serverCheck s with
  | None =>
      let lg := log s ++ [(info, "Starting heartbeat client for " ++ addr)%string] in
      let c := connect net addr (new_ZmqClient true) in
      (if connected c then true else false, mkState (Some c) lg)
  | Some c =>
      let lg := log s ++ [(error, "Heartbeat client already running..."%string)] in
      (if good c && connected c then true else false, mkState (Some c) lg)
  end.

Definition stop (s : State) : bool * State :=
  match serverCheck s with
  | Some c =>
      let lg := log s ++ [(info, "Stopping hearbeat client... "%string)] in
      let c1 := if good c && connected c then stopServer c else c in
      let c2 := syncStop c1 in
      (true, mkState None (lg ++ [(info, "... done."%string)]))
  | None =>
      (false, mkState None (log s ++ [(error, "No zmq heartbeat client running..."%string)]))
  end.

(** A call creates a connection when it installs a client where there was
    none. *)
Definition creates (s : State) : nat :=
  match serverCheck s with None => 1%nat | Some _ => 0%nat end.

(** A run of [start] calls, each with its own network outcome: the
    results, the number of connections created and the final state. *)
Fixpoint starts (calls : list (LinkStatus * string)) (s : State)
  : list bool * nat * State :=
  match calls with
  | [] => ([], 0%nat, s)
  | (net, addr) :: rest =>
      let '(r, s1) := start net addr s in
      let '(rs, n, s2) := starts rest s1 in
      (r :: rs, (creates s + n)%nat, s2)
  end.

(** The behaviour the specification describes for one call: a running,
    healthy monitor is kept and reported; otherwise a connection is
    created; and the result says whether the connection is healthy. *)
Definition start_as_specified (net : LinkStatus) (addr : string) (s : State) : Prop :=
  let '(r, s') := start net addr s in
  (isRunning s = true -> r = true /\ serverCheck s' = serverCheck s) /\
  (isRunning s = false ->
     serverCheck s' = Some (connect net addr (new_ZmqClient true)) /\
     (r = true -> link_connected net = true)) /\
  (r = true <-> isRunning s' = true).

End ZmqServer.

(** ** Image payloads and render channels *)

Inductive ImageType := NONE | RGBA_REAL | RGB_REAL | BW_REAL | JPG.

Global Instance ImageType_eq_dec : EqDecision ImageType.
Proof. solve_decision. Defined.

(** [AttrImage]: [data] is the payload as [update] reads it through
    [reinterpret_cast<const float *>]. *)
Record AttrImage := mkAttrImage {
  imageType : ImageType;
  data : list float;
  size : Z;
  width : Z;
  height : Z;
  x : Z;
  y : Z
}.

Inductive ImageSourceType := RtImageUpdate | ImageReady.

Global Instance ImageSourceType_eq_dec : EqDecision ImageSourceType.
Proof. solve_decision. Defined.

(** [AttrImageSet]: the images in the order the dispatch loop visits them. *)
Record AttrImageSet := mkImageSet {
  images : list (RenderChannelType * AttrImage);
  sourceType : ImageSourceType
}.

(** ** The store of pixel buffers *)

Abbreviation Store := (gmap positive (list float)).

(** [new float[...]] filled with [content]: a block at an address not in
    use. *)
Definition alloc (content : list float) (σ : Store) : positive * Store :=
  let l := fresh (dom σ) in (l, <[l := content]> σ).

(** [delete[] p]; deleting a null pointer does nothing. *)
Definition delete_pixels (p : option positive) (σ : Store) : Store :=
  match p with
  | Some l => delete l σ
  | None => σ
  end.

(** The element count of [new float[w * h * channels]], computed in [int];
    a negative count makes [new] throw. *)
Definition float_count (w h channels : Z) : option nat :=
  a ← int (w * h);
  n ← int (a * channels);
  if 0 <=? n then Some (Z.to_nat n) else None.

Definition load_at (i : Z) (blk : list float) : option float :=
  if 0 <=? i then blk !! Z.to_nat i else None.

Definition store_at (i : Z) (v : float) (blk : list float) : option (list float) :=
  if (0 <=? i) && (i <? Z.of_nat (length blk))
  then Some (<[Z.to_nat i := v]> blk) else None.

(** [memcpy(dst + doff, src + soff, n * sizeof(float))]. *)
Definition copy_floats (src : list float) (soff : Z) (dst : list float) (doff : Z)
    (n : nat) : option (list float) :=
  if (0 <=? soff) && (soff + Z.of_nat n <=? Z.of_nat (length src))
     && (0 <=? doff) && (doff + Z.of_nat n <=? Z.of_nat (length dst))
  then Some (take (Z.to_nat doff) dst
             ++ take n (drop (Z.to_nat soff) src)
             ++ drop (Z.to_nat doff + n) dst)
  else None.

(** ** [RenderImage] *)

Record RenderImage := mkRenderImage {
  pixels : option positive;
  w : Z;
  h : Z;
  channels : Z
}.

(** A default-constructed [RenderImage]. *)
Definition RenderImage_empty : RenderImage := mkRenderImage None 0 0 0.

Record ImageRegion := mkRegion { reg_x : Z; reg_y : Z; reg_w : Z; reg_h : Z }.

(** Modelled from the spec: [RenderImage::updateRegion], a member of the
    base class [RenderImage] that this file only calls. Per the spec a
    bucket's rows are copied "into the correct offset of the full buffer":
    row [r] of the region, [reg_w * channels] floats taken at [r * reg_w *
    channels] of the source, goes to offset [((reg_y + r) * w + reg_x) *
    channels] of the buffer. Each entry is (destination offset, source
    offset, count). *)
Definition region_rows (this : RenderImage) (reg : ImageRegion) : list (Z * Z * nat) :=
  map (fun r : nat =>
         (((reg_y reg + Z.of_nat r) * w this + reg_x reg) * channels this,
          Z.of_nat r * reg_w reg * channels this,
          Z.to_nat (reg_w reg * channels this)))
      (seq 0 (Z.to_nat (reg_h reg))).

(** Modelled from the spec: the row copies of [updateRegion], one [memcpy]
    per row. *)
Fixpoint copy_rows (src : list float) (rows : list (Z * Z * nat)) (blk : list float)
  : option (list float) :=
  match rows with
  | [] => Some blk
  | (doff, soff, n) :: rest =>
      blk' ← copy_floats src soff blk doff n;
      copy_rows src rest blk'
  end.

(** Modelled from the spec: [RenderImage::updateRegion] (see
    [region_rows]); writing through a null [pixels] or outside the block is
    a fault. *)
Definition updateRegion (src : list float) (reg : ImageRegion)
    (this : RenderImage) (σ : Store) : option Store :=
  l ← pixels this;
  blk ← σ !! l;
  blk' ← copy_rows src (region_rows this reg) blk;
  Some (<[l := blk']> σ).

(** Do all writes of a row list stay below [bound]? *)
Definition rows_within (bound : Z) (rows : list (Z * Z * nat)) : bool :=
  forallb (fun '(doff, _, n) => (0 <=? doff) && (doff + Z.of_nat n <=? bound)) rows.

(** Modelled from the spec: [RenderImage::flip], the "vertical flip" of the
    post-processing: the [h] rows of [w * channels] floats in reverse
    order. *)
Definition flip_block (rowlen rows : nat) (blk : list float) : list float :=
  concat (reverse (map (fun r : nat => take rowlen (drop (r * rowlen) blk)) (seq 0 rows))).

(** Modelled from the spec: [RenderImage::resetAlpha], "force alpha to
    fully opaque": in a 4-channel buffer every fourth float becomes 1. *)
Definition resetAlpha_block (channels : Z) (blk : list float) : list float :=
  if channels =? 4
  then imap (fun i v => if (i mod 4 =? 3)%nat then f_one else v) blk
  else blk.

(** Modelled from the spec: [RenderImage::clamp], "clamp to [0,1]". *)
Definition clamp_float (v : float) : float :=
  if SFltb v f_zero then f_zero else if SFltb f_one v then f_one else v.

Definition clamp_block (blk : list float) : list float := map clamp_float blk.

(** Modelled from the spec: the post-processing [flip(); resetAlpha();
    clamp(1.0f, 1.0f)] on the image's block. An image without pixels is
    left alone; a block that does not hold [h] rows of [w * channels]
    floats would be overrun, which is a fault. *)
Definition postprocess (this : RenderImage) (σ : Store) : option Store :=
  match pixels this with
  | None => Some σ
  | Some l =>
      blk ← σ !! l;
      n ← float_count (w this) (h this) (channels this);
      if bool_decide (length blk = n) && (0 <=? w this) && (0 <=? h this) then
        let flipped := flip_block (Z.to_nat (w this * channels this)) (Z.to_nat (h this)) blk in
        Some (<[l := clamp_block (resetAlpha_block (channels this) flipped)]> σ)
      else None
  end.

(** Modelled from the spec: [RenderImage::deepCopy], a copy of the image
    with a pixel block of its own. *)
Definition deepCopy (source : RenderImage) (σ : Store) : option (RenderImage * Store) :=
  l ← pixels source;
  blk ← σ !! l;
  let '(l', σ') := alloc blk σ in
  Some (mkRenderImage (Some l') (w source) (h source) (channels source), σ').

(** ** External functions used by the exporter *)

Inductive PluginType := PluginChannel | PluginOther.

Class Env := {
  (** [AttrImage::isBucket()] *)
  isBucket : AttrImage -> bool;
  (** [jpegToPixelData]: the decoded floats ([None] for a null result) and
      the channel count it reports *)
  jpegToPixelData : AttrImage -> option (list float) * Z;
  (** [GetPluginDescription(id).pluginType] *)
  GetPluginDescription : string -> PluginType;
  (** [fs::path::remove_filename], [fs::exists], [fs::create_directories] *)
  remove_filename : string -> string;
  fs_exists : string -> bool;
  fs_create_directories : string -> bool;
  (** [code.message()] of the error code a failed [fs::create_directories]
      leaves for a path *)
  fs_create_directories_message : string -> string;
  (** the result of the base class's [PluginExporter::remove_plugin_impl] *)
  PluginExporter_remove_plugin_impl : string -> Z;
  (** [getLog().log(level, format)] called with a format string and no
      further argument: the text the logger makes of the format, [None]
      where that is undefined (a conversion in the format has no argument
      to read) *)
  Logger_format : string -> option string;
  (** [ZmqClient::waitForMessages()]: whether the wait on a client in this
      state returns; it blocks, with no timeout, until the renderer has
      answered *)
  waitForMessages_returns : ZmqClient -> bool
}.

(** ** [ZmqExporter::ZmqRenderImage::update] *)

(** The loop of the [RGB_REAL] case, from pixel [c], [n] pixels to go;
    [source] and [dest] are the offsets [c * 4] and [c * channels]. *)
Fixpoint rgb_loop (imgData : list float) (n : nat) (c : Z) (myImage : list float)
  : option (list float) :=
  match n with
  | O => Some myImage
  | S n' =>
      source ← int (c * 4);
      dest ← int (c * 3);
      s0 ← load_at source imgData;
      d0 ← store_at dest s0 myImage;
      s1 ← load_at (source + 1) imgData;
      d1 ← store_at (dest + 1) s1 d0;
      s2 ← load_at (source + 2) imgData;
      d2 ← store_at (dest + 2) s2 d1;
      rgb_loop imgData n' (c + 1) d2
  end.

(** The loop of the [BW_REAL] case. *)
Fixpoint bw_loop (imgData : list float) (n : nat) (c : Z) (myImage : list float)
  : option (list float) :=
  match n with
  | O => Some myImage
  | S n' =>
      source ← int (c * 4);
      dest ← int (c * 1);
      s0 ← load_at source imgData;
      d0 ← store_at dest s0 myImage;
      bw_loop imgData n' (c + 1) d0
  end.

(** The loop bound [img.width * img.height]; a bound that is not positive
    means no iteration. *)
Definition pixel_count (img : AttrImage) : option nat :=
  n ← int (width img * height img);
  Some (Z.to_nat n).

(** The [switch] of the full-frame float branch: the new buffer's contents
    ([None] when [myImage] stays null), the channel count and the log
    lines. The floats of a buffer just allocated are indeterminate; they
    stand as zeros here, and each case overwrites all of them. *)
Definition convert_float_image (img : AttrImage)
  : option (option (list float) * Z * Log) :=
  match imageType img with
  | RGBA_REAL =>
      n ← float_count (width img) (height img) 4;
      myImage ← copy_floats (data img) 0 (replicate n f_zero) 0 n;
      Some (Some myImage, 4, [])
  | RGB_REAL =>
      n ← float_count (width img) (height img) 3;
      cnt ← pixel_count img;
      myImage ← rgb_loop (data img) cnt 0 (replicate n f_zero);
      Some (Some myImage, 3, [])
  | BW_REAL =>
      n ← float_count (width img) (height img) 1;
      cnt ← pixel_count img;
      myImage ← bw_loop (data img) cnt 0 (replicate n f_zero);
      Some (Some myImage, 1, [])
  | _ => Some (None, 0, [(warning, "MISSING IMAGE FORMAT CONVERTION FOR %d"%string)])
  end.

(** Install a freshly built buffer: [delete[] pixels; pixels = myImage]. The
    new block exists before the old one is released. *)
Definition replace_pixels (myImage : option (list float)) (chs : Z) (img : AttrImage)
    (this : RenderImage) (σ : Store) : RenderImage * Store :=
  match myImage with
  | Some content =>
      let '(l, σ1) := alloc content σ in
      (mkRenderImage (Some l) (width img) (height img) chs, delete_pixels (pixels this) σ1)
  | None =>
      (mkRenderImage None (width img) (height img) chs, delete_pixels (pixels this) σ)
  end.

(** The bucket branch is taken for a 4-channel float image that is a
    bucket. *)
Definition is_bucket_update `{Env} (img : AttrImage) : bool :=
  bool_decide (imageType img = RGBA_REAL) && isBucket img.

(** Lines 87-175: the three branches. The result carries the value of
    [fixImage] that reaches the final [if]. [renderWidth] and
    [renderHeight] are the exporter's cached values. *)
Definition update_branches `{Env} (img : AttrImage) (renderWidth renderHeight : Z)
    (fixImage : bool) (this : RenderImage) (σ : Store)
  : option (RenderImage * Store * Log * bool) :=
  if is_bucket_update img then
    '(this1, σ1) ←
      match pixels this with
      | None =>
          n ← float_count renderWidth renderHeight 4;
          let '(l, σ1) := alloc (replicate n f_zero) σ in
          Some (mkRenderImage (Some l) renderWidth renderHeight 4, σ1)
      | Some _ => Some (this, σ)
      end;
    σ2 ← updateRegion (data img) (mkRegion (x img) (y img) (width img) (height img)) this1 σ1;
    Some (this1, σ2, [], false)
  else if bool_decide (imageType img = JPG) then
    let '(imgData, chs) := jpegToPixelData img in
    let '(this1, σ1) := replace_pixels imgData chs img this σ in
    Some (this1, σ1, [], fixImage)
  else if bool_decide (imageType img = RGBA_REAL)
          || bool_decide (imageType img = RGB_REAL)
          || bool_decide (imageType img = BW_REAL) then
    '(myImage, chs, lg) ← convert_float_image img;
    let '(this1, σ1) := replace_pixels myImage chs img this σ in
    Some (this1, σ1, lg, fixImage)
  else Some (this, σ, [], fixImage).

Definition update `{Env} (img : AttrImage) (renderWidth renderHeight : Z)
    (fixImage : bool) (this : RenderImage) (σ : Store)
  : option (RenderImage * Store * Log) :=
  match update_branches img renderWidth renderHeight fixImage this σ with
  | Some (this1, σ1, lg, true) =>
      σ2 ← postprocess this1 σ1;
      Some (this1, σ2, lg)
  | Some (this1, σ1, lg, false) => Some (this1, σ1, lg)
  | None => None
  end.

(** ** Inbound messages *)

Inductive RendererState :=
  | Abort
  | Progress (value : float)
  | ProgressMessage (value : string)
  | Continue (value : float)
  | UnexpectedState.

(** What [zmqCallback] receives: the message type with the values the
    callback reads from it. *)
Inductive InboundMessage :=
  | VRayLog (text : string) (logLevel : Z)
  | Image (set : AttrImageSet)
  | ChangeRenderer (action : RendererAction) (state : RendererState)
  | OtherMessage.

(** ** Configuration, cache and plugin descriptions *)

(** The fields of [ExporterSettings] this file reads; the two enumerations
    are kept as their integer values. *)
Record ExporterSettings := mkSettings {
  show_vfb : bool;
  viewport_image_quality : Z;
  viewport_image_type : Z;
  render_mode : Z;
  zmq_server_address : string;
  zmq_server_port : Z;
  is_preview : bool;
  settings_animation_use : bool;
  settings_dr_use : bool;
  settings_dr_renderOnlyOnHodes : bool;
  settings_dr_hosts : list string;
  settings_files_use_separate : bool
}.

(** [m_cachedValues]: the last values sent. *)
Record CachedValues := mkCached {
  cached_show_vfb : bool;
  cached_viewport_image_quality : Z;
  cached_viewport_image_type : Z;
  cached_render_mode : Z;
  activeCamera : string;
  renderWidth : Z;
  renderHeight : Z
}.

(** [m_cachedValues = {}] *)
Definition CachedValues_empty : CachedValues := mkCached false 0 0 0 "" 0 0.

Definition set_cached_show_vfb (v : bool) (c : CachedValues) : CachedValues :=
  mkCached v (cached_viewport_image_quality c) (cached_viewport_image_type c)
    (cached_render_mode c) (activeCamera c) (renderWidth c) (renderHeight c).

Definition set_cached_viewport_image_quality (v : Z) (c : CachedValues) : CachedValues :=
  mkCached (cached_show_vfb c) v (cached_viewport_image_type c) (cached_render_mode c)
    (activeCamera c) (renderWidth c) (renderHeight c).

Definition set_cached_viewport_image_type (v : Z) (c : CachedValues) : CachedValues :=
  mkCached (cached_show_vfb c) (cached_viewport_image_quality c) v
    (cached_render_mode c) (activeCamera c) (renderWidth c) (renderHeight c).

Definition set_cached_render_mode (v : Z) (c : CachedValues) : CachedValues :=
  mkCached (cached_show_vfb c) (cached_viewport_image_quality c)
    (cached_viewport_image_type c) v (activeCamera c) (renderWidth c) (renderHeight c).

Definition set_activeCamera (v : string) (c : CachedValues) : CachedValues :=
  mkCached (cached_show_vfb c) (cached_viewport_image_quality c)
    (cached_viewport_image_type c) (cached_render_mode c) v (renderWidth c)
    (renderHeight c).

Definition set_renderWidth (v : Z) (c : CachedValues) : CachedValues :=
  mkCached (cached_show_vfb c) (cached_viewport_image_quality c)
    (cached_viewport_image_type c) (cached_render_mode c) (activeCamera c) v
    (renderHeight c).

Definition set_renderHeight (v : Z) (c : CachedValues) : CachedValues :=
  mkCached (cached_show_vfb c) (cached_viewport_image_quality c)
    (cached_viewport_image_type c) (cached_render_mode c) (activeCamera c)
    (renderWidth c) v.

Record PluginAttr := mkPluginAttr { attrName : string; attrValue : AttrValue }.

(** [pluginAttrs] in iteration order. *)
Record PluginDesc := mkPluginDesc {
  pluginName : string;
  pluginID : string;
  pluginAttrs : list (string * PluginAttr)
}.

Record AttrPlugin := mkAttrPlugin { plugin : string }.

(** [AttrPlugin()], the empty reference. *)
Definition AttrPlugin_empty : AttrPlugin := mkAttrPlugin "".

(** ** The exporter facade [ZmqExporter] *)

Record Hooks := mkHooks {
  callback_on_message_update : bool;
  callback_on_bucket_ready : bool;
  callback_on_rt_image_updated : bool;
  callback_on_image_ready : bool
}.

Inductive Event :=
  | on_message_update (guiMsg : string)
  | on_bucket_ready (img : AttrImage)
  | on_rt_image_updated
  | on_image_ready
  | VFB_Assert (what : string).

Record ZmqExporter := mkExporter {
  exporter_settings : ExporterSettings   (* the configuration, read only *);
  is_viewport : bool;
  m_client : option ZmqClient;
  m_isDirty : bool;
  m_isAborted : bool;
  m_started : bool;
  m_exportedCount : Z;
  m_cachedValues : CachedValues;
  m_layerImages : gmap RenderChannelType RenderImage;
  heap : Store   (* the blocks the pixel pointers refer to *);
  current_scene_frame : float;
  commit_state : CommitAction;
  render_progress : float;
  progress_message : string;
  last_rendered_frame : float;
  hooks : Hooks   (* which optional callbacks are installed *);
  events : list Event   (* hook invocations and assertions, oldest first *);
  log : Log   (* output of [getLog()], oldest first *)
}.

Definition with_m_client (v : option ZmqClient) (e : ZmqExporter) : ZmqExporter :=
  mkExporter (exporter_settings e) (is_viewport e) v (m_isDirty e) (m_isAborted e)
    (m_started e) (m_exportedCount e) (m_cachedValues e) (m_layerImages e) (heap e)
    (current_scene_frame e) (commit_state e) (render_progress e) (progress_message e)
    (last_rendered_frame e) (hooks e) (events e) (log e).

Definition with_m_isDirty (v : bool) (e : ZmqExporter) : ZmqExporter :=
  mkExporter (exporter_settings e) (is_viewport e) (m_client e) v (m_isAborted e)
    (m_started e) (m_exportedCount e) (m_cachedValues e) (m_layerImages e) (heap e)
    (current_scene_frame e) (commit_state e) (render_progress e) (progress_message e)
    (last_rendered_frame e) (hooks e) (events e) (log e).

Definition with_m_isAborted (v : bool) (e : ZmqExporter) : ZmqExporter :=
  mkExporter (exporter_settings e) (is_viewport e) (m_client e) (m_isDirty e) v
    (m_started e) (m_exportedCount e) (m_cachedValues e) (m_layerImages e) (heap e)
    (current_scene_frame e) (commit_state e) (render_progress e) (progress_message e)
    (last_rendered_frame e) (hooks e) (events e) (log e).

Definition with_m_started (v : bool) (e : ZmqExporter) : ZmqExporter :=
  mkExporter (exporter_settings e) (is_viewport e) (m_client e) (m_isDirty e)
    (m_isAborted e) v (m_exportedCount e) (m_cachedValues e) (m_layerImages e) (heap e)
    (current_scene_frame e) (commit_state e) (render_progress e) (progress_message e)
    (last_rendered_frame e) (hooks e) (events e) (log e).

Definition with_m_exportedCount (v : Z) (e : ZmqExporter) : ZmqExporter :=
  mkExporter (exporter_settings e) (is_viewport e) (m_client e) (m_isDirty e)
    (m_isAborted e) (m_started e) v (m_cachedValues e) (m_layerImages e) (heap e)
    (current_scene_frame e) (commit_state e) (render_progress e) (progress_message e)
    (last_rendered_frame e) (hooks e) (events e) (log e).

Definition with_m_cachedValues (v : CachedValues) (e : ZmqExporter) : ZmqExporter :=
  mkExporter (exporter_settings e) (is_viewport e) (m_client e) (m_isDirty e)
    (m_isAborted e) (m_started e) (m_exportedCount e) v (m_layerImages e) (heap e)
    (current_scene_frame e) (commit_state e) (render_progress e) (progress_message e)
    (last_rendered_frame e) (hooks e) (events e) (log e).

Definition with_m_layerImages (v : gmap RenderChannelType RenderImage) (e : ZmqExporter) : ZmqExporter :=
  mkExporter (exporter_settings e) (is_viewport e) (m_client e) (m_isDirty e)
    (m_isAborted e) (m_started e) (m_exportedCount e) (m_cachedValues e) v (heap e)
    (current_scene_frame e) (commit_state e) (render_progress e) (progress_message e)
    (last_rendered_frame e) (hooks e) (events e) (log e).

Definition with_heap (v : Store) (e : ZmqExporter) : ZmqExporter :=
  mkExporter (exporter_settings e) (is_viewport e) (m_client e) (m_isDirty e)
    (m_isAborted e) (m_started e) (m_exportedCount e) (m_cachedValues e)
    (m_layerImages e) v (current_scene_frame e) (commit_state e) (render_progress e)
    (progress_message e) (last_rendered_frame e) (hooks e) (events e) (log e).

Definition with_current_scene_frame (v : float) (e : ZmqExporter) : ZmqExporter :=
  mkExporter (exporter_settings e) (is_viewport e) (m_client e) (m_isDirty e)
    (m_isAborted e) (m_started e) (m_exportedCount e) (m_cachedValues e)
    (m_layerImages e) (heap e) v (commit_state e) (render_progress e)
    (progress_message e) (last_rendered_frame e) (hooks e) (events e) (log e).

Definition with_commit_state (v : CommitAction) (e : ZmqExporter) : ZmqExporter :=
  mkExporter (exporter_settings e) (is_viewport e) (m_client e) (m_isDirty e)
    (m_isAborted e) (m_started e) (m_exportedCount e) (m_cachedValues e)
    (m_layerImages e) (heap e) (current_scene_frame e) v (render_progress e)
    (progress_message e) (last_rendered_frame e) (hooks e) (events e) (log e).

Definition with_render_progress (v : float) (e : ZmqExporter) : ZmqExporter :=
  mkExporter (exporter_settings e) (is_viewport e) (m_client e) (m_isDirty e)
    (m_isAborted e) (m_started e) (m_exportedCount e) (m_cachedValues e)
    (m_layerImages e) (heap e) (current_scene_frame e) (commit_state e) v
    (progress_message e) (last_rendered_frame e) (hooks e) (events e) (log e).

Definition with_progress_message (v : string) (e : ZmqExporter) : ZmqExporter :=
  mkExporter (exporter_settings e) (is_viewport e) (m_client e) (m_isDirty e)
    (m_isAborted e) (m_started e) (m_exportedCount e) (m_cachedValues e)
    (m_layerImages e) (heap e) (current_scene_frame e) (commit_state e)
    (render_progress e) v (last_rendered_frame e) (hooks e) (events e) (log e).

Definition with_last_rendered_frame (v : float) (e : ZmqExporter) : ZmqExporter :=
  mkExporter (exporter_settings e) (is_viewport e) (m_client e) (m_isDirty e)
    (m_isAborted e) (m_started e) (m_exportedCount e) (m_cachedValues e)
    (m_layerImages e) (heap e) (current_scene_frame e) (commit_state e)
    (render_progress e) (progress_message e) v (hooks e) (events e) (log e).

Definition with_events (v : list Event) (e : ZmqExporter) : ZmqExporter :=
  mkExporter (exporter_settings e) (is_viewport e) (m_client e) (m_isDirty e)
    (m_isAborted e) (m_started e) (m_exportedCount e) (m_cachedValues e)
    (m_layerImages e) (heap e) (current_scene_frame e) (commit_state e)
    (render_progress e) (progress_message e) (last_rendered_frame e) (hooks e) v (log e).

Definition with_log (v : Log) (e : ZmqExporter) : ZmqExporter :=
  mkExporter (exporter_settings e) (is_viewport e) (m_client e) (m_isDirty e)
    (m_isAborted e) (m_started e) (m_exportedCount e) (m_cachedValues e)
    (m_layerImages e) (heap e) (current_scene_frame e) (commit_state e)
    (render_progress e) (progress_message e) (last_rendered_frame e) (hooks e)
    (events e) v.

Definition add_log (l : LogLevel) (msg : string) (e : ZmqExporter) : ZmqExporter :=
  with_log (log e ++ [(l, msg)]) e.

Definition add_event (ev : Event) (e : ZmqExporter) : ZmqExporter :=
  with_events (events e ++ [ev]) e.

(** [m_client->send(m)]; calling through a null [m_client] is a fault. *)
Definition client_send (m : VRayMessage) (e : ZmqExporter) : option ZmqExporter :=
  c ← m_client e;
  Some (with_m_client (Some (send m c)) e).

(** [m_client->waitForMessages()]: the call blocks until the renderer has
    answered and changes nothing here; when the renderer never answers it
    does not return. *)
Definition client_waitForMessages `{Env} (e : ZmqExporter) : option ZmqExporter :=
  c ← m_client e;
  if waitForMessages_returns c then Some e else None.

(** [VFB_Assert] is recorded as an event. *)
Definition checkZmqClient (e : ZmqExporter) : ZmqExporter :=
  match m_client e with
  | None => with_m_client (Some (new_ZmqClient false)) e
  | Some c =>
      if negb (connected c) then with_m_isAborted true e
      else if negb (good c) then
        add_event (VFB_Assert "ZMQ client disconnected from server!")
                  (with_m_isAborted true e)
      else e
  end.

(** The constructor. The members the base class initialises start at zero
    or empty. *)
Definition ZmqExporter_new (settings : ExporterSettings) (viewport : bool) (hk : Hooks)
  : ZmqExporter :=
  checkZmqClient
    (mkExporter settings viewport None true false false 0 CachedValues_empty ∅ ∅
                f_zero CommitNone f_zero "" f_zero hk [] []).

Definition get_render_channel (channelType : RenderChannelType) (e : ZmqExporter)
  : option (RenderImage * ZmqExporter) :=
  match m_layerImages e !! channelType with
  | Some storedImage =>
      match pixels storedImage with
      | Some _ =>
          '(img, σ') ← deepCopy storedImage (heap e);
          Some (img, with_heap σ' e)
      | None => Some (RenderImage_empty, e)
      end
  | None => Some (RenderImage_empty, e)
  end.

Definition get_image (e : ZmqExporter) : option (RenderImage * ZmqExporter) :=
  get_render_channel RenderChannelTypeNone e.

(** [s.c_str()] as the callee reads it: the characters before the first
    NUL. *)
Fixpoint c_str (s : string) : string :=
  match s with
  | EmptyString => EmptyString
  | String a rest =>
      if Ascii.eqb a "000"%char then EmptyString else String a (c_str rest)
  end.

(** The double quote of the log texts. *)
Definition dquote : string := String "034"%char EmptyString.

(** [msg.resize(msg.find_first_of("\n\r"))] *)
Fixpoint truncate_line (msg : string) : string :=
  match msg with
  | EmptyString => EmptyString
  | String a rest =>
      if Ascii.eqb a "010"%char || Ascii.eqb a "013"%char then EmptyString
      else String a (truncate_line rest)
  end.

(** The loop over [set->images]; [rtImageUpdate] is the flag it raises. *)
Fixpoint image_loop `{Env} (imgs : list (RenderChannelType * AttrImage))
    (rtImageUpdate : bool) (e : ZmqExporter) : option (bool * ZmqExporter) :=
  match imgs with
  | [] => Some (rtImageUpdate, e)
  | (first, second) :: rest =>
      let this := default RenderImage_empty (m_layerImages e !! first) in
      '(this1, σ1, lg) ← update second (renderWidth (m_cachedValues e))
                                (renderHeight (m_cachedValues e))
                                (negb (is_viewport e)) this (heap e);
      let e1 := with_log (log e ++ lg)
                  (with_heap σ1 (with_m_layerImages (<[first := this1]> (m_layerImages e)) e)) in
      if bool_decide (first = RenderChannelTypeNone) && isBucket second
         && callback_on_bucket_ready (hooks e1)
      then image_loop rest rtImageUpdate (add_event (on_bucket_ready second) e1)
      else image_loop rest true e1
  end.

Definition zmqCallback `{Env} (message : InboundMessage) (e : ZmqExporter)
  : option ZmqExporter :=
  match message with
  | VRayLog text logLevel =>
      let msg := truncate_line text in
      (* [getLog().log(msgLevel, msg.c_str())]: the text is the format *)
      logged ← Logger_format (c_str msg);
      let e1 := add_log (msgLevel logLevel) logged e in
      if callback_on_message_update (hooks e1)
      then Some (add_event (on_message_update (c_str ("V-Ray: " ++ msg))) e1)
      else Some e1
  | Image set =>
      let ready := bool_decide (sourceType set = ImageReady) in
      '(rtImageUpdate, e1) ← image_loop (images set) false e;
      let e2 := if rtImageUpdate && callback_on_rt_image_updated (hooks e1)
                then add_event on_rt_image_updated e1 else e1 in
      Some (if ready && callback_on_image_ready (hooks e2)
            then add_event on_image_ready e2 else e2)
  | ChangeRenderer action state =>
      match action with
      | SetRendererState =>
          let e1 := with_m_isAborted false e in
          match state with
          | Abort => Some (with_m_isAborted true e1)
          | Progress value => Some (with_render_progress value e1)
          | ProgressMessage value => Some (with_progress_message value e1)
          | Continue value => Some (with_last_rendered_frame value e1)
          | UnexpectedState =>
              Some (add_event
                      (VFB_Assert "Receieved unexpected RendererState message from renderer.")
                      e1)
          end
      | _ => Some e
      end
  | OtherMessage => Some e
  end.

(** [hostsStr.pop_back()]; on an empty string it is a fault. *)
Fixpoint pop_back (str : string) : option string :=
  match str with
  | EmptyString => None
  | String a EmptyString => Some EmptyString
  | String a rest => r ← pop_back rest; Some (String a r)
  end.

Definition join_hosts (hostItems : list string) : string :=
  fold_left (fun hostsStr host => hostsStr ++ host ++ ";")%string hostItems ""%string.

(** The body of the [try] block of [init]; the client calls are taken not
    to throw. [net] is the outcome of the [connect], if one is made. *)
Definition init (net : LinkStatus) (e : ZmqExporter) : option ZmqExporter :=
  let st := exporter_settings e in
  let e := add_log info "Initing ZmqExporter" e in
  c ← m_client e;
  let c := setCallback ExporterCallback c in
  let c :=
    if connected c then c
    else
      let portStr := (":" ++ pretty (zmq_server_port st))%string in
      let addr := if bool_decide (zmq_server_address st = ""%string)
                  then "127.0.0.1"%string else zmq_server_address st in
      connect net ("tcp://" ++ addr ++ portStr)%string c in
  let e := with_m_client (Some c) e in
  if connected c then
    let type :=
      if is_preview st then Preview
      else if is_viewport e then RT
      else if settings_animation_use st then Animation else SingleFrame in
    e ← client_send (msgRendererActionInit type (settings_dr_use st)
                       (settings_dr_use st && settings_dr_renderOnlyOnHodes st)) e;
    e ← client_send (msgRendererAction SetRenderMode (ArgInt (render_mode st))) e;
    e ← client_send (msgRendererAction GetImage (ArgChannel RenderChannelTypeNone)) e;
    e ← (if negb (is_viewport e) && negb (settings_animation_use st)
         then client_send (msgRendererAction GetImage (ArgChannel RenderChannelTypeVfbRealcolor)) e
         else Some e);
    e ← client_send (msgRendererAction SetVfbShow (ArgBool (show_vfb st))) e;
    e ← client_send (msgRendererAction SetQuality (ArgInt (viewport_image_quality st))) e;
    e ← client_send (msgRendererAction SetViewportImageFormat (ArgInt (viewport_image_type st))) e;
    e ← (if settings_dr_use st then
           hostsStr ← pop_back (join_hosts (settings_dr_hosts st));
           client_send (msgRendererAction ResetsHosts (ArgString hostsStr)) e
         else Some e);
    Some (with_m_cachedValues
            (mkCached (show_vfb st) (viewport_image_quality st) (viewport_image_type st)
                      (render_mode st) (activeCamera (m_cachedValues e)) 0 0) e)
  else Some e.

Definition free (e : ZmqExporter) : option ZmqExporter :=
  client_send (msgRendererAction Free ArgNone) (checkZmqClient e).

(** The destructor. *)
Definition ZmqExporter_delete (e : ZmqExporter) : option ZmqExporter :=
  e1 ← free e;
  c ← m_client e1;
  Some (with_m_client None e1).

Definition clear_frame_data (upTo : float) (e : ZmqExporter) : option ZmqExporter :=
  client_send (msgRendererAction ClearFrameValues (ArgFloat upTo)) (checkZmqClient e).

Definition wait_for_server `{Env} (e : ZmqExporter) : option ZmqExporter :=
  client_waitForMessages (checkZmqClient e).

(** The macro [CHECK_UPDATE(name, upd)]. *)
Definition CHECK_UPDATE {A : Type} `{EqDecision A}
    (cached : CachedValues -> A) (setting : ExporterSettings -> A)
    (set_cached : A -> CachedValues -> CachedValues)
    (upd : A -> VRayMessage) (e : ZmqExporter) : option ZmqExporter :=
  if decide (cached (m_cachedValues e) = setting (exporter_settings e)) then Some e
  else
    e1 ← client_send (upd (setting (exporter_settings e))) e;
    Some (with_m_cachedValues
            (set_cached (setting (exporter_settings e1)) (m_cachedValues e1)) e1).

(** [sync]. The call of the base class's [PluginExporter::sync()] acts on
    base-class state, which is not represented. *)
Definition sync (e : ZmqExporter) : option ZmqExporter :=
  let e := checkZmqClient e in
  e ← CHECK_UPDATE cached_show_vfb show_vfb set_cached_show_vfb
        (fun v => msgRendererAction SetVfbShow (ArgBool v)) e;
  e ← CHECK_UPDATE cached_viewport_image_quality viewport_image_quality
        set_cached_viewport_image_quality
        (fun v => msgRendererAction SetQuality (ArgInt v)) e;
  e ← CHECK_UPDATE cached_viewport_image_type viewport_image_type
        set_cached_viewport_image_type
        (fun v => msgRendererAction SetViewportImageFormat (ArgInt v)) e;
  CHECK_UPDATE cached_render_mode render_mode set_cached_render_mode
        (fun v => msgRendererAction SetRenderMode (ArgInt v)) e.

Definition set_current_frame (frame : float) (e : ZmqExporter) : option ZmqExporter :=
  if float_neq frame (current_scene_frame e) then
    client_send (msgRendererAction SetCurrentFrame (ArgFloat frame))
                (checkZmqClient (with_current_scene_frame frame e))
  else Some e.

Definition set_render_region (x y w h : Z) (crop : bool) (e : ZmqExporter)
  : option ZmqExporter :=
  let e := checkZmqClient e in
  if crop
  then client_send (msgRendererAction SetCropRegion (ArgListInt [x; y; w; h])) e
  else client_send (msgRendererAction SetRenderRegion (ArgListInt [x; y; w; h])) e.

Definition set_render_size (w h : Z) (e : ZmqExporter) : option ZmqExporter :=
  if bool_decide (w ≠ renderWidth (m_cachedValues e))
     || bool_decide (h ≠ renderHeight (m_cachedValues e)) then
    let e := with_m_cachedValues
               (set_renderHeight h (set_renderWidth w (m_cachedValues e))) e in
    client_send (msgRendererResize w h) (checkZmqClient e)
  else Some e.

Definition set_camera_plugin (pluginName : string) (e : ZmqExporter)
  : option ZmqExporter :=
  if bool_decide (activeCamera (m_cachedValues e) ≠ pluginName) then
    let e := checkZmqClient (with_m_isDirty true e) in
    let e := with_m_cachedValues (set_activeCamera pluginName (m_cachedValues e)) e in
    client_send (msgRendererAction SetCurrentCamera (ArgString pluginName)) e
  else Some e.

Definition set_commit_state (ca : CommitAction) (e : ZmqExporter) : option ZmqExporter :=
  if bool_decide (ca = CommitAutoOn) || bool_decide (ca = CommitAutoOff) then
    if bool_decide (ca ≠ commit_state e) then
      client_send (msgRendererAction SetCommitAction (ArgCommit ca))
                  (checkZmqClient (with_commit_state ca e))
    else Some e
  else if m_isDirty e then
    e1 ← client_send (msgRendererAction SetCommitAction (ArgCommit ca)) (checkZmqClient e);
    Some (with_m_isDirty false e1)
  else Some e.

Definition start (e : ZmqExporter) : option ZmqExporter :=
  client_send (msgRendererAction Start ArgNone) (with_m_started true (checkZmqClient e)).

Definition reset (e : ZmqExporter) : option ZmqExporter :=
  let st := exporter_settings e in
  e ← client_send (msgRendererAction Reset ArgNone) e;
  e ← client_send (msgRendererAction SetVfbShow (ArgBool (show_vfb st))) e;
  e ← client_send (msgRendererAction SetQuality (ArgInt (viewport_image_quality st))) e;
  e ← client_send (msgRendererAction SetViewportImageFormat (ArgInt (viewport_image_type st))) e;
  e ← client_send (msgRendererAction SetRenderMode (ArgInt (render_mode st))) e;
  Some (with_m_cachedValues CachedValues_empty e).

Definition stop (e : ZmqExporter) : option ZmqExporter :=
  client_send (msgRendererAction Stop ArgNone) e.

Definition export_vrscene `{Env} (filepath : string) (e : ZmqExporter)
  : option ZmqExporter :=
  let e := if settings_files_use_separate (exporter_settings e)
           then add_log warning
                  ("ZMQ will ignore option " ++ dquote ++ "Separate Files" ++ dquote
                   ++ " and export in one file!") e
           else e in
  let dirPath := remove_filename filepath in
  if negb (fs_exists dirPath) && negb (fs_create_directories dirPath) then
    Some (add_log error
            ("Failed to create directory " ++ dquote ++ c_str filepath ++ dquote ++ ": "
             ++ c_str (fs_create_directories_message dirPath)) e)
  else
    e1 ← client_send (msgRendererAction ExportScene (ArgString filepath)) (checkZmqClient e);
    client_waitForMessages e1.

Definition remove_plugin_impl `{Env} (name : string) (e : ZmqExporter)
  : option (Z * ZmqExporter) :=
  e1 ← client_send (msgPluginAction name Remove) (checkZmqClient (with_m_isDirty true e));
  Some (PluginExporter_remove_plugin_impl name, e1).

Definition replace_plugin (oldPlugin newPlugin : string) (e : ZmqExporter)
  : option ZmqExporter :=
  client_send (msgPluginReplace oldPlugin newPlugin) (checkZmqClient (with_m_isDirty true e)).

Definition channelMap : list (string * RenderChannelType) :=
  [ ("RenderChannelBumpNormals"%string, RenderChannelTypeVfbBumpnormal);
    ("RenderChannelColor"%string, RenderChannelTypeVfbColor);
    ("RenderChannelDenoiser"%string, RenderChannelTypeVfbDenoised);
    ("RenderChannelDRBucket"%string, RenderChannelTypeDrbucket);
    ("RenderChannelNodeID"%string, RenderChannelTypeVfbNodeid);
    ("RenderChannelNormals"%string, RenderChannelTypeVfbNormal);
    ("RenderChannelRenderID"%string, RenderChannelTypeVfbRenderID);
    ("RenderChannelVelocity"%string, RenderChannelTypeVfbVelocity);
    ("RenderChannelZDepth"%string, RenderChannelTypeVfbZdepth) ].

(** The loop over [channelMap]. *)
Fixpoint channel_loop (pluginID : string) (entries : list (string * RenderChannelType))
    (e : ZmqExporter) : option ZmqExporter :=
  match entries with
  | [] => Some e
  | (first, second) :: rest =>
      e1 ← (if bool_decide (pluginID = first)
            then client_send (msgRendererAction GetImage (ArgChannel second)) e
            else Some e);
      channel_loop pluginID rest e1
  end.

(** The loop over [pluginDesc.pluginAttrs]. *)
Fixpoint attrs_loop (name : string) (attrs : list (string * PluginAttr))
    (e : ZmqExporter) : option ZmqExporter :=
  match attrs with
  | [] => Some e
  | (_, attr) :: rest =>
      e1 ← (match attrValue attr with
            | AttrUnknown => Some e
            | v => client_send (msgPluginSetProperty name (attrName attr) v) e
            end);
      attrs_loop name rest e1
  end.

Definition export_plugin_impl `{Env} (pluginDesc : PluginDesc) (e : ZmqExporter)
  : option (AttrPlugin * ZmqExporter) :=
  let e := checkZmqClient (with_m_isDirty true e) in
  if bool_decide (pluginID pluginDesc = ""%string) then
    Some (AttrPlugin_empty,
          add_log warning ("[" ++ pluginName pluginDesc ++ "] PluginDesc.pluginID is not set!") e)
  else
    count ← int (m_exportedCount e + 1);
    let e := with_m_exportedCount count e in
    let name := pluginName pluginDesc in
    e ← (match GetPluginDescription (pluginID pluginDesc) with
         | PluginChannel => channel_loop (pluginID pluginDesc) channelMap e
         | PluginOther => Some e
         end);
    e ← client_send (msgPluginCreate name (pluginID pluginDesc)) e;
    e ← attrs_loop name (pluginAttrs pluginDesc) e;
    Some (mkAttrPlugin name, e).

Definition getExportedPluginsCount (e : ZmqExporter) : Z := m_exportedCount e.

Definition resetExportedPluginsCount (e : ZmqExporter) : ZmqExporter :=
  with_m_exportedCount 0 e.

(** ** The facade as a transition system *)

(** A call of a member function from the host, or a message dispatched by
    the receive thread. *)
Inductive Op :=
  | op_init (net : LinkStatus)
  | op_free
  | op_clear_frame_data (upTo : float)
  | op_wait_for_server
  | op_sync
  | op_set_current_frame (frame : float)
  | op_set_render_region (x y w h : Z) (crop : bool)
  | op_set_render_size (w h : Z)
  | op_set_camera_plugin (pluginName : string)
  | op_set_commit_state (ca : CommitAction)
  | op_start
  | op_reset
  | op_stop
  | op_export_vrscene (filepath : string)
  | op_remove_plugin (name : string)
  | op_replace_plugin (oldPlugin newPlugin : string)
  | op_export_plugin (pluginDesc : PluginDesc)
  | op_get_render_channel (channelType : RenderChannelType)
  | op_get_image
  | op_getExportedPluginsCount
  | op_resetExportedPluginsCount
  | op_zmqCallback (message : InboundMessage).

Definition exec `{Env} (o : Op) (e : ZmqExporter) : option ZmqExporter :=
  match o with
  | op_init net => init net e
  | op_free => free e
  | op_clear_frame_data upTo => clear_frame_data upTo e
  | op_wait_for_server => wait_for_server e
  | op_sync => sync e
  | op_set_current_frame frame => set_current_frame frame e
  | op_set_render_region x y w h crop => set_render_region x y w h crop e
  | op_set_render_size w h => set_render_size w h e
  | op_set_camera_plugin pluginName => set_camera_plugin pluginName e
  | op_set_commit_state ca => set_commit_state ca e
  | op_start => start e
  | op_reset => reset e
  | op_stop => stop e
  | op_export_vrscene filepath => export_vrscene filepath e
  | op_remove_plugin name => snd <$> remove_plugin_impl name e
  | op_replace_plugin oldPlugin newPlugin => replace_plugin oldPlugin newPlugin e
  | op_export_plugin pluginDesc => snd <$> export_plugin_impl pluginDesc e
  | op_get_render_channel channelType => snd <$> get_render_channel channelType e
  | op_get_image => snd <$> get_image e
  | op_getExportedPluginsCount => Some e
  | op_resetExportedPluginsCount => Some (resetExportedPluginsCount e)
  | op_zmqCallback message => zmqCallback message e
  end.

Fixpoint run `{Env} (ops : list Op) (e : ZmqExporter) : option ZmqExporter :=
  match ops with
  | [] => Some e
  | o :: rest => e1 ← exec o e; run rest e1
  end.

(** ** Vocabulary of the properties *)

(** The commands handed to the transport so far. *)
Definition commands (e : ZmqExporter) : list VRayMessage :=
  match m_client e with
  | Some c => sent c
  | None => []
  end.

(** The tracked fields that differ from the cache, as the commands [sync]
    sends for them, in the order of the four checks. *)
Definition pending (e : ZmqExporter) : list VRayMessage :=
  let st := exporter_settings e in
  let cv := m_cachedValues e in
  (if decide (cached_show_vfb cv = show_vfb st) then []
   else [msgRendererAction SetVfbShow (ArgBool (show_vfb st))])
  ++ (if decide (cached_viewport_image_quality cv = viewport_image_quality st) then []
      else [msgRendererAction SetQuality (ArgInt (viewport_image_quality st))])
  ++ (if decide (cached_viewport_image_type cv = viewport_image_type st) then []
      else [msgRendererAction SetViewportImageFormat (ArgInt (viewport_image_type st))])
  ++ (if decide (cached_render_mode cv = render_mode st) then []
      else [msgRendererAction SetRenderMode (ArgInt (render_mode st))]).

(** The inbound messages that assign [false] to [m_isAborted] and leave it
    so: a renderer-state notice other than an abort. *)
Definition clears_abort (o : Op) : bool :=
  match o with
  | op_zmqCallback (ChangeRenderer SetRendererState Abort) => false
  | op_zmqCallback (ChangeRenderer SetRendererState _) => true
  | _ => false
  end.

(** The operations that begin with [checkZmqClient()] on every path. *)
Definition checks_first (o : Op) : bool :=
  match o with
  | op_free | op_clear_frame_data _ | op_wait_for_server | op_sync
  | op_set_render_region _ _ _ _ _ | op_start | op_remove_plugin _
  | op_replace_plugin _ _ | op_export_plugin _ => true
  | _ => false
  end.

(** The operations that allocate or rewrite pixel blocks. *)
Definition touches_images (o : Op) : bool :=
  match o with
  | op_get_render_channel _ | op_get_image | op_zmqCallback (Image _) => true
  | _ => false
  end.

(** The part of the state the image buffers live in. *)
Definition images_of (e : ZmqExporter) : Store * gmap RenderChannelType RenderImage :=
  (heap e, m_layerImages e).

(** Pixel [p] of a buffer with [chs] floats per pixel. *)
Definition pixel_at (chs : nat) (blk : list float) (p : nat) : list float :=
  take chs (drop (p * chs) blk).

(** A full-frame float payload: [width * height] pixels of four floats. *)
Definition full_frame (img : AttrImage) : Prop :=
  0 <= width img /\ 0 <= height img /\ width img * height img * 4 <= INT_MAX /\
  length (data img) = Z.to_nat (width img * height img * 4).

(** The channel count of the converted buffer. *)
Definition channels_out (t : ImageType) : Z :=
  match t with
  | RGBA_REAL => 4
  | RGB_REAL => 3
  | BW_REAL => 1
  | _ => 0
  end.

(** The region a bucket addresses. *)
Definition bucket_region (img : AttrImage) : ImageRegion :=
  mkRegion (x img) (y img) (width img) (height img).

(** A bucket whose rectangle lies inside a [W] by [H] frame and whose
    payload holds the rectangle's pixels. *)
Definition in_frame (W H : Z) (img : AttrImage) : Prop :=
  0 <= x img /\ 0 <= y img /\ 0 <= width img /\ 0 <= height img /\
  x img + width img <= W /\ y img + height img <= H /\
  width img * height img * 4 <= Z.of_nat (length (data img)).

(** A run of updates of one channel's image, each with the render size the
    exporter has cached at that moment and the caller's flag. *)
Fixpoint updates `{Env} (calls : list (AttrImage * Z * Z * bool))
    (this : RenderImage) (σ : Store) : option (RenderImage * Store) :=
  match calls with
  | [] => Some (this, σ)
  | (img, renderWidth, renderHeight, fixImage) :: rest =>
      match update img renderWidth renderHeight fixImage this σ with
      | Some (this1, σ1, _) => updates rest this1 σ1
      | None => None
      end
  end.

(** The rows a bucket message for [key] would write in the state [e]: on
    the channel's buffer, or on the buffer its first bucket allocates. *)
Definition bucket_rows (e : ZmqExporter) (key : RenderChannelType) (img : AttrImage)
  : list (Z * Z * nat) :=
  let this := default RenderImage_empty (m_layerImages e !! key) in
  let this1 := match pixels this with
               | Some _ => this
               | None => mkRenderImage None (renderWidth (m_cachedValues e))
                                       (renderHeight (m_cachedValues e)) 4
               end in
  region_rows this1 (bucket_region img).

(** Do the writes of a bucket stay inside the bounds of the last resize? *)
Definition within_last_resize (e : ZmqExporter) (key : RenderChannelType) (img : AttrImage)
  : bool :=
  rows_within (renderWidth (m_cachedValues e) * renderHeight (m_cachedValues e) * 4)
              (bucket_rows e key img).

(** The floats of a channel's buffer, and its width, height and channel
    count. *)
Definition channel_block (key : RenderChannelType) (e : ZmqExporter) : option (list float) :=
  img ← m_layerImages e !! key;
  l ← pixels img;
  heap e !! l.

Definition channel_size (key : RenderChannelType) (e : ZmqExporter) : option (Z * Z * Z) :=
  img ← m_layerImages e !! key;
  Some (w img, h img, channels img).

(** The block [l] is the buffer of some channel. *)
Definition owned (e : ZmqExporter) (l : positive) : Prop :=
  exists key img, m_layerImages e !! key = Some img /\ pixels img = Some l.

(** No channel's pixel pointer dangles and no two channels share a block:
    what the constructor establishes and every operation keeps. *)
Definition wf (e : ZmqExporter) : Prop :=
  (forall l, owned e l -> l ∈ dom (heap e)) /\
  (forall k1 k2 img1 img2 l,
      m_layerImages e !! k1 = Some img1 -> m_layerImages e !! k2 = Some img2 ->
      pixels img1 = Some l -> pixels img2 = Some l -> k1 = k2).

(** What the isolation of a caller's block [l] rests on: it is live and
    no channel's buffer. *)
Definition foreign (e : ZmqExporter) (l : positive) : Prop :=
  l ∈ dom (heap e) /\ ~ owned e l.

(** How one update of an image may change the store: the image's pointer
    afterwards is live, and is its old one or a new block; every other
    live block is as it was. *)
Definition confined (this : RenderImage) (σ : Store) (this' : RenderImage) (σ' : Store)
  : Prop :=
  (forall l, pixels this' = Some l ->
             l ∈ dom σ' /\ (pixels this = Some l \/ l ∉ dom σ)) /\
  (forall l, l ∈ dom σ -> pixels this ≠ Some l -> σ' !! l = σ !! l).

(** Read the main channel, run [ops], and return the floats of the copy
    and of the channel's own buffer afterwards. *)
Definition copy_and_buffer_after `{Env} (ops : list Op) (e : ZmqExporter)
  : option (option (list float) * option (list float)) :=
  '(img, e1) ← get_image e;
  e2 ← run ops e1;
  Some (l ← pixels img; heap e2 !! l, channel_block RenderChannelTypeNone e2).

(** ** Sample values for evaluating the model *)

Definition sample_Env : Env := {|
  isBucket := fun img => negb (x img =? -1) && negb (y img =? -1);
  jpegToPixelData := fun img => (Some (data img), 3);
  GetPluginDescription := fun id =>
    if bool_decide (id = "RenderChannelColor"%string) then PluginChannel else PluginOther;
  remove_filename := fun path => path;
  fs_exists := fun _ => true;
  fs_create_directories := fun _ => true;
  fs_create_directories_message := fun _ => "Permission denied"%string;
  PluginExporter_remove_plugin_impl := fun _ => 1;
  Logger_format := fun format =>
    if existsb (Ascii.eqb "%"%char) (list_ascii_of_string format) then None
    else Some format;
  waitForMessages_returns := fun c => connected c && good c
|}.

Definition sample_settings : ExporterSettings :=
  mkSettings true 80 4 0 "" 5555 false false false false [] false.

Definition no_hooks : Hooks := mkHooks false false false false.

(** A facade right after construction, and one whose client is connected. *)
Definition sample_exporter : ZmqExporter := ZmqExporter_new sample_settings false no_hooks.

Definition connected_exporter : ZmqExporter :=
  with_m_client (Some (connect (mkLink true true) "tcp://127.0.0.1:5555" (new_ZmqClient false)))
                sample_exporter.

(** A 3-channel full-frame payload of one pixel. *)
Definition rgb_pixel_frame : AttrImage :=
  mkAttrImage RGB_REAL [f_one_half; f_zero; f_one; f_one_half] 16 1 1 (-1) (-1).

(** A full-frame 4-channel payload of one column and two rows, with the
    out-of-range value 1.5 in its first row; [x = y = -1] marks it as not a
    bucket for [sample_Env]. *)
Definition overbright_frame : AttrImage :=
  mkAttrImage RGBA_REAL
    [f_one_half; f_zero; f_one; f_one_half; f_zero; f_zero; f_zero; f_zero]
    32 1 2 (-1) (-1).

(** The same pixels sent as a bucket at the origin. *)
Definition overbright_bucket : AttrImage :=
  mkAttrImage RGBA_REAL
    [f_one_half; f_zero; f_one; f_one_half; f_zero; f_zero; f_zero; f_zero]
    32 1 2 0 0.

(** A one-pixel white bucket at [(px, py)], and the message that delivers
    it on the main channel. *)
Definition white_bucket (px py : Z) : AttrImage :=
  mkAttrImage RGBA_REAL [f_one; f_one; f_one; f_one] 16 1 1 px py.

Definition bucket_message (img : AttrImage) : Op :=
  op_zmqCallback (Image (mkImageSet [(RenderChannelTypeNone, img)] RtImageUpdate)).

(** The sample facade after a resize to 2 by 2 and one white bucket at the
    origin. *)
Definition populated_exporter : ZmqExporter :=
  default connected_exporter
    (@run sample_Env [op_set_render_size 2 2; bucket_message (white_bucket 0 0)]
          connected_exporter).

(** ** Vocabulary of the plugin export *)

(** Handing a list of commands to the transport, oldest first. *)
Definition push (ms : list VRayMessage) (e : ZmqExporter) : option ZmqExporter :=
  c ← m_client e;
  Some (with_m_client (Some (foldl (fun c m => send m c) c ms)) e).

(** The image channel registered under a plugin type: the first entry of
    [channelMap] with that name. *)
Definition channel_of (id : string) : option RenderChannelType :=
  snd <$> find (fun p => bool_decide (p.1 = id)) channelMap.

(** The command an attribute is exported with, if its type is known. *)
Definition property_command (name : string) (p : string * PluginAttr) : option VRayMessage :=
  match attrValue p.2 with
  | AttrUnknown => None
  | v => Some (msgPluginSetProperty name (attrName p.2) v)
  end.

(** The commands of an accepted export: the image request of a channel
    plugin, the creation, and one command per attribute of known type. *)
Definition plugin_commands `{Env} (d : PluginDesc) : list VRayMessage :=
  (match GetPluginDescription (pluginID d), channel_of (pluginID d) with
   | PluginChannel, Some ch => [msgRendererAction GetImage (ArgChannel ch)]
   | _, _ => []
   end)
  ++ [msgPluginCreate (pluginName d) (pluginID d)]
  ++ omap (property_command (pluginName d)) (pluginAttrs d).

(** The export counter after an operation, from the counter before it. *)
Definition counted (n : Z) (o : Op) : Z :=
  match o with
  | op_resetExportedPluginsCount => 0
  | op_export_plugin d => if bool_decide (pluginID d = ""%string) then n else n + 1
  | _ => n
  end.
(** ** Vocabulary of the inbound dispatch *)

(** The images of a message that go to the bucket hook: buckets of the
    main channel, when the hook is installed. *)
Definition to_bucket_hook `{Env} (hk : Hooks) (p : RenderChannelType * AttrImage) : bool :=
  bool_decide (p.1 = RenderChannelTypeNone) && isBucket p.2 && callback_on_bucket_ready hk.

(** The hook calls an image message ends in, in the order they are made. *)
Definition image_events `{Env} (hk : Hooks) (set : AttrImageSet) : list Event :=
  ((fun p => on_bucket_ready p.2) <$> filter (fun p => to_bucket_hook hk p = true) (images set))
  ++ (if existsb (fun p => negb (to_bucket_hook hk p)) (images set)
         && callback_on_rt_image_updated hk
      then [on_rt_image_updated] else [])
  ++ (if bool_decide (sourceType set = ImageReady) && callback_on_image_ready hk
      then [on_image_ready] else []).
(** ** Vocabulary of the session *)

(** Whether the client is connected once [init] has tried to connect. *)
Definition connected_after (net : LinkStatus) (e : ZmqExporter) : bool :=
  match m_client e with
  | Some c => connected c || link_connected net
  | None => false
  end.

(** The calls that mark the exported state as changed. *)
Definition dirties (o : Op) : bool :=
  match o with
  | op_export_plugin _ | op_remove_plugin _ | op_replace_plugin _ _
  | op_set_camera_plugin _ => true
  | _ => false
  end.

(** The calls that mark it as changed whatever the state. *)
Definition marks_dirty (o : Op) : bool :=
  match o with
  | op_export_plugin _ | op_remove_plugin _ | op_replace_plugin _ _ => true
  | _ => false
  end.

(** Whether [export_vrscene] finds or creates the directory of the file. *)
Definition directory_ready `{Env} (filepath : string) : bool :=
  fs_exists (remove_filename filepath) || fs_create_directories (remove_filename filepath).
(** ** Theorems *)

(** Case analysis on the option-valued steps among the hypotheses. *)
Ltac inv_steps :=
  repeat match goal with
    | Hx : context [let _ := _ in _] |- _ => progress cbv zeta in Hx
    | Hx : mbind _ ?m = Some _ |- _ =>
        destruct m eqn:?; [cbn [mbind option_bind] in Hx | discriminate Hx]
    | Hx : fmap _ ?m = Some _ |- _ =>
        destruct m eqn:?; [cbn [fmap option_fmap option_map] in Hx | discriminate Hx]
    | Hx : (if ?b then _ else _) = Some _ |- _ => destruct b eqn:?
    | Hx : (let '(_, _) := ?p in _) = Some _ |- _ => destruct p eqn:?
    | Hx : Some _ = Some _ |- _ => injection Hx as Hx; try subst
    | Hx : None = Some _ |- _ => discriminate Hx
    | Hx : match ?x with _ => _ end = Some _ |- _ => destruct x eqn:?
    end.


(** C3: the severity of an inbound log line is mapped by three thresholds:
    error up to 9999, warning up to 19999, info up to 29999, and debug above;
    the seven boundary severities map as listed. *)
Theorem msgLevel_banding :
  (forall s : Z,
      (s <= 9999 -> msgLevel s = error) /\
      (9999 < s <= 19999 -> msgLevel s = warning) /\
      (19999 < s <= 29999 -> msgLevel s = info) /\
      (29999 < s -> msgLevel s = debug)) /\
  map msgLevel [0; 9999; 10000; 19999; 20000; 29999; 30000]
    = [error; error; warning; warning; info; info; debug].
Proof.
  split; [| reflexivity].
  intros s. unfold msgLevel, MessageError, MessageWarning, MessageInfo.
  repeat split; intros H;
    repeat match goal with
      | |- context [?a <=? ?b] => destruct (Z.leb_spec a b); try lia
      | |- context [?a >? ?b] => rewrite (Z.gtb_ltb a b); destruct (Z.ltb_spec b a); try lia
      end; simpl; try reflexivity; lia.
Qed.

Lemma msgLevel_banding_witness :
  msgLevel 12000 = warning /\ msgLevel (-5) = error /\ msgLevel 40000 = debug.
Proof.
  pose proof (msgLevel_banding) as [Hband _].
  split; [| split].
  - apply (Hband 12000). lia.
  - apply (Hband (-5)). lia.
  - apply (Hband 40000). lia.
Defined.

(** ** The heartbeat monitor *)

Module ZmqServerFacts.
Import ZmqServer.

Lemma start_installs net addr s : creates (snd (start net addr s)) = 0%nat.
Proof. unfold start, creates. destruct (serverCheck s); reflexivity. Qed.

Lemma starts_created calls :
  forall s, (snd (fst (starts calls s)) <= creates s + 0)%nat \/
            (snd (fst (starts calls s)) <= 1 /\ creates s = 1)%nat.
Proof.
  induction calls as [| [net addr] rest IH]; intros s; simpl.
  - left. lia.
  - pose proof (start_installs net addr s) as Hi.
    destruct (start net addr s) as [r s1] eqn:Es. simpl in Hi.
    specialize (IH s1).
    destruct (starts rest s1) as [[rs n] s2]. simpl in *.
    unfold creates in *. destruct (serverCheck s); [left | right]; lia.
Qed.

(** C8 (as the code has it): [start] creates a connection only when no
    client is installed, and then reports whether [connected()] holds
    after the connect; with a client installed it keeps that client and
    reports [good() && connected()]; so a running, healthy monitor is
    reported without a second connection, a positive answer from an
    installed client means it is healthy, and a run of [start] calls
    creates at most one connection. *)
Theorem start_idempotent_single_connection :
  forall (net : LinkStatus) (addr : string) (s : State),
    (serverCheck s = None /\
     serverCheck (snd (start net addr s)) = Some (connect net addr (new_ZmqClient true)) /\
     fst (start net addr s) = link_connected net
     \/
     (exists c, serverCheck s = Some c) /\
     serverCheck (snd (start net addr s)) = serverCheck s /\
     fst (start net addr s) = isRunning s /\
     isRunning (snd (start net addr s)) = isRunning s) /\
    creates (snd (start net addr s)) = 0%nat /\
    (forall calls, (snd (fst (starts calls s)) <= 1)%nat).
Proof.
  intros net addr s. split; [| split].
  - unfold start, isRunning. destruct (serverCheck s) as [c |] eqn:Ec; simpl.
    + right. repeat split; eauto. destruct (good c && connected c); reflexivity.
    + left. repeat split. destruct (link_connected net); reflexivity.
  - apply start_installs.
  - intros calls. destruct (starts_created calls s) as [Hc | [Hc _]]; [| exact Hc].
    unfold creates in Hc. destruct (serverCheck s); lia.
Qed.

(** C8 (as stated) fails twice. After a connect that did not succeed the
    dead client stays installed, so a later [start] finds no running
    monitor and still creates no connection, even when the server is
    reachable by then. And a first [start] whose client comes out
    connected but not good reports success although [isRunning] is
    false. *)
Lemma start_as_specified_counterexample :
  let addr := "tcp://127.0.0.1:5555"%string in
  let dead := snd (start (mkLink false false) addr (mkState None [])) in
  isRunning dead = false /\
  start (mkLink true true) addr dead
    = (false, mkState (serverCheck dead)
                      (log dead ++ [(error, "Heartbeat client already running..."%string)])) /\
  (start_as_specified (mkLink true true) addr dead <-> False) /\
  fst (start (mkLink true false) addr (mkState None [])) = true /\
  isRunning (snd (start (mkLink true false) addr (mkState None []))) = false /\
  (start_as_specified (mkLink true false) addr (mkState None []) <-> False).
Proof.
  split; [reflexivity | split; [reflexivity |]].
  split; [| split; [reflexivity | split; [reflexivity |]]].
  - split; [| tauto].
    unfold start_as_specified. simpl.
    intros (_ & Hnew & _). specialize (Hnew eq_refl) as [Hnew _].
    discriminate Hnew.
  - split; [| tauto].
    unfold start_as_specified. simpl.
    intros (_ & _ & [Hrun _]). specialize (Hrun eq_refl). discriminate Hrun.
Qed.

End ZmqServerFacts.

(** ** The exporter facade *)

Section Facade.
Context `{Env}.

Lemma checkZmqClient_client (e : ZmqExporter) :
  m_client (checkZmqClient e) = Some (default (new_ZmqClient false) (m_client e)).
Proof.
  unfold checkZmqClient. destruct (m_client e) as [c |] eqn:Ec; simpl; [| reflexivity].
  destruct (connected c), (good c); simpl; exact Ec.
Qed.

Lemma checkZmqClient_commands (e : ZmqExporter) :
  commands (checkZmqClient e) = commands e.
Proof.
  unfold commands. rewrite checkZmqClient_client.
  destruct (m_client e); reflexivity.
Qed.

Lemma checkZmqClient_frame (e : ZmqExporter) :
  exporter_settings (checkZmqClient e) = exporter_settings e /\
  m_cachedValues (checkZmqClient e) = m_cachedValues e /\
  m_isDirty (checkZmqClient e) = m_isDirty e /\
  m_exportedCount (checkZmqClient e) = m_exportedCount e /\
  m_layerImages (checkZmqClient e) = m_layerImages e /\
  heap (checkZmqClient e) = heap e /\
  log (checkZmqClient e) = log e.
Proof.
  unfold checkZmqClient. destruct (m_client e) as [c |]; simpl; [| tauto].
  destruct (connected c), (good c); simpl; tauto.
Qed.

Lemma checkZmqClient_aborted (e : ZmqExporter) :
  m_isAborted (checkZmqClient e) =
    m_isAborted e ||
    match m_client e with
    | Some c => negb (connected c) || negb (good c)
    | None => false
    end.
Proof.
  unfold checkZmqClient. destruct (m_client e) as [c |]; simpl.
  - destruct (connected c), (good c); simpl;
      rewrite ?orb_true_r, ?orb_false_r; reflexivity.
  - rewrite orb_false_r. reflexivity.
Qed.

Lemma CHECK_UPDATE_sends {A : Type} `{EqDecision A}
    (cached : CachedValues -> A) (setting : ExporterSettings -> A)
    (set_cached : A -> CachedValues -> CachedValues) (upd : A -> VRayMessage)
    (e : ZmqExporter) (c : ZmqClient) :
  m_client e = Some c ->
  exists e' c',
    CHECK_UPDATE cached setting set_cached upd e = Some e' /\
    m_client e' = Some c' /\
    exporter_settings e' = exporter_settings e /\
    commands e' = commands e ++
      (if decide (cached (m_cachedValues e) = setting (exporter_settings e))
       then [] else [upd (setting (exporter_settings e))]) /\
    m_cachedValues e' =
      (if decide (cached (m_cachedValues e) = setting (exporter_settings e))
       then m_cachedValues e
       else set_cached (setting (exporter_settings e)) (m_cachedValues e)).
Proof.
  intros Hc. unfold CHECK_UPDATE, client_send, commands. rewrite Hc. simpl.
  destruct (decide _).
  - exists e, c. rewrite Hc, app_nil_r. auto.
  - eexists _, _. split; [reflexivity |]. simpl. auto.
Qed.

Lemma sync_sends (e : ZmqExporter) :
  exists e1,
    sync e = Some e1 /\
    commands e1 = commands e ++ pending e /\
    exporter_settings e1 = exporter_settings e /\
    m_cachedValues e1
      = mkCached (show_vfb (exporter_settings e))
                 (viewport_image_quality (exporter_settings e))
                 (viewport_image_type (exporter_settings e))
                 (render_mode (exporter_settings e))
                 (activeCamera (m_cachedValues e))
                 (renderWidth (m_cachedValues e))
                 (renderHeight (m_cachedValues e)).
Proof.
  unfold sync, pending.
  pose proof (checkZmqClient_client e) as Hc.
  pose proof (checkZmqClient_commands e) as Hs.
  destruct (checkZmqClient_frame e) as (Hst & Hcv & _).
  rewrite <- Hs, <- Hst, <- Hcv.
  generalize dependent (checkZmqClient e). intros e0 Hc _ _ _.
  destruct (CHECK_UPDATE_sends cached_show_vfb show_vfb set_cached_show_vfb
              (fun v => msgRendererAction SetVfbShow (ArgBool v)) e0 _ Hc)
    as (e1 & c1 & -> & Hc1 & Hst1 & Hs1 & Hv1).
  destruct (CHECK_UPDATE_sends cached_viewport_image_quality viewport_image_quality
              set_cached_viewport_image_quality
              (fun v => msgRendererAction SetQuality (ArgInt v)) e1 _ Hc1)
    as (e2 & c2 & E2 & Hc2 & Hst2 & Hs2 & Hv2).
  destruct (CHECK_UPDATE_sends cached_viewport_image_type viewport_image_type
              set_cached_viewport_image_type
              (fun v => msgRendererAction SetViewportImageFormat (ArgInt v)) e2 _ Hc2)
    as (e3 & c3 & E3 & Hc3 & Hst3 & Hs3 & Hv3).
  destruct (CHECK_UPDATE_sends cached_render_mode render_mode set_cached_render_mode
              (fun v => msgRendererAction SetRenderMode (ArgInt v)) e3 _ Hc3)
    as (e4 & c4 & E4 & Hc4 & Hst4 & Hs4 & Hv4).
  exists e4. simpl. rewrite E2. simpl. rewrite E3. simpl. rewrite E4.
  split; [reflexivity |].
  rewrite Hst3 in *. rewrite Hst2 in *. rewrite Hst1 in *.
  split; [| split; [exact Hst4 |]].
  - rewrite Hs4, Hs3, Hs2, Hs1, Hv3, Hv2, Hv1, <- !app_assoc.
    clear. generalize (exporter_settings e0) as st. intros st.
    destruct (m_cachedValues e0) as [c1 c2 c3 c4 cam rw rh].
    unfold set_cached_show_vfb, set_cached_viewport_image_quality,
      set_cached_viewport_image_type, set_cached_render_mode. simpl.
    destruct (decide (c1 = show_vfb st)); simpl;
      destruct (decide (c2 = viewport_image_quality st)); simpl;
      destruct (decide (c3 = viewport_image_type st)); simpl; reflexivity.
  - rewrite Hv4, Hv3, Hv2, Hv1.
    clear. generalize (exporter_settings e0) as st. intros st.
    destruct (m_cachedValues e0) as [c1 c2 c3 c4 cam rw rh].
    unfold set_cached_show_vfb, set_cached_viewport_image_quality,
      set_cached_viewport_image_type, set_cached_render_mode. simpl.
    destruct (decide (c1 = show_vfb st)); simpl;
      destruct (decide (c2 = viewport_image_quality st)); simpl;
      destruct (decide (c3 = viewport_image_type st)); simpl;
      destruct (decide (c4 = render_mode st)); simpl; congruence.
Qed.
(** C2: a second [sync] with the configuration unchanged sends nothing;
    and when exactly one of the four tracked fields differs from the
    cache, [sync] sends exactly the command of that field and the cache
    holds the configured values afterwards. *)
Theorem sync_cache_suppression (e : ZmqExporter) :
  let st := exporter_settings e in
  let cv := m_cachedValues e in
  let vfb := cached_show_vfb cv = show_vfb st in
  let quality := cached_viewport_image_quality cv = viewport_image_quality st in
  let format := cached_viewport_image_type cv = viewport_image_type st in
  let mode := cached_render_mode cv = render_mode st in
  exists e1 e2,
    sync e = Some e1 /\ sync e1 = Some e2 /\
    exporter_settings e1 = st /\
    commands e2 = commands e1 /\
    m_cachedValues e1
      = mkCached (show_vfb st) (viewport_image_quality st) (viewport_image_type st)
                 (render_mode st) (activeCamera cv) (renderWidth cv) (renderHeight cv) /\
    (vfb /\ quality /\ format /\ mode -> commands e1 = commands e) /\
    (~ vfb /\ quality /\ format /\ mode ->
     commands e1 = commands e ++ [msgRendererAction SetVfbShow (ArgBool (show_vfb st))]) /\
    (vfb /\ ~ quality /\ format /\ mode ->
     commands e1 = commands e
                   ++ [msgRendererAction SetQuality (ArgInt (viewport_image_quality st))]) /\
    (vfb /\ quality /\ ~ format /\ mode ->
     commands e1 = commands e
                   ++ [msgRendererAction SetViewportImageFormat
                         (ArgInt (viewport_image_type st))]) /\
    (vfb /\ quality /\ format /\ ~ mode ->
     commands e1 = commands e ++ [msgRendererAction SetRenderMode (ArgInt (render_mode st))]).
Proof.
  intros st cv vfb quality format mode.
  destruct (sync_sends e) as (e1 & Hs1 & Hc1 & Hst1 & Hcv1).
  destruct (sync_sends e1) as (e2 & Hs2 & Hc2 & _).
  assert (Hp1 : pending e1 = []).
  { unfold pending. rewrite Hst1, Hcv1. simpl.
    repeat (destruct (decide _); [| congruence]). reflexivity. }
  exists e1, e2. split; [exact Hs1 |]. split; [exact Hs2 |].
  split; [exact Hst1 |]. split; [rewrite Hc2, Hp1, app_nil_r; reflexivity |].
  split; [exact Hcv1 |].
  rewrite Hc1. unfold pending. subst vfb quality format mode st cv.
  repeat split; intros (Hvfb & Hqua & Hfor & Hmod);
    repeat match goal with
           | |- context [decide ?P] => destruct (decide P)
           end; simpl; rewrite ?app_nil_r; try reflexivity; tauto.
Qed.

(** *** The aborted flag *)

Lemma client_send_aborted m e e' :
  client_send m e = Some e' -> m_isAborted e' = m_isAborted e.
Proof. unfold client_send. intros; simplify_option_eq. reflexivity. Qed.

Lemma checkZmqClient_keeps e :
  m_isAborted e = true -> m_isAborted (checkZmqClient e) = true.
Proof. intros Ha. rewrite checkZmqClient_aborted, Ha. reflexivity. Qed.

Lemma CHECK_UPDATE_aborted {A : Type} `{EqDecision A}
    (cached : CachedValues -> A) setting set_cached upd e e' :
  CHECK_UPDATE cached setting set_cached upd e = Some e' ->
  m_isAborted e' = m_isAborted e.
Proof.
  unfold CHECK_UPDATE. intros Hc. destruct (decide _); simplify_option_eq; [reflexivity |].
  match goal with Hs : client_send _ _ = Some _ |- _ => apply client_send_aborted in Hs end.
  assumption.
Qed.

Lemma channel_loop_aborted id entries :
  forall e e', channel_loop id entries e = Some e' -> m_isAborted e' = m_isAborted e.
Proof.
  induction entries as [| [first second] rest IH]; intros e e' Hl; simpl in Hl.
  - congruence.
  - destruct (bool_decide (id = first)); simplify_option_eq.
    + match goal with Hs : client_send _ _ = Some _ |- _ =>
        apply client_send_aborted in Hs; rewrite <- Hs end.
      eauto.
    + eauto.
Qed.

Lemma attrs_loop_aborted name attrs :
  forall e e', attrs_loop name attrs e = Some e' -> m_isAborted e' = m_isAborted e.
Proof.
  induction attrs as [| [key attr] rest IH]; intros e e' Hl; simpl in Hl.
  - congruence.
  - destruct (attrValue attr); simplify_option_eq;
      try match goal with Hs : client_send _ _ = Some _ |- _ =>
            apply client_send_aborted in Hs; rewrite <- Hs end;
      eauto.
Qed.

Lemma image_loop_aborted imgs :
  forall rt e rt' e', image_loop imgs rt e = Some (rt', e') ->
                      m_isAborted e' = m_isAborted e.
Proof.
  induction imgs as [| [first second] rest IH]; intros rt e rt' e' Hl; simpl in Hl.
  - congruence.
  - destruct (update _ _ _ _ _ _) as [[[this1 σ1] lg] |]; simpl in Hl; [| discriminate].
    destruct (_ && _ && _); apply IH in Hl; exact Hl.
Qed.

Lemma client_waitForMessages_inv e e' :
  client_waitForMessages e = Some e' -> e' = e.
Proof.
  unfold client_waitForMessages. destruct (m_client e) as [c |]; simpl; [| congruence].
  destruct (waitForMessages_returns c); congruence.
Qed.

Ltac sends_keep_flag :=
  repeat match goal with
    | Hs : client_waitForMessages _ = Some _ |- _ =>
        apply client_waitForMessages_inv in Hs; subst
    | Hs : client_send _ _ = Some _ |- _ => apply client_send_aborted in Hs
    | Hs : CHECK_UPDATE _ _ _ _ _ = Some _ |- _ => apply CHECK_UPDATE_aborted in Hs
    | Hs : channel_loop _ _ _ = Some _ |- _ => apply channel_loop_aborted in Hs
    | Hs : attrs_loop _ _ _ = Some _ |- _ => apply attrs_loop_aborted in Hs
    | Hs : image_loop _ _ _ = Some _ |- _ => apply image_loop_aborted in Hs
    end.

Ltac chain_flag :=
  cbn [m_isAborted with_m_cachedValues with_m_client with_m_isDirty with_m_started
       with_m_exportedCount with_log with_events with_heap with_m_layerImages
       with_current_scene_frame with_commit_state add_log add_event
       with_render_progress with_progress_message with_last_rendered_frame] in *;
  repeat match goal with
    | Hs : m_isAborted ?a = _ |- _ => is_var a; rewrite Hs in *; clear Hs
    end.


Ltac finish_flag Ha :=
  sends_keep_flag; cbn [snd] in *;
  repeat match goal with
    | |- context [if ?b then _ else _] => destruct b
    | Hs : context [if ?b then _ else _] |- _ => destruct b
    end;
  chain_flag;
  rewrite ?checkZmqClient_aborted; chain_flag; rewrite ?Ha; try reflexivity.

Lemma exec_keeps_aborted (o : Op) (e e' : ZmqExporter) :
  clears_abort o = false ->
  m_isAborted e = true ->
  exec o e = Some e' ->
  m_isAborted e' = true.
Proof.
  intros Hclr Ha Hex.
  destruct o; cbn [exec] in Hex;
    unfold init, free, clear_frame_data, wait_for_server, sync,
      set_current_frame, set_render_region, set_render_size, set_camera_plugin,
      set_commit_state, start, reset, stop, export_vrscene, remove_plugin_impl,
      replace_plugin, export_plugin_impl, get_image, get_render_channel, deepCopy,
      resetExportedPluginsCount, zmqCallback in Hex;
    inv_steps; try discriminate; finish_flag Ha.
Qed.

Lemma run_keeps_aborted (ops : list Op) :
  forall e e',
    Forall (fun o => clears_abort o = false) ops ->
    m_isAborted e = true ->
    run ops e = Some e' ->
    m_isAborted e' = true.
Proof.
  induction ops as [| o rest IH]; intros e e' Hall Ha Hrun; simpl in Hrun.
  - congruence.
  - inversion Hall as [| ? ? Ho Hrest]; subst.
    destruct (exec o e) as [e1 |] eqn:Ex; simpl in Hrun; [| discriminate].
    exact (IH e1 e' Hrest (exec_keeps_aborted o e e1 Ho Ha Ex) Hrun).
Qed.

Lemma exec_clears_aborted (o : Op) (e e' : ZmqExporter) :
  clears_abort o = true -> exec o e = Some e' -> m_isAborted e' = false.
Proof.
  intros Hclr Hex. destruct o; try discriminate Hclr.
  destruct message as [| | action state |]; try discriminate Hclr.
  destruct action; try discriminate Hclr.
  destruct state; try discriminate Hclr; cbn in Hex; injection Hex as <-; reflexivity.
Qed.

(** C1 (as the code has it): the aborted flag is set by an abort notice
    and by the health check on a disconnected or bad client; every
    renderer-state notice other than an abort clears it; and no other
    inbound message and no facade operation clears it, so it stays set
    along any run without such a notice. *)
Theorem aborted_cleared_only_by_state_notice (ops : list Op) (e e' : ZmqExporter) :
  Forall (fun o => clears_abort o = false) ops ->
  m_isAborted e = true ->
  run ops e = Some e' ->
  m_isAborted e' = true /\
  (forall e0 o e1, clears_abort o = true -> exec o e0 = Some e1 -> m_isAborted e1 = false) /\
  (forall e0, m_isAborted <$> zmqCallback (ChangeRenderer SetRendererState Abort) e0
              = Some true) /\
  (forall e0 c, m_client e0 = Some c -> connected c && good c = false ->
                m_isAborted (checkZmqClient e0) = true).
Proof.
  intros Hall Ha Hrun. split; [eapply run_keeps_aborted; eauto |].
  split; [intros e0 o e1; apply exec_clears_aborted |].
  split; [reflexivity |].
  intros e0 c Hc Hbad. rewrite checkZmqClient_aborted, Hc.
  destruct (connected c), (good c); try discriminate Hbad; apply orb_true_r.
Qed.

(** *** [export_plugin] with an empty type identifier *)


(** *** The health check before a send *)

(** An operation that begins with the health check marks the session
    aborted when it finds the client disconnected or not good. *)
Lemma health_check_marks_aborted (o : Op) (e e' : ZmqExporter) (c : ZmqClient) :
  checks_first o = true ->
  m_client e = Some c ->
  connected c && good c = false ->
  exec o e = Some e' ->
  m_isAborted e' = true.
Proof.
  intros Hchk Hc Hbad Hex.
  assert (Hdirty : forall b, m_isAborted (checkZmqClient (with_m_isDirty b e)) = true).
  { intros b. rewrite checkZmqClient_aborted. cbn [m_client with_m_isDirty]. rewrite Hc.
    destruct (connected c), (good c); try discriminate Hbad; apply orb_true_r. }
  assert (Hplain : m_isAborted (checkZmqClient e) = true).
  { rewrite checkZmqClient_aborted, Hc.
    destruct (connected c), (good c); try discriminate Hbad; apply orb_true_r. }
  destruct o; try discriminate Hchk; cbn [exec] in Hex;
    unfold free, clear_frame_data, wait_for_server, sync, set_render_region, start,
      remove_plugin_impl, replace_plugin, export_plugin_impl in Hex;
    inv_steps; sends_keep_flag; cbn [snd] in *; chain_flag;
    rewrite ?Hdirty, ?Hplain; reflexivity.
Qed.

(** *** Operations that send without the health check *)

Lemma stop_skips_health_check (e e' : ZmqExporter) :
  stop e = Some e' ->
  m_isAborted e' = m_isAborted e /\
  commands e' = commands e ++ [msgRendererAction Stop ArgNone].
Proof.
  unfold stop, client_send, commands. intros Hs.
  destruct (m_client e) as [c |]; simpl in Hs; [| discriminate].
  injection Hs as <-. split; reflexivity.
Qed.

Lemma reset_skips_health_check (e e' : ZmqExporter) :
  reset e = Some e' -> m_isAborted e' = m_isAborted e.
Proof.
  unfold reset. intros Hex. inv_steps. sends_keep_flag. chain_flag. reflexivity.
Qed.

End Facade.

(** C1 (as stated) fails: on a facade that received an abort notice, a
    progress notice puts the flag back to false. *)
Lemma aborted_flag_counterexample :
  let abort := op_zmqCallback (ChangeRenderer SetRendererState Abort) in
  let progress := op_zmqCallback (ChangeRenderer SetRendererState (Progress f_one_half)) in
  m_isAborted <$> @run sample_Env [abort] connected_exporter = Some true /\
  m_isAborted <$> @run sample_Env [abort; progress] connected_exporter = Some false.
Proof. split; reflexivity. Qed.

Lemma aborted_cleared_only_by_state_notice_witness :
  let ops := [op_sync; op_zmqCallback (VRayLog "warning: slow" 15000); op_start;
              op_set_render_size 4 4; op_stop] in
  exists e',
    @run sample_Env ops (with_m_isAborted true connected_exporter) = Some e' /\
    m_isAborted e' = true.
Proof.
  eexists. split; [vm_compute; reflexivity |].
  refine (proj1 (@aborted_cleared_only_by_state_notice sample_Env
                   [op_sync; op_zmqCallback (VRayLog "warning: slow" 15000); op_start;
                    op_set_render_size 4 4; op_stop]
                   (with_m_isAborted true connected_exporter) _ _ _ _)).
  - repeat constructor.
  - reflexivity.
  - vm_compute. reflexivity.
Defined.



(** C10: [stop] and [reset] hand their commands to the transport without
    the health check that the other sending operations run first: on a
    facade whose client is not connected they send and leave the session
    unmarked, where [start] and [free] mark it aborted. *)
Theorem stop_reset_send_unchecked :
  let e := sample_exporter in
  (connected <$> m_client e) = Some false /\
  m_isAborted e = false /\
  stop e = Some (with_m_client (send (msgRendererAction Stop ArgNone) <$> m_client e) e) /\
  m_isAborted <$> stop e = Some false /\
  m_isAborted <$> reset e = Some false /\
  length <$> (commands <$> reset e) = Some 5%nat /\
  m_isAborted <$> start e = Some true /\
  m_isAborted <$> free e = Some true.
Proof. repeat split; reflexivity. Qed.

(** ** The image assembly buffer *)

Section Images.
Context `{Env}.

Lemma int_Some (z : Z) : INT_MIN <= z <= INT_MAX -> int z = Some z.
Proof.
  intros [Hlo Hhi]. unfold int.
  destruct (Z.leb_spec INT_MIN z); [| lia].
  destruct (Z.leb_spec z INT_MAX); [| lia]. reflexivity.
Qed.

Lemma float_count_Some (w h c : Z) :
  0 <= w -> 0 <= h -> 0 <= c -> w * h * c <= INT_MAX -> 0 < c ->
  float_count w h c = Some (Z.to_nat (w * h * c)).
Proof.
  intros Hw Hh Hc Hmax Hpos. unfold float_count.
  assert (0 <= w * h) by nia.
  assert (w * h <= w * h * c) by nia.
  rewrite int_Some by (unfold INT_MIN, INT_MAX in *; lia). cbn [mbind option_bind].
  rewrite int_Some by (unfold INT_MIN, INT_MAX in *; nia). cbn [mbind option_bind].
  destruct (Z.leb_spec 0 (w * h * c)); [reflexivity | nia].
Qed.

Lemma load_at_nat (i : nat) (blk : list float) :
  load_at (Z.of_nat i) blk = blk !! i.
Proof.
  unfold load_at. destruct (Z.leb_spec 0 (Z.of_nat i)); [| lia].
  rewrite Nat2Z.id. reflexivity.
Qed.

Lemma store_at_nat (i : nat) (v : float) (blk : list float) :
  (i < length blk)%nat -> store_at (Z.of_nat i) v blk = Some (<[i := v]> blk).
Proof.
  intros Hi. unfold store_at.
  destruct (Z.leb_spec 0 (Z.of_nat i)); [| lia].
  destruct (Z.ltb_spec (Z.of_nat i) (Z.of_nat (length blk))); [| lia].
  rewrite Nat2Z.id. reflexivity.
Qed.

(** The [RGB_REAL] loop from pixel [c] on: it runs to the end when source
    and destination are long enough, leaves the pixels before [c] alone
    and copies the first three floats of each pixel from [c] on. *)
Lemma rgb_loop_spec (imgData : list float) (n : nat) :
  forall (c : nat) (myImage : list float),
    Z.of_nat (4 * (c + n)) <= INT_MAX ->
    (4 * (c + n) <= length imgData)%nat ->
    (3 * (c + n) <= length myImage)%nat ->
    exists out,
      rgb_loop imgData n (Z.of_nat c) myImage = Some out /\
      length out = length myImage /\
      (forall i, (i < 3 * c)%nat \/ (3 * (c + n) <= i)%nat -> out !! i = myImage !! i) /\
      (forall p k, (c <= p < c + n)%nat -> (k < 3)%nat ->
                   out !! (3 * p + k)%nat = imgData !! (4 * p + k)%nat).
Proof.
  induction n as [| n IH]; intros c myImage Hint Hsrc Hdst.
  - exists myImage. simpl. repeat split; auto. intros; lia.
  - cbn [rgb_loop].
    rewrite !int_Some by (unfold INT_MIN; lia). cbn [mbind option_bind].
    replace (Z.of_nat c * 4) with (Z.of_nat (4 * c)) by lia.
    replace (Z.of_nat (4 * c) + 1) with (Z.of_nat (4 * c + 1)) by lia.
    replace (Z.of_nat (4 * c) + 2) with (Z.of_nat (4 * c + 2)) by lia.
    replace (Z.of_nat c * 3) with (Z.of_nat (3 * c)) by lia.
    replace (Z.of_nat (3 * c) + 1) with (Z.of_nat (3 * c + 1)) by lia.
    replace (Z.of_nat (3 * c) + 2) with (Z.of_nat (3 * c + 2)) by lia.
    replace (Z.of_nat c + 1) with (Z.of_nat (S c)) by lia.
    rewrite !load_at_nat.
    destruct (lookup_lt_is_Some_2 imgData (4 * c)%nat ltac:(lia)) as [s0 E0].
    destruct (lookup_lt_is_Some_2 imgData (4 * c + 1)%nat ltac:(lia)) as [s1 E1].
    destruct (lookup_lt_is_Some_2 imgData (4 * c + 2)%nat ltac:(lia)) as [s2 E2].
    rewrite E0. cbn [mbind option_bind].
    rewrite store_at_nat by lia. cbn [mbind option_bind].
    rewrite E1. cbn [mbind option_bind].
    rewrite store_at_nat by (rewrite length_insert; lia). cbn [mbind option_bind].
    rewrite E2. cbn [mbind option_bind].
    rewrite store_at_nat by (rewrite !length_insert; lia). cbn [mbind option_bind].
    destruct (IH (S c) (<[(3 * c + 2)%nat := s2]> (<[(3 * c + 1)%nat := s1]> (<[(3 * c)%nat := s0]> myImage))))
      as (out & Hout & Hlen & Hkeep & Hcopy).
    { lia. } { lia. } { rewrite !length_insert. lia. }
    exists out. split; [exact Hout |]. rewrite !length_insert in Hlen.
    split; [exact Hlen |]. split.
    + intros i Hi. rewrite Hkeep by lia.
      rewrite !list_lookup_insert_ne by lia. reflexivity.
    + intros p k Hp Hk.
      destruct (decide (p = c)) as [-> | Hne].
      * rewrite Hkeep by lia.
        assert (k = 0 \/ k = 1 \/ k = 2)%nat as [-> | [-> | ->]] by lia.
        -- rewrite !list_lookup_insert_ne by lia.
           rewrite !Nat.add_0_r, list_lookup_insert_eq by lia. congruence.
        -- rewrite list_lookup_insert_ne by lia.
           rewrite list_lookup_insert_eq by (rewrite length_insert; lia). congruence.
        -- rewrite list_lookup_insert_eq by (rewrite !length_insert; lia). congruence.
      * apply Hcopy; lia.
Qed.

Lemma bw_loop_spec (imgData : list float) (n : nat) :
  forall (c : nat) (myImage : list float),
    Z.of_nat (4 * (c + n)) <= INT_MAX ->
    (4 * (c + n) <= length imgData)%nat ->
    (c + n <= length myImage)%nat ->
    exists out,
      bw_loop imgData n (Z.of_nat c) myImage = Some out /\
      length out = length myImage /\
      (forall i, (i < c)%nat \/ (c + n <= i)%nat -> out !! i = myImage !! i) /\
      (forall p, (c <= p < c + n)%nat -> out !! p = imgData !! (4 * p)%nat).
Proof.
  induction n as [| n IH]; intros c myImage Hint Hsrc Hdst.
  - exists myImage. simpl. repeat split; auto. intros; lia.
  - cbn [bw_loop].
    rewrite !int_Some by (unfold INT_MIN; lia). cbn [mbind option_bind].
    replace (Z.of_nat c * 4) with (Z.of_nat (4 * c)) by lia.
    replace (Z.of_nat c * 1) with (Z.of_nat c) by lia.
    replace (Z.of_nat c + 1) with (Z.of_nat (S c)) by lia.
    rewrite load_at_nat.
    destruct (lookup_lt_is_Some_2 imgData (4 * c)%nat ltac:(lia)) as [s0 E0].
    rewrite E0. cbn [mbind option_bind].
    rewrite store_at_nat by lia. cbn [mbind option_bind].
    destruct (IH (S c) (<[c := s0]> myImage)) as (out & Hout & Hlen & Hkeep & Hcopy).
    { lia. } { lia. } { rewrite length_insert. lia. }
    exists out. split; [exact Hout |]. rewrite length_insert in Hlen.
    split; [exact Hlen |]. split.
    + intros i Hi. rewrite Hkeep by lia.
      rewrite list_lookup_insert_ne by lia. reflexivity.
    + intros p Hp.
      destruct (decide (p = c)) as [-> | Hne].
      * rewrite Hkeep by lia. rewrite list_lookup_insert_eq by lia. congruence.
      * apply Hcopy; lia.
Qed.

(** A [memcpy] of the whole source over the whole destination. *)
Lemma copy_floats_whole (src dst : list float) :
  length dst = length src ->
  copy_floats src 0 dst 0 (length src) = Some src.
Proof.
  intros Hlen. unfold copy_floats. rewrite Hlen. cbn [Z.to_nat].
  destruct (Z.leb_spec 0 0); [| lia].
  destruct (Z.leb_spec (0 + Z.of_nat (length src)) (Z.of_nat (length src))); [| lia].
  cbn [andb Z.to_nat]. rewrite drop_0, firstn_all.
  rewrite drop_ge by (rewrite Hlen; lia). cbn [take]. rewrite app_nil_r. reflexivity.
Qed.

Lemma pixel_at_lookup (chs : nat) (blk : list float) (p k : nat) :
  pixel_at chs blk p !! k = if decide (k < chs)%nat then blk !! (p * chs + k)%nat else None.
Proof.
  unfold pixel_at. rewrite lookup_take. destruct (decide (k < chs)%nat); [| reflexivity].
  apply lookup_drop.
Qed.

Lemma replace_pixels_Some content chs img this σ :
  replace_pixels (Some content) chs img this σ
  = (mkRenderImage (Some (fresh (dom σ))) (width img) (height img) chs,
     delete_pixels (pixels this) (<[fresh (dom σ) := content]> σ)).
Proof. reflexivity. Qed.

(** The [switch] on a full-frame float payload: it builds the new buffer,
    pixel by pixel as the image type asks. *)
Lemma convert_float_image_spec (img : AttrImage) :
  full_frame img ->
  imageType img = RGBA_REAL \/ imageType img = RGB_REAL \/ imageType img = BW_REAL ->
  exists blk : list float,
    convert_float_image img = Some (Some blk, channels_out (imageType img), []) /\
    Z.of_nat (length blk) = width img * height img * channels_out (imageType img) /\
    (imageType img = RGBA_REAL -> blk = data img) /\
    (forall (p : nat) (r g b a : float),
        Z.of_nat p < width img * height img ->
        pixel_at 4 (data img) p = [r; g; b; a] ->
        (imageType img = RGBA_REAL -> pixel_at 4 blk p = [r; g; b; a]) /\
        (imageType img = RGB_REAL -> pixel_at 3 blk p = [r; g; b]) /\
        (imageType img = BW_REAL -> pixel_at 1 blk p = [r])).
Proof.
  intros (Hw & Hh & Hmax & Hlen) Htype.
  assert (Hwh : 0 <= width img * height img) by nia.
  unfold convert_float_image, pixel_count.
  set (N := Z.to_nat (width img * height img)).
  assert (HN : Z.of_nat N = width img * height img) by (subst N; lia).
  assert (Hlen' : length (data img) = (4 * N)%nat) by (rewrite Hlen; lia).
  rewrite (int_Some (width img * height img)) by (unfold INT_MIN, INT_MAX in *; lia).
  destruct Htype as [Ht | [Ht | Ht]]; rewrite Ht; cbn [channels_out].
  - (* RGBA_REAL *)
    rewrite float_count_Some by lia. cbn [mbind option_bind].
    rewrite <- Hlen.
    rewrite copy_floats_whole by apply length_replicate.
    cbn [mbind option_bind].
    exists (data img). split; [reflexivity |].
    split; [lia |]. split; [reflexivity |].
    intros p r g b a Hp Hpx. repeat split; intros; try discriminate. exact Hpx.
  - (* RGB_REAL *)
    rewrite float_count_Some by lia. cbn [mbind option_bind].
    destruct (rgb_loop_spec (data img) N 0
                (replicate (Z.to_nat (width img * height img * 3)) f_zero))
      as (out & Hout & Hlo & _ & Hcopy).
    { lia. } { lia. } { rewrite length_replicate. lia. }
    change (Z.of_nat 0) with 0 in Hout. unfold N in Hout. rewrite Hout.
    cbn [mbind option_bind]. rewrite length_replicate in Hlo.
    exists out. split; [reflexivity |].
    split; [lia |]. split; [intros; discriminate |].
    intros p r g b a Hp Hpx. repeat split; intros; try discriminate.
    apply list_eq. intros k. rewrite pixel_at_lookup.
    pose proof (pixel_at_lookup 4 (data img) p k) as Hsrc. rewrite Hpx in Hsrc.
    destruct (decide (k < 3)%nat) as [Hk | Hk].
    + replace (p * 3 + k)%nat with (3 * p + k)%nat by lia.
      rewrite Hcopy by lia.
      destruct (decide (k < 4)%nat); [| lia].
      replace (4 * p + k)%nat with (p * 4 + k)%nat by lia. rewrite <- Hsrc.
      destruct k as [| [| [| k]]]; try reflexivity; lia.
    + destruct k as [| [| [| k]]]; try reflexivity; lia.
  - (* BW_REAL *)
    rewrite float_count_Some by lia. cbn [mbind option_bind].
    destruct (bw_loop_spec (data img) N 0
                (replicate (Z.to_nat (width img * height img * 1)) f_zero))
      as (out & Hout & Hlo & _ & Hcopy).
    { lia. } { lia. } { rewrite length_replicate. lia. }
    change (Z.of_nat 0) with 0 in Hout. unfold N in Hout. rewrite Hout.
    cbn [mbind option_bind]. rewrite length_replicate in Hlo.
    exists out. split; [reflexivity |].
    split; [lia |]. split; [intros; discriminate |].
    intros p r g b a Hp Hpx. repeat split; intros; try discriminate.
    apply list_eq. intros k. rewrite pixel_at_lookup.
    pose proof (pixel_at_lookup 4 (data img) p k) as Hsrc. rewrite Hpx in Hsrc.
    destruct (decide (k < 1)%nat) as [Hk | Hk].
    + assert (k = 0%nat) as -> by lia.
      rewrite Nat.mul_1_r, Nat.add_0_r, Hcopy by lia.
      rewrite Nat.add_0_r in Hsrc. cbn in Hsrc.
      replace (4 * p)%nat with (p * 4)%nat by lia.
      destruct (decide (0 < 4)%nat); [| lia]. symmetry. exact Hsrc.
    + destruct k as [| k]; [lia | reflexivity].
Qed.

(** C5: on a full-frame float payload the conversion succeeds and installs
    a freshly allocated buffer of the payload's width and height, whatever
    the caller's flag; an update that is not flagged final leaves it at
    that. For the 3-channel output every pixel [(r,g,b,a)] becomes
    [(r,g,b)], for the 1-channel output it becomes [(r)], and the 4-channel
    output is the payload itself. *)
Theorem full_frame_conversion (img : AttrImage) (renderWidth renderHeight : Z)
    (this : RenderImage) (σ : Store) :
  full_frame img ->
  is_bucket_update img = false ->
  imageType img = RGBA_REAL \/ imageType img = RGB_REAL \/ imageType img = BW_REAL ->
  exists blk : list float,
    let image := mkRenderImage (Some (fresh (dom σ))) (width img) (height img)
                               (channels_out (imageType img)) in
    let store := delete_pixels (pixels this) (<[fresh (dom σ) := blk]> σ) in
    (forall fixImage,
        update_branches img renderWidth renderHeight fixImage this σ
        = Some (image, store, [], fixImage)) /\
    update img renderWidth renderHeight false this σ = Some (image, store, []) /\
    (fresh (dom σ) ∉ dom σ) /\
    Z.of_nat (length blk) = width img * height img * channels_out (imageType img) /\
    (imageType img = RGBA_REAL -> blk = data img) /\
    (forall (p : nat) (r g b a : float),
        Z.of_nat p < width img * height img ->
        pixel_at 4 (data img) p = [r; g; b; a] ->
        (imageType img = RGBA_REAL -> pixel_at 4 blk p = [r; g; b; a]) /\
        (imageType img = RGB_REAL -> pixel_at 3 blk p = [r; g; b]) /\
        (imageType img = BW_REAL -> pixel_at 1 blk p = [r])).
Proof.
  intros Hfull Hbucket Htype.
  destruct (convert_float_image_spec img Hfull Htype) as (blk & Hconv & Hlen & Hrgba & Hpx).
  assert (Hjpg : bool_decide (imageType img = JPG) = false).
  { apply bool_decide_eq_false. destruct Htype as [-> | [-> | ->]]; discriminate. }
  assert (Hflt : bool_decide (imageType img = RGBA_REAL)
                 || bool_decide (imageType img = RGB_REAL)
                 || bool_decide (imageType img = BW_REAL) = true).
  { destruct Htype as [-> | [-> | ->]]; reflexivity. }
  assert (Hbr : forall fixImage,
             update_branches img renderWidth renderHeight fixImage this σ
             = Some (mkRenderImage (Some (fresh (dom σ))) (width img) (height img)
                                   (channels_out (imageType img)),
                     delete_pixels (pixels this) (<[fresh (dom σ) := blk]> σ), [],
                     fixImage)).
  { intros fixImage. unfold update_branches.
    rewrite Hbucket, Hjpg, Hflt, Hconv. cbn [mbind option_bind].
    rewrite replace_pixels_Some. reflexivity. }
  exists blk. cbv zeta. split; [exact Hbr |].
  split; [unfold update; rewrite Hbr; reflexivity |].
  split; [apply is_fresh |]. split; [exact Hlen |]. split; [exact Hrgba | exact Hpx].
Qed.

End Images.

(** ** Post-processing *)

Section Gating.
Context `{Env}.

Lemma update_branches_flag img rw rh fixImage this σ this1 σ1 lg fixImage1 :
  update_branches img rw rh fixImage this σ = Some (this1, σ1, lg, fixImage1) ->
  fixImage1 = fixImage && negb (is_bucket_update img).
Proof.
  unfold update_branches. intros Hu.
  destruct (is_bucket_update img).
  - rewrite andb_false_r.
    destruct (pixels this); cbn [mbind option_bind] in Hu.
    + destruct (updateRegion _ _ _ _); cbn [mbind option_bind] in Hu; congruence.
    + destruct (float_count _ _ _); cbn [mbind option_bind] in Hu; [| discriminate].
      destruct (alloc _ _) as [l σ0]. cbn [mbind option_bind] in Hu.
      destruct (updateRegion _ _ _ _); cbn [mbind option_bind] in Hu; congruence.
  - rewrite andb_true_r.
    destruct (bool_decide (imageType img = JPG)).
    + destruct (jpegToPixelData img) as [imgData chs].
      destruct (replace_pixels _ _ _ _ _). congruence.
    + destruct (_ || _ || _); [| congruence].
      destruct (convert_float_image img) as [[[myImage chs] lg0] |];
        cbn [mbind option_bind] in Hu; [| discriminate].
      destruct (replace_pixels _ _ _ _ _). congruence.
Qed.

Lemma update_gated img rw rh fixImage this σ :
  update img rw rh fixImage this σ =
    match update_branches img rw rh fixImage this σ with
    | Some (this1, σ1, lg, _) =>
        if fixImage && negb (is_bucket_update img)
        then σ2 ← postprocess this1 σ1; Some (this1, σ2, lg)
        else Some (this1, σ1, lg)
    | None => None
    end.
Proof.
  unfold update.
  destruct (update_branches img rw rh fixImage this σ) as [[[[this1 σ1] lg] fx] |] eqn:Hu;
    [| reflexivity].
  apply update_branches_flag in Hu. rewrite <- Hu. destruct fx; reflexivity.
Qed.

End Gating.

(** C6: the post-processing runs exactly when the caller flags the update
    as final and the update is not a bucket update; a final full-frame
    update ends with the value 1.5 clamped to 1 (rows flipped, alpha
    opaque), the same update flagged non-final keeps 1.5, and a bucket
    update gives the same result with either flag. *)
Theorem postprocess_gating :
  (forall (E : Env) img rw rh fixImage this σ,
      update img rw rh fixImage this σ =
        match update_branches img rw rh fixImage this σ with
        | Some (this1, σ1, lg, _) =>
            if fixImage && negb (is_bucket_update img)
            then σ2 ← postprocess this1 σ1; Some (this1, σ2, lg)
            else Some (this1, σ1, lg)
        | None => None
        end) /\
  (forall (E : Env) img rw rh this σ,
      is_bucket_update img = true ->
      update img rw rh true this σ = update img rw rh false this σ) /\
  @update sample_Env overbright_frame 1 2 true RenderImage_empty ∅
    = Some (mkRenderImage (Some (fresh (dom (∅ : Store)))) 1 2 4,
            {[ fresh (dom (∅ : Store)) :=
                 [f_zero; f_zero; f_zero; f_one; f_one; f_zero; f_one; f_one] ]}, []) /\
  @update sample_Env overbright_frame 1 2 false RenderImage_empty ∅
    = Some (mkRenderImage (Some (fresh (dom (∅ : Store)))) 1 2 4,
            {[ fresh (dom (∅ : Store)) := data overbright_frame ]}, []) /\
  @update sample_Env overbright_bucket 1 2 true RenderImage_empty ∅
    = Some (mkRenderImage (Some (fresh (dom (∅ : Store)))) 1 2 4,
            {[ fresh (dom (∅ : Store)) := data overbright_bucket ]}, []).
Proof.
  split; [intros; apply update_gated |].
  split.
  { intros E img rw rh this σ Hb. unfold update, update_branches. rewrite Hb. reflexivity. }
  repeat split; vm_compute; reflexivity.
Qed.

(** ** Bucket updates *)

Section Buckets.
Context `{Env}.

Lemma copy_floats_inv src soff dst doff n out :
  copy_floats src soff dst doff n = Some out ->
  0 <= doff /\ doff + Z.of_nat n <= Z.of_nat (length dst) /\ length out = length dst.
Proof.
  unfold copy_floats. intros Hc.
  destruct (Z.leb_spec 0 soff); [| discriminate].
  destruct (Z.leb_spec (soff + Z.of_nat n) (Z.of_nat (length src))); [| discriminate].
  destruct (Z.leb_spec 0 doff); [| discriminate].
  destruct (Z.leb_spec (doff + Z.of_nat n) (Z.of_nat (length dst))); [| discriminate].
  cbn [andb] in Hc. injection Hc as <-.
  split; [assumption |]. split; [assumption |].
  rewrite !length_app, length_take, length_take, !length_drop. lia.
Qed.

Lemma copy_floats_ok src soff dst doff n :
  0 <= soff -> soff + Z.of_nat n <= Z.of_nat (length src) ->
  0 <= doff -> doff + Z.of_nat n <= Z.of_nat (length dst) ->
  exists out, copy_floats src soff dst doff n = Some out /\ length out = length dst.
Proof.
  intros H1 H2 H3 H4.
  destruct (copy_floats src soff dst doff n) as [out |] eqn:Hc.
  - exists out. split; [reflexivity |]. eapply copy_floats_inv; eassumption.
  - exfalso. unfold copy_floats in Hc.
    destruct (Z.leb_spec 0 soff); [| lia].
    destruct (Z.leb_spec (soff + Z.of_nat n) (Z.of_nat (length src))); [| lia].
    destruct (Z.leb_spec 0 doff); [| lia].
    destruct (Z.leb_spec (doff + Z.of_nat n) (Z.of_nat (length dst))); [| lia].
    discriminate Hc.
Qed.

(** A run of row copies that completes wrote inside the block only. *)
Lemma copy_rows_inv src rows :
  forall blk out,
    copy_rows src rows blk = Some out ->
    length out = length blk /\ rows_within (Z.of_nat (length blk)) rows = true.
Proof.
  induction rows as [| [[doff soff] n] rest IH]; intros blk out Hc; simpl in Hc.
  - injection Hc as <-. split; reflexivity.
  - destruct (copy_floats src soff blk doff n) as [blk' |] eqn:Hrow;
      cbn [mbind option_bind] in Hc; [| discriminate].
    apply copy_floats_inv in Hrow as (Hlo & Hhi & Hlen).
    apply IH in Hc as [Hlen' Hrest]. rewrite Hlen in *.
    split; [exact Hlen' |]. cbn [rows_within forallb].
    fold (rows_within (Z.of_nat (length blk)) rest). rewrite Hrest.
    destruct (Z.leb_spec 0 doff); [| lia].
    destruct (Z.leb_spec (doff + Z.of_nat n) (Z.of_nat (length blk))); [| lia].
    reflexivity.
Qed.

Lemma copy_rows_ok src rows :
  forall blk,
    Forall (fun '(doff, soff, n) =>
              0 <= soff /\ soff + Z.of_nat n <= Z.of_nat (length src) /\
              0 <= doff /\ doff + Z.of_nat n <= Z.of_nat (length blk)) rows ->
    exists out, copy_rows src rows blk = Some out /\ length out = length blk.
Proof.
  induction rows as [| [[doff soff] n] rest IH]; intros blk Hall; simpl.
  - exists blk. split; reflexivity.
  - apply Forall_cons in Hall as [(H1 & H2 & H3 & H4) Hrest].
    destruct (copy_floats_ok src soff blk doff n H1 H2 H3 H4) as (blk' & -> & Hlen).
    cbn [mbind option_bind].
    destruct (IH blk') as (out & Hout & Hlen').
    { rewrite Hlen. exact Hrest. }
    exists out. split; [exact Hout | congruence].
Qed.

(** The rows of a bucket inside the frame stay inside a 4-channel buffer
    of that frame, and inside the bucket's payload. *)
Lemma region_rows_in_frame (this : RenderImage) (img : AttrImage) (len : nat) :
  channels this = 4 -> 0 <= w this -> 0 <= h this ->
  in_frame (w this) (h this) img ->
  Z.of_nat len = w this * h this * 4 ->
  Forall (fun '(doff, soff, n) =>
            0 <= soff /\ soff + Z.of_nat n <= Z.of_nat (length (data img)) /\
            0 <= doff /\ doff + Z.of_nat n <= Z.of_nat len)
         (region_rows this (bucket_region img)).
Proof.
  intros Hch Hw Hh (Hx & Hy & Hrw & Hrh & Hxw & Hyh & Hdata) Hlen.
  unfold region_rows, bucket_region. cbn [reg_x reg_y reg_w reg_h].
  rewrite Forall_map. apply Forall_forall. intros r Hr.
  apply elem_of_seq in Hr. rewrite Hch.
  rewrite Z2Nat.id by lia. rewrite Hlen.
  assert (Hr' : 0 <= Z.of_nat r < height img) by lia.
  repeat split; try nia.
Qed.

Lemma rows_within_in_frame (this : RenderImage) (img : AttrImage) :
  channels this = 4 -> 0 <= w this -> 0 <= h this ->
  in_frame (w this) (h this) img ->
  rows_within (w this * h this * 4) (region_rows this (bucket_region img)) = true.
Proof.
  intros Hch Hw Hh Hin.
  assert (Hlen : Z.of_nat (Z.to_nat (w this * h this * 4)) = w this * h this * 4) by nia.
  pose proof (region_rows_in_frame this img _ Hch Hw Hh Hin Hlen) as Hrows.
  unfold rows_within. apply forallb_forall. intros [[doff soff] n] Hrow.
  rewrite Forall_forall in Hrows. apply list_elem_of_In in Hrow.
  specialize (Hrows _ Hrow). cbn in Hrows. destruct Hrows as (_ & _ & Hlo & Hhi).
  rewrite Hlen in Hhi.
  destruct (Z.leb_spec 0 doff); [| lia].
  destruct (Z.leb_spec (doff + Z.of_nat n) (w this * h this * 4)); [| lia].
  reflexivity.
Qed.

(** The first bucket of a channel without pixels: the buffer is allocated
    at the cached render size, all zero, and the bucket is copied in. *)
Lemma bucket_first img rw rh fixImage this σ :
  is_bucket_update img = true ->
  pixels this = None ->
  0 <= rw -> 0 <= rh -> rw * rh * 4 <= INT_MAX ->
  in_frame rw rh img ->
  let buffer := mkRenderImage (Some (fresh (dom σ))) rw rh 4 in
  exists blk,
    copy_rows (data img) (region_rows buffer (bucket_region img))
              (replicate (Z.to_nat (rw * rh * 4)) f_zero) = Some blk /\
    length blk = Z.to_nat (rw * rh * 4) /\
    update img rw rh fixImage this σ = Some (buffer, <[fresh (dom σ) := blk]> σ, []).
Proof.
  intros Hb Hp Hw Hh Hmax Hin buffer.
  destruct (copy_rows_ok (data img) (region_rows buffer (bucket_region img))
              (replicate (Z.to_nat (rw * rh * 4)) f_zero)) as (blk & Hblk & Hlen).
  { apply region_rows_in_frame; try assumption; try reflexivity.
    rewrite length_replicate. cbn [w h buffer]. nia. }
  rewrite length_replicate in Hlen.
  exists blk. split; [exact Hblk |]. split; [exact Hlen |].
  unfold update, update_branches. rewrite Hb, Hp.
  rewrite float_count_Some by lia. cbn [mbind option_bind].
  unfold alloc, updateRegion. cbn [pixels mbind option_bind].
  rewrite lookup_insert_eq. cbn [mbind option_bind].
  fold (bucket_region img). fold buffer. rewrite Hblk. cbn [mbind option_bind].
  rewrite insert_insert_eq. reflexivity.
Qed.

(** A later bucket of a channel that has its 4-channel buffer: the buffer
    stays where it is, with its size, and the bucket is copied in. *)
Lemma bucket_next img rw rh fixImage this σ l blk0 :
  is_bucket_update img = true ->
  pixels this = Some l ->
  σ !! l = Some blk0 ->
  channels this = 4 -> 0 <= w this -> 0 <= h this ->
  Z.of_nat (length blk0) = w this * h this * 4 ->
  in_frame (w this) (h this) img ->
  exists blk,
    copy_rows (data img) (region_rows this (bucket_region img)) blk0 = Some blk /\
    length blk = length blk0 /\
    update img rw rh fixImage this σ = Some (this, <[l := blk]> σ, []).
Proof.
  intros Hb Hp Hl Hch Hw Hh Hlen Hin.
  destruct (copy_rows_ok (data img) (region_rows this (bucket_region img)) blk0)
    as (blk & Hblk & Hlen').
  { apply region_rows_in_frame; assumption. }
  exists blk. split; [exact Hblk |]. split; [exact Hlen' |].
  unfold update, update_branches. rewrite Hb, Hp. cbn [mbind option_bind].
  unfold updateRegion. rewrite Hp. cbn [mbind option_bind].
  rewrite Hl. cbn [mbind option_bind].
  fold (bucket_region img). rewrite Hblk. reflexivity.
Qed.

Lemma buckets_rest (W H0 : Z) (l : positive) (σ : Store)
    (rest : list (AttrImage * Z * Z * bool)) :
  0 <= W -> 0 <= H0 ->
  Forall (fun '(img, _, _, _) => is_bucket_update img = true /\ in_frame W H0 img) rest ->
  forall blk0,
    length blk0 = Z.to_nat (W * H0 * 4) ->
    exists blk,
      updates rest (mkRenderImage (Some l) W H0 4) (<[l := blk0]> σ)
      = Some (mkRenderImage (Some l) W H0 4, <[l := blk]> σ) /\
      length blk = Z.to_nat (W * H0 * 4).
Proof.
  intros HW HH. induction rest as [| [[[img rw] rh] fx] rest IH]; intros Hall blk0 Hlen.
  - exists blk0. split; [reflexivity | exact Hlen].
  - apply Forall_cons in Hall as [[Hb Hin] Hrest].
    destruct (bucket_next img rw rh fx (mkRenderImage (Some l) W H0 4)
                (<[l := blk0]> σ) l blk0) as (blk1 & _ & Hlen1 & Hup);
      try assumption; try reflexivity.
    { apply lookup_insert_eq. }
    { rewrite Hlen. cbn [w h]. nia. }
    cbn [updates]. rewrite Hup. rewrite insert_insert_eq.
    apply IH; [exact Hrest | congruence].
Qed.

(** On a channel without pixels the first bucket allocates the buffer at
    the render size cached at that moment, all zero; later buckets never
    reallocate it, whatever the cached size is by then; and the buckets
    whose rectangles lie inside that first frame are copied without a write
    outside the buffer. *)
Lemma bucket_updates_stay_in_buffer (W H0 : Z) (img0 : AttrImage) (fix0 : bool)
    (rest : list (AttrImage * Z * Z * bool)) (this : RenderImage) (σ : Store) :
  0 <= W -> 0 <= H0 -> W * H0 * 4 <= INT_MAX ->
  pixels this = None ->
  Forall (fun '(img, _, _, _) => is_bucket_update img = true /\ in_frame W H0 img)
         ((img0, W, H0, fix0) :: rest) ->
  let buffer := mkRenderImage (Some (fresh (dom σ))) W H0 4 in
  exists blk0 blk,
    copy_rows (data img0) (region_rows buffer (bucket_region img0))
              (replicate (Z.to_nat (W * H0 * 4)) f_zero) = Some blk0 /\
    update img0 W H0 fix0 this σ = Some (buffer, <[fresh (dom σ) := blk0]> σ, []) /\
    updates ((img0, W, H0, fix0) :: rest) this σ
      = Some (buffer, <[fresh (dom σ) := blk]> σ) /\
    length blk = Z.to_nat (W * H0 * 4) /\
    Forall (fun '(img, _, _, _) =>
              rows_within (W * H0 * 4) (region_rows buffer (bucket_region img)) = true)
           ((img0, W, H0, fix0) :: rest).
Proof.
  intros HW HH Hmax Hp Hall buffer.
  pose proof Hall as Hall'. apply Forall_cons in Hall' as [[Hb0 Hin0] Hrest].
  destruct (bucket_first img0 W H0 fix0 this σ Hb0 Hp HW HH Hmax Hin0)
    as (blk0 & Hcopy & Hlen0 & Hup0).
  destruct (buckets_rest W H0 (fresh (dom σ)) σ rest HW HH Hrest blk0 Hlen0)
    as (blk & Hrun & Hlen).
  exists blk0, blk. split; [exact Hcopy |]. split; [exact Hup0 |].
  split; [cbn [updates]; rewrite Hup0; exact Hrun |]. split; [exact Hlen |].
  eapply Forall_impl; [exact Hall |].
  intros [[[img rw] rh] fx] [_ Hin].
  apply (rows_within_in_frame buffer img); try assumption; reflexivity.
Qed.

(** A run of row copies with a row that does not fit the block does not
    complete: the copy runs over the end of the block. *)
Lemma copy_rows_overrun src rows blk :
  rows_within (Z.of_nat (length blk)) rows = false -> copy_rows src rows blk = None.
Proof.
  intros Hout. destruct (copy_rows src rows blk) as [out |] eqn:Hc; [| reflexivity].
  apply copy_rows_inv in Hc as [_ Hin]. congruence.
Qed.

(** The bucket of the last pixel of a frame that has grown past the
    buffer does not fit the buffer. *)
Lemma corner_rows_outside (this : RenderImage) (img : AttrImage) (rw rh : Z) (len : nat) :
  channels this = 4 -> 0 <= w this -> 0 <= h this ->
  Z.of_nat len = w this * h this * 4 ->
  w this <= rw -> h this <= rh -> w this < rw \/ (h this < rh /\ 0 < w this) ->
  x img = rw - 1 -> y img = rh - 1 -> width img = 1 -> height img = 1 ->
  rows_within (Z.of_nat len) (region_rows this (bucket_region img)) = false.
Proof.
  intros Hch Hw Hh Hlen Hrw Hrh Hgrown Hx Hy Hwd Hht.
  unfold region_rows, bucket_region. cbn [reg_x reg_y reg_w reg_h].
  rewrite Hht, Hwd, Hx, Hy, Hch.
  change (seq 0 (Z.to_nat 1)) with [0%nat].
  change (Z.to_nat (1 * 4)) with 4%nat.
  cbn [map rows_within forallb]. rewrite Hlen, andb_true_r.
  apply andb_false_iff. right. apply Z.leb_gt.
  destruct Hgrown as [Hg | [Hg Hpos]]; nia.
Qed.

(** C9: [update] copies a bucket into the buffer without comparing its
    rectangle with the buffer or with the cached render size, and it
    allocates only when there are no pixels yet. So a bucket whose rows do
    not fit the buffer that an earlier bucket allocated is written past
    its end, and so is a first bucket whose rows do not fit the buffer
    allocated at the cached size (every bucket of one pixel or more, as
    long as no size has been set). In particular, once the render size has
    grown past the buffer, the bucket of the frame's last pixel lies
    inside the bounds of the last resize and is written outside the
    buffer. *)
Theorem bucket_write_unchecked (img : AttrImage) (rw rh : Z) (fixImage : bool)
    (this : RenderImage) (σ : Store) :
  is_bucket_update img = true ->
  (forall l blk0,
      pixels this = Some l -> σ !! l = Some blk0 ->
      rows_within (Z.of_nat (length blk0)) (region_rows this (bucket_region img)) = false ->
      update img rw rh fixImage this σ = None) /\
  (pixels this = None ->
   rows_within (rw * rh * 4)
               (region_rows (mkRenderImage None rw rh 4) (bucket_region img)) = false ->
   update img rw rh fixImage this σ = None) /\
  (forall l blk0,
      pixels this = Some l -> σ !! l = Some blk0 ->
      channels this = 4 -> 0 <= w this -> 0 <= h this ->
      Z.of_nat (length blk0) = w this * h this * 4 ->
      w this <= rw -> h this <= rh -> w this < rw \/ (h this < rh /\ 0 < w this) ->
      1 <= rw -> 1 <= rh ->
      x img = rw - 1 -> y img = rh - 1 -> width img = 1 -> height img = 1 ->
      (4 <= length (data img))%nat ->
      in_frame rw rh img /\ update img rw rh fixImage this σ = None).
Proof.
  intros Hb.
  assert (Hstale : forall l blk0,
             pixels this = Some l -> σ !! l = Some blk0 ->
             rows_within (Z.of_nat (length blk0)) (region_rows this (bucket_region img))
               = false ->
             update img rw rh fixImage this σ = None).
  { intros l blk0 Hp Hl Hout.
    unfold update, update_branches. rewrite Hb, Hp. cbn [mbind option_bind].
    unfold updateRegion. rewrite Hp. cbn [mbind option_bind]. rewrite Hl.
    cbn [mbind option_bind]. fold (bucket_region img).
    rewrite (copy_rows_overrun _ _ _ Hout). reflexivity. }
  split; [exact Hstale |]. split.
  - intros Hp Hout. unfold update, update_branches. rewrite Hb, Hp.
    unfold float_count.
    destruct (int (rw * rh)) as [a |] eqn:Ha; cbn [mbind option_bind]; [| reflexivity].
    destruct (int (a * 4)) as [n |] eqn:Hn; cbn [mbind option_bind]; [| reflexivity].
    destruct (Z.leb_spec 0 n) as [Hpos |]; cbn [mbind option_bind]; [| reflexivity].
    assert (Hval : n = rw * rh * 4).
    { unfold int in Ha, Hn. destruct (_ && _) in Ha; [| discriminate Ha].
      destruct (_ && _) in Hn; [| discriminate Hn]. congruence. }
    unfold alloc, updateRegion. cbn [pixels mbind option_bind].
    rewrite lookup_insert_eq. cbn [mbind option_bind]. fold (bucket_region img).
    rewrite copy_rows_overrun; [reflexivity |].
    rewrite length_replicate, Z2Nat.id, Hval by exact Hpos. exact Hout.
  - intros l blk0 Hp Hl Hch Hw Hh Hlen Hrw Hrh Hgrown H1w H1h Hx Hy Hwd Hht Hdata.
    split.
    + unfold in_frame. rewrite Hx, Hy, Hwd, Hht. repeat split; lia.
    + apply (Hstale l blk0 Hp Hl).
      apply (corner_rows_outside this img rw rh); assumption.
Qed.

End Buckets.


Lemma bucket_write_unchecked_witness :
  let grown := [op_set_render_size 1 1; bucket_message (white_bucket 0 0);
                op_set_render_size 2 2] in
  let late := bucket_message (white_bucket 1 1) in
  let stale := mkRenderImage (Some 1%positive) 1 1 4 in
  let σ : Store := {[ 1%positive := [f_one; f_one; f_one; f_one] ]} in
  (in_frame 2 2 (white_bucket 1 1) /\
   @update sample_Env (white_bucket 1 1) 2 2 false stale σ = None) /\
  channel_size RenderChannelTypeNone
    <$> @run sample_Env grown connected_exporter = Some (Some (1, 1, 4)) /\
  (fun e => within_last_resize e RenderChannelTypeNone (white_bucket 1 1))
    <$> @run sample_Env grown connected_exporter = Some true /\
  @run sample_Env (grown ++ [late]) connected_exporter = None /\
  (fun e => (renderWidth (m_cachedValues e), renderHeight (m_cachedValues e)))
    connected_exporter = (0, 0) /\
  @run sample_Env [bucket_message (white_bucket 0 0)] connected_exporter = None.
Proof.
  intros grown late stale σ. split.
  - destruct (@bucket_write_unchecked sample_Env (white_bucket 1 1) 2 2 false stale σ eq_refl)
      as (_ & _ & Hcorner).
    apply (Hcorner 1%positive [f_one; f_one; f_one; f_one]);
      try reflexivity; cbn; lia.
  - repeat split; vm_compute; reflexivity.
Defined.

Lemma full_frame_conversion_witness :
  exists blk,
    @update sample_Env rgb_pixel_frame 0 0 false RenderImage_empty ∅
      = Some (mkRenderImage (Some (fresh (dom (∅ : Store)))) 1 1 3,
              <[fresh (dom (∅ : Store)) := blk]> ∅, []) /\
    pixel_at 3 blk 0 = [f_one_half; f_zero; f_one].
Proof.
  destruct (@full_frame_conversion sample_Env rgb_pixel_frame 0 0 RenderImage_empty ∅)
    as (blk & _ & Hup & _ & _ & _ & Hpx).
  - repeat split; cbn; unfold INT_MAX; lia.
  - reflexivity.
  - right. left. reflexivity.
  - exists blk. split; [exact Hup |].
    destruct (Hpx 0%nat f_one_half f_zero f_one f_one_half) as (_ & Hrgb & _).
    + cbn. lia.
    + reflexivity.
    + apply Hrgb. reflexivity.
Defined.

(** ** Deep copies *)

Section DeepCopy.
Context `{Env}.



Lemma updateRegion_inv src reg this σ σ' :
  updateRegion src reg this σ = Some σ' ->
  exists l blk0 blk, pixels this = Some l /\ σ !! l = Some blk0 /\ σ' = <[l := blk]> σ.
Proof.
  unfold updateRegion. intros Hu.
  destruct (pixels this) as [l |]; cbn [mbind option_bind] in Hu; [| discriminate].
  destruct (σ !! l) as [blk0 |] eqn:Hl; cbn [mbind option_bind] in Hu; [| discriminate].
  destruct (copy_rows _ _ _) as [blk |]; cbn [mbind option_bind] in Hu; [| discriminate].
  injection Hu as <-. eauto 6.
Qed.

Lemma postprocess_inv this σ σ' :
  postprocess this σ = Some σ' ->
  (pixels this = None /\ σ' = σ) \/
  exists l blk0 blk, pixels this = Some l /\ σ !! l = Some blk0 /\ σ' = <[l := blk]> σ.
Proof.
  unfold postprocess. intros Hp.
  destruct (pixels this) as [l |]; [| left; split; congruence].
  destruct (σ !! l) as [blk0 |] eqn:Hl; cbn [mbind option_bind] in Hp; [| discriminate].
  destruct (float_count _ _ _) as [n |]; cbn [mbind option_bind] in Hp; [| discriminate].
  destruct (_ && _ && _); [| discriminate].
  injection Hp as <-. right. eauto 6.
Qed.

(** Rewriting the image's own block keeps an update confined. *)
Lemma confined_in_place this σ this1 σ1 l blk0 blk :
  confined this σ this1 σ1 ->
  pixels this1 = Some l -> σ1 !! l = Some blk0 ->
  confined this σ this1 (<[l := blk]> σ1).
Proof.
  intros [Hptr Hrest] Hl Hblk. split.
  - intros l1 Hl1. destruct (Hptr l1 Hl1) as [Hdom Hor].
    split; [| exact Hor]. rewrite dom_insert_L. apply elem_of_union_r. exact Hdom.
  - intros l1 Hdom Hne. destruct (Hptr l Hl) as [_ [Hsame | Hnew]].
    + rewrite lookup_insert_ne by congruence. apply Hrest; assumption.
    + rewrite lookup_insert_ne by (intros ->; contradiction).
      apply Hrest; assumption.
Qed.

Lemma replace_pixels_confined myImage chs img this σ this1 σ1 :
  (forall l0, pixels this = Some l0 -> l0 ∈ dom σ) ->
  replace_pixels myImage chs img this σ = (this1, σ1) ->
  confined this σ this1 σ1.
Proof.
  intros Hlive Hr. unfold replace_pixels in Hr.
  destruct myImage as [content |].
  - unfold alloc in Hr. injection Hr as <- <-.
    pose proof (is_fresh (dom σ)) as Hfresh. split.
    + intros l Hl. cbn [pixels] in Hl. injection Hl as <-.
      split; [| right; exact Hfresh].
      destruct (pixels this) as [l0 |] eqn:Hp; cbn [delete_pixels].
      * specialize (Hlive l0 eq_refl).
        rewrite dom_delete_L, dom_insert_L. set_solver.
      * rewrite dom_insert_L. set_solver.
    + intros l Hdom Hne.
      assert (l ≠ fresh (dom σ)) by (intros ->; contradiction).
      destruct (pixels this) as [l0 |] eqn:Hp; cbn [delete_pixels].
      * rewrite lookup_delete_ne by congruence. apply lookup_insert_ne. congruence.
      * apply lookup_insert_ne. congruence.
  - injection Hr as <- <-. split.
    + intros l Hl. discriminate Hl.
    + intros l Hdom Hne.
      destruct (pixels this) as [l0 |] eqn:Hp; cbn [delete_pixels]; [| reflexivity].
      apply lookup_delete_ne. congruence.
Qed.

Lemma update_branches_confined img rw rh fixImage this σ this1 σ1 lg fixImage1 :
  (forall l0, pixels this = Some l0 -> l0 ∈ dom σ) ->
  update_branches img rw rh fixImage this σ = Some (this1, σ1, lg, fixImage1) ->
  confined this σ this1 σ1.
Proof.
  intros Hlive Hu. unfold update_branches in Hu.
  destruct (is_bucket_update img).
  - destruct (pixels this) as [l0 |] eqn:Hp; cbn [mbind option_bind] in Hu.
    + destruct (updateRegion _ _ _ _) as [σ2 |] eqn:Hreg;
        cbn [mbind option_bind] in Hu; [| discriminate].
      injection Hu as <- <- _ _.
      apply updateRegion_inv in Hreg as (l & blk0 & blk & Hl & Hblk & ->).
      rewrite Hp in Hl. injection Hl as <-. split.
      * intros l Hl. rewrite Hp in Hl. injection Hl as <-.
        split; [| left; exact Hp]. rewrite dom_insert_L. set_solver.
      * intros l Hdom Hne. apply lookup_insert_ne. congruence.
    + destruct (float_count _ _ _) as [n |]; cbn [mbind option_bind] in Hu; [| discriminate].
      unfold alloc in Hu. cbn [mbind option_bind] in Hu.
      destruct (updateRegion _ _ _ _) as [σ2 |] eqn:Hreg;
        cbn [mbind option_bind] in Hu; [| discriminate].
      injection Hu as <- <- _ _.
      apply updateRegion_inv in Hreg as (l & blk0 & blk & Hl & Hblk & ->).
      cbn [pixels] in Hl. injection Hl as <-.
      pose proof (is_fresh (dom σ)) as Hfresh. split.
      * intros l Hl. cbn [pixels] in Hl. injection Hl as <-.
        split; [| right; exact Hfresh]. rewrite !dom_insert_L. set_solver.
      * intros l Hdom Hne.
        assert (l ≠ fresh (dom σ)) by (intros ->; contradiction).
        rewrite !lookup_insert_ne by congruence. reflexivity.
  - destruct (bool_decide (imageType img = JPG)).
    + destruct (jpegToPixelData img) as [imgData chs].
      destruct (replace_pixels _ _ _ _ _) as [this2 σ2] eqn:Hr.
      injection Hu as <- <- _ _. eapply replace_pixels_confined; eassumption.
    + destruct (_ || _ || _).
      * destruct (convert_float_image img) as [[[myImage chs] lg0] |];
          cbn [mbind option_bind] in Hu; [| discriminate].
        destruct (replace_pixels _ _ _ _ _) as [this2 σ2] eqn:Hr.
        injection Hu as <- <- _ _. eapply replace_pixels_confined; eassumption.
      * injection Hu as <- <- _ _. split.
        -- intros l Hl. split; [apply Hlive; exact Hl | left; exact Hl].
        -- reflexivity.
Qed.

Lemma update_confined img rw rh fixImage this σ this1 σ1 lg :
  (forall l0, pixels this = Some l0 -> l0 ∈ dom σ) ->
  update img rw rh fixImage this σ = Some (this1, σ1, lg) ->
  confined this σ this1 σ1.
Proof.
  intros Hlive Hu. unfold update in Hu.
  destruct (update_branches _ _ _ _ _ _) as [[[[this2 σ2] lg2] fx] |] eqn:Hb;
    [| discriminate].
  apply update_branches_confined in Hb; [| exact Hlive].
  destruct fx.
  - destruct (postprocess this2 σ2) as [σ3 |] eqn:Hpost;
      cbn [mbind option_bind] in Hu; [| discriminate].
    injection Hu as <- <- _.
    apply postprocess_inv in Hpost as [[_ ->] | (l & blk0 & blk & Hl & Hblk & ->)].
    + exact Hb.
    + eapply confined_in_place; eassumption.
  - injection Hu as <- <- _. exact Hb.
Qed.

(** One channel's image replaced by the outcome of a confined update. *)
Lemma layer_update_inv (e e1 : ZmqExporter) (first : RenderChannelType)
    (this1 : RenderImage) :
  wf e ->
  confined (default RenderImage_empty (m_layerImages e !! first)) (heap e)
           this1 (heap e1) ->
  m_layerImages e1 = <[first := this1]> (m_layerImages e) ->
  wf e1 /\
  (forall l, foreign e l -> foreign e1 l /\ heap e1 !! l = heap e !! l).
Proof.
  intros [Hlive Hshare] [Hptr Hrest] Hmap.
  set (this := default RenderImage_empty (m_layerImages e !! first)) in *.
  assert (Hthis : forall l, pixels this = Some l ->
                            m_layerImages e !! first = Some this).
  { intros l Hl. subst this. destruct (m_layerImages e !! first); [reflexivity |].
    discriminate Hl. }
  assert (Hother : forall k img l,
             k ≠ first -> m_layerImages e !! k = Some img -> pixels img = Some l ->
             l ∈ dom (heap e) /\ pixels this ≠ Some l).
  { intros k img l Hk Himg Hl. split; [apply Hlive; exists k, img; auto |].
    intros Hsame. apply Hk. eapply Hshare; eauto. }
  split; [split |].
  - intros l (k & img & Himg & Hl). rewrite Hmap in Himg.
    destruct (decide (k = first)) as [-> | Hk].
    + rewrite lookup_insert_eq in Himg. injection Himg as <-. apply Hptr. exact Hl.
    + rewrite lookup_insert_ne in Himg by congruence.
      destruct (Hother k img l Hk Himg Hl) as [Hdom Hne].
      apply elem_of_dom. rewrite Hrest by assumption. apply elem_of_dom. exact Hdom.
  - intros k1 k2 img1 img2 l H1 H2 Hl1 Hl2. rewrite Hmap in H1, H2.
    destruct (decide (k1 = first)) as [-> | Hk1], (decide (k2 = first)) as [-> | Hk2];
      try reflexivity.
    + rewrite lookup_insert_eq in H1. injection H1 as <-.
      rewrite lookup_insert_ne in H2 by congruence.
      destruct (Hother k2 img2 l Hk2 H2 Hl2) as [Hdom Hne].
      destruct (Hptr l Hl1) as [_ [Hsame | Hnew]]; contradiction.
    + rewrite lookup_insert_eq in H2. injection H2 as <-.
      rewrite lookup_insert_ne in H1 by congruence.
      destruct (Hother k1 img1 l Hk1 H1 Hl1) as [Hdom Hne].
      destruct (Hptr l Hl2) as [_ [Hsame | Hnew]]; contradiction.
    + rewrite lookup_insert_ne in H1, H2 by congruence. eapply Hshare; eauto.
  - intros l [Hdom Hfree].
    assert (Hne : pixels this ≠ Some l).
    { intros Hl. apply Hfree. exists first, this. split; [eapply Hthis; eauto | exact Hl]. }
    pose proof (Hrest l Hdom Hne) as Hsame.
    split; [split |].
    + apply elem_of_dom. rewrite Hsame. apply elem_of_dom. exact Hdom.
    + intros (k & img & Himg & Hl). rewrite Hmap in Himg.
      destruct (decide (k = first)) as [-> | Hk].
      * rewrite lookup_insert_eq in Himg. injection Himg as <-.
        destruct (Hptr l Hl) as [_ [Hold | Hnew]]; contradiction.
      * rewrite lookup_insert_ne in Himg by congruence.
        apply Hfree. exists k, img. auto.
    + exact Hsame.
Qed.

Lemma image_loop_inv imgs :
  forall rt e rt' e',
    image_loop imgs rt e = Some (rt', e') ->
    wf e ->
    wf e' /\ (forall l, foreign e l -> foreign e' l /\ heap e' !! l = heap e !! l).
Proof.
  induction imgs as [| [first second] rest IH]; intros rt e rt' e' Hl Hwf; simpl in Hl.
  - injection Hl as _ <-. split; [exact Hwf | auto].
  - destruct (update _ _ _ _ _ _) as [[[this1 σ1] lg] |] eqn:Hup;
      cbn [mbind option_bind] in Hl; [| discriminate].
    apply update_confined in Hup.
    2:{ intros l0 Hl0. apply Hwf.
        destruct (m_layerImages e !! first) as [this |] eqn:Hthis; [| discriminate Hl0].
        exists first, this. auto. }
    match type of Hl with
    | context [with_log ?lg' (with_heap ?s (with_m_layerImages ?m e))] =>
        set (e1 := with_log lg' (with_heap s (with_m_layerImages m e))) in *
    end.
    destruct (layer_update_inv e e1 first this1 Hwf Hup eq_refl) as [Hwf1 Hkeep1].
    assert (Hstep : forall e2, images_of e2 = images_of e1 ->
               wf e2 /\ (forall l, foreign e l -> foreign e2 l /\ heap e2 !! l = heap e !! l)).
    { intros e2 He2. unfold images_of in He2. injection He2 as Hh Hm.
      unfold wf, foreign, owned in *. rewrite Hh, Hm. split; [exact Hwf1 | exact Hkeep1]. }
    destruct (_ && _ && _).
    + destruct (Hstep (add_event (on_bucket_ready second) e1) eq_refl) as [Hwf2 Hk1].
      apply IH in Hl; [| exact Hwf2].
      destruct Hl as [Hwf' Hkeep']. split; [exact Hwf' |].
      intros l Hfor. destruct (Hk1 l Hfor) as [Hfor1 Heq1].
      destruct (Hkeep' l Hfor1) as [Hfor' Heq']. split; [exact Hfor' | congruence].
    + apply IH in Hl; [| exact Hwf1].
      destruct Hl as [Hwf' Hkeep']. split; [exact Hwf' |].
      intros l Hfor. destruct (Hkeep1 l Hfor) as [Hfor1 Heq1].
      destruct (Hkeep' l Hfor1) as [Hfor' Heq']. split; [exact Hfor' | congruence].
Qed.

Lemma client_send_images m e e' :
  client_send m e = Some e' -> images_of e' = images_of e.
Proof. unfold client_send. intros Hs. inv_steps. reflexivity. Qed.

Lemma checkZmqClient_images e : images_of (checkZmqClient e) = images_of e.
Proof.
  destruct (checkZmqClient_frame e) as (_ & _ & _ & _ & Hm & Hh & _).
  unfold images_of. congruence.
Qed.

Lemma CHECK_UPDATE_images {A : Type} `{EqDecision A}
    (cached : CachedValues -> A) setting set_cached upd e e' :
  CHECK_UPDATE cached setting set_cached upd e = Some e' ->
  images_of e' = images_of e.
Proof.
  unfold CHECK_UPDATE. intros Hc. destruct (decide _); inv_steps; [reflexivity |].
  match goal with Hs : client_send _ _ = Some _ |- _ => apply client_send_images in Hs end.
  assumption.
Qed.

Lemma channel_loop_images id entries :
  forall e e', channel_loop id entries e = Some e' -> images_of e' = images_of e.
Proof.
  induction entries as [| [first second] rest IH]; intros e e' Hl; simpl in Hl.
  - congruence.
  - destruct (bool_decide (id = first)); inv_steps.
    + match goal with Hs : client_send _ _ = Some _ |- _ =>
        apply client_send_images in Hs; rewrite <- Hs end.
      eauto.
    + eauto.
Qed.

Lemma attrs_loop_images name attrs :
  forall e e', attrs_loop name attrs e = Some e' -> images_of e' = images_of e.
Proof.
  induction attrs as [| [key attr] rest IH]; intros e e' Hl; simpl in Hl.
  - congruence.
  - destruct (attrValue attr); inv_steps;
      try match goal with Hs : client_send _ _ = Some _ |- _ =>
            apply client_send_images in Hs; rewrite <- Hs end;
      eauto.
Qed.

Ltac sends_keep_images :=
  repeat match goal with
    | Hs : client_waitForMessages _ = Some _ |- _ =>
        apply client_waitForMessages_inv in Hs; subst
    | Hs : client_send _ _ = Some _ |- _ => apply client_send_images in Hs
    | Hs : CHECK_UPDATE _ _ _ _ _ = Some _ |- _ => apply CHECK_UPDATE_images in Hs
    | Hs : channel_loop _ _ _ = Some _ |- _ => apply channel_loop_images in Hs
    | Hs : attrs_loop _ _ _ = Some _ |- _ => apply attrs_loop_images in Hs
    end.

Ltac norm_images :=
  repeat match goal with
    | |- context [images_of (?f ?v ?e)] =>
        change (images_of (f v e)) with (images_of e)
    | Hs : context [images_of (?f ?v ?e)] |- _ =>
        change (images_of (f v e)) with (images_of e) in Hs
    | |- context [images_of (checkZmqClient ?e)] => rewrite (checkZmqClient_images e)
    | Hs : context [images_of (checkZmqClient ?e)] |- _ =>
        rewrite (checkZmqClient_images e) in Hs
    end.

Ltac chain_images :=
  repeat match goal with
    | |- context [if ?b then _ else _] => destruct b
    | Hs : context [if ?b then _ else _] |- _ => destruct b
    end;
  norm_images;
  repeat match goal with
    | Hs : images_of ?a = _ |- _ => is_var a; rewrite Hs in *; clear Hs
    end;
  norm_images; try reflexivity.

(** The operations outside [touches_images] leave blocks and channel
    images alone. *)
Lemma exec_images (o : Op) (e e' : ZmqExporter) :
  touches_images o = false ->
  exec o e = Some e' ->
  images_of e' = images_of e.
Proof.
  intros Ht Hex.
  destruct o; try discriminate Ht; cbn [exec] in Hex;
    unfold init, free, clear_frame_data, wait_for_server, sync,
      set_current_frame, set_render_region, set_render_size, set_camera_plugin,
      set_commit_state, start, reset, stop, export_vrscene, remove_plugin_impl,
      replace_plugin, export_plugin_impl, resetExportedPluginsCount, zmqCallback in Hex;
    inv_steps; try discriminate; sends_keep_images; cbn [snd] in *; chain_images.
Qed.

Lemma images_eq_inv (e e' : ZmqExporter) :
  images_of e' = images_of e ->
  wf e ->
  wf e' /\ (forall l, foreign e l -> foreign e' l /\ heap e' !! l = heap e !! l).
Proof.
  unfold images_of. intros Heq Hwf. injection Heq as Hh Hm.
  unfold wf, foreign, owned in *. rewrite Hh, Hm. split; [exact Hwf | auto].
Qed.

Lemma get_render_channel_inv channelType e img e' :
  get_render_channel channelType e = Some (img, e') ->
  (img = RenderImage_empty /\ e' = e) \/
  exists stored l blk,
    m_layerImages e !! channelType = Some stored /\ pixels stored = Some l /\
    heap e !! l = Some blk /\
    img = mkRenderImage (Some (fresh (dom (heap e)))) (w stored) (h stored)
                        (channels stored) /\
    e' = with_heap (<[fresh (dom (heap e)) := blk]> (heap e)) e.
Proof.
  unfold get_render_channel, deepCopy, alloc. intros Hg.
  destruct (m_layerImages e !! channelType) as [stored |] eqn:Hs;
    [| injection Hg as <- <-; left; auto].
  destruct (pixels stored) as [l |] eqn:Hp; [| injection Hg as <- <-; left; auto].
  cbn [mbind option_bind] in Hg.
  destruct (heap e !! l) as [blk |] eqn:Hb; cbn [mbind option_bind] in Hg; [| discriminate].
  injection Hg as <- <-. right. exists stored, l, blk. auto.
Qed.

(** A block allocated for a caller: the facade's own blocks stay as they
    are and the new block belongs to no channel. *)
Lemma caller_block_inv (e : ZmqExporter) (blk : list float) :
  wf e ->
  let l' := fresh (dom (heap e)) in
  let e' := with_heap (<[l' := blk]> (heap e)) e in
  wf e' /\ foreign e' l' /\
  (forall l, foreign e l -> foreign e' l /\ heap e' !! l = heap e !! l).
Proof.
  intros [Hlive Hshare] l' e'.
  pose proof (is_fresh (dom (heap e))) as Hfresh. fold l' in Hfresh.
  assert (Hown : forall l, owned e' l <-> owned e l) by reflexivity.
  split; [split |]; [| exact Hshare | split].
  - intros l Hl. apply Hown, Hlive in Hl.
    cbn [heap e' with_heap]. rewrite dom_insert_L. apply elem_of_union_r. exact Hl.
  - split.
    + cbn [heap e' with_heap]. rewrite dom_insert_L.
      apply elem_of_union_l, elem_of_singleton. reflexivity.
    + intros Hl. apply Hown, Hlive in Hl. contradiction.
  - intros l [Hdom Hfree]. split; [split |].
    + cbn [heap e' with_heap]. rewrite dom_insert_L. apply elem_of_union_r. exact Hdom.
    + intros Hl. apply Hfree, Hown. exact Hl.
    + cbn [heap e' with_heap]. apply lookup_insert_ne. intros <-. contradiction.
Qed.

Lemma exec_isolated (o : Op) (e e' : ZmqExporter) :
  exec o e = Some e' ->
  wf e ->
  wf e' /\ (forall l, foreign e l -> foreign e' l /\ heap e' !! l = heap e !! l).
Proof.
  intros Hex Hwf.
  destruct (touches_images o) eqn:Ht.
  - destruct o; try discriminate Ht; cbn [exec] in Hex.
    + destruct (get_render_channel channelType e) as [[img e1] |] eqn:Hg;
        cbn in Hex; [| discriminate]. injection Hex as <-.
      apply get_render_channel_inv in Hg as [[_ ->] | (st & l & blk & _ & _ & _ & _ & ->)].
      * split; [exact Hwf | auto].
      * destruct (caller_block_inv e blk Hwf) as (Hwf' & _ & Hkeep). split; assumption.
    + unfold get_image in Hex.
      destruct (get_render_channel RenderChannelTypeNone e) as [[img e1] |] eqn:Hg;
        cbn in Hex; [| discriminate]. injection Hex as <-.
      apply get_render_channel_inv in Hg as [[_ ->] | (st & l & blk & _ & _ & _ & _ & ->)].
      * split; [exact Hwf | auto].
      * destruct (caller_block_inv e blk Hwf) as (Hwf' & _ & Hkeep). split; assumption.
    + destruct message as [| set | |]; try discriminate Ht. cbn [zmqCallback] in Hex.
      destruct (image_loop (images set) false e) as [[rt e1] |] eqn:Hl;
        cbn [mbind option_bind] in Hex; [| discriminate].
      apply image_loop_inv in Hl as [Hwf1 Hkeep1]; [| exact Hwf].
      assert (Himg : images_of e' = images_of e1).
      { injection Hex as <-. destruct (_ && _), (_ && _); reflexivity. }
      destruct (images_eq_inv e1 e' Himg Hwf1) as [Hwf' Hkeep']. split; [exact Hwf' |].
      intros l Hfor. destruct (Hkeep1 l Hfor) as [Hfor1 Heq1].
      destruct (Hkeep' l Hfor1) as [Hfor' Heq']. split; [exact Hfor' | congruence].
  - apply images_eq_inv; [| exact Hwf]. eapply exec_images; eassumption.
Qed.

Lemma run_isolated (ops : list Op) :
  forall e e',
    run ops e = Some e' ->
    wf e ->
    wf e' /\ (forall l, foreign e l -> foreign e' l /\ heap e' !! l = heap e !! l).
Proof.
  induction ops as [| o rest IH]; intros e e' Hrun Hwf; simpl in Hrun.
  - injection Hrun as <-. split; [exact Hwf | auto].
  - destruct (exec o e) as [e1 |] eqn:Hex; cbn [mbind option_bind] in Hrun; [| discriminate].
    destruct (exec_isolated o e e1 Hex Hwf) as [Hwf1 Hkeep1].
    destruct (IH e1 e' Hrun Hwf1) as [Hwf' Hkeep']. split; [exact Hwf' |].
    intros l Hfor. destruct (Hkeep1 l Hfor) as [Hfor1 Heq1].
    destruct (Hkeep' l Hfor1) as [Hfor' Heq']. split; [exact Hfor' | congruence].
Qed.

(** A freshly constructed facade is well formed. *)
Lemma wf_new settings viewport hk : wf (ZmqExporter_new settings viewport hk).
Proof.
  split.
  - intros l (k & img & Himg & _). cbn in Himg. rewrite lookup_empty in Himg. discriminate.
  - intros k1 k2 img1 img2 l Himg. cbn in Himg. rewrite lookup_empty in Himg. discriminate.
Qed.

(** Every state a facade reaches is well formed. *)
Lemma wf_reachable settings viewport hk (ops : list Op) (e : ZmqExporter) :
  run ops (ZmqExporter_new settings viewport hk) = Some e -> wf e.
Proof. intros Hrun. apply (run_isolated ops _ e Hrun), wf_new. Qed.

(** C7: [get_render_channel] returns an empty image when the channel has
    no entry or no pixels; otherwise it returns the stored image's width,
    height and channel count with a block of its own holding the same
    floats, and no later operation or inbound message, bucket and
    full-frame updates included, changes that block. *)
Theorem get_render_channel_deep_copy (channelType : RenderChannelType) (e : ZmqExporter) :
  wf e ->
  exists img e1,
    get_render_channel channelType e = Some (img, e1) /\
    match m_layerImages e !! channelType with
    | Some (mkRenderImage (Some l) sw sh sc) =>
        exists blk l',
          heap e !! l = Some blk /\
          (l' ∉ dom (heap e)) /\
          img = mkRenderImage (Some l') sw sh sc /\
          heap e1 !! l' = Some blk /\
          heap e1 !! l = Some blk /\
          (forall ops e2, run ops e1 = Some e2 -> heap e2 !! l' = Some blk)
    | _ => img = RenderImage_empty /\ e1 = e
    end.
Proof.
  intros Hwf.
  destruct (m_layerImages e !! channelType) as [[[l |] sw sh sc] |] eqn:Hs.
  - assert (Hdom : l ∈ dom (heap e)).
    { apply Hwf. exists channelType, (mkRenderImage (Some l) sw sh sc). auto. }
    apply elem_of_dom in Hdom as [blk Hblk].
    pose proof (is_fresh (dom (heap e))) as Hfresh.
    destruct (caller_block_inv e blk Hwf) as (Hwf1 & Hfor1 & _).
    eexists _, _. split.
    { unfold get_render_channel, deepCopy, alloc. rewrite Hs.
      cbn [pixels mbind option_bind]. rewrite Hblk. reflexivity. }
    exists blk, (fresh (dom (heap e))).
    split; [exact Hblk |]. split; [exact Hfresh |]. split; [reflexivity |].
    split; [apply lookup_insert_eq |]. split.
    { cbn [heap with_heap]. rewrite lookup_insert_ne; [exact Hblk |].
      intros Heq. apply Hfresh. rewrite Heq. apply elem_of_dom. eauto. }
    intros ops e2 Hrun.
    destruct (run_isolated ops _ e2 Hrun Hwf1) as [_ Hkeep].
    destruct (Hkeep _ Hfor1) as [_ Heq]. rewrite Heq. apply lookup_insert_eq.
  - exists RenderImage_empty, e. unfold get_render_channel. rewrite Hs. auto.
  - exists RenderImage_empty, e. unfold get_render_channel. rewrite Hs. auto.
Qed.

End DeepCopy.

Lemma wf_populated_exporter : wf populated_exporter.
Proof.
  assert (Hwf : wf connected_exporter).
  { apply (images_eq_inv sample_exporter connected_exporter eq_refl).
    apply wf_new. }
  unfold populated_exporter.
  destruct (@run sample_Env _ connected_exporter) as [e |] eqn:Hrun; [| exact Hwf].
  apply (@run_isolated sample_Env _ _ _ Hrun Hwf).
Qed.

Lemma get_render_channel_deep_copy_witness :
  exists img e1 l' blk,
    get_render_channel RenderChannelTypeNone populated_exporter = Some (img, e1) /\
    pixels img = Some l' /\
    heap e1 !! l' = Some blk /\
    (forall ops e2, @run sample_Env ops e1 = Some e2 -> heap e2 !! l' = Some blk).
Proof.
  destruct (@get_render_channel_deep_copy sample_Env RenderChannelTypeNone
              populated_exporter wf_populated_exporter) as (img & e1 & Hget & Hcopy).
  assert (Hs : m_layerImages populated_exporter !! RenderChannelTypeNone
               = Some (mkRenderImage (Some 1%positive) 2 2 4)) by (vm_compute; reflexivity).
  rewrite Hs in Hcopy.
  destruct Hcopy as (blk & l' & _ & _ & -> & Hl' & _ & Hkeep).
  exists (mkRenderImage (Some l') 2 2 4), e1, l', blk.
  split; [exact Hget |]. split; [reflexivity |].
  split; [exact Hl' | exact Hkeep].
Defined.

(** The copy taken before a second bucket still shows the first bucket
    only, while the channel's buffer has both. *)
Example deep_copy_after_bucket :
  @copy_and_buffer_after sample_Env [bucket_message (white_bucket 1 1)] populated_exporter
  = Some (Some ([f_one; f_one; f_one; f_one] ++ replicate 12 f_zero),
          Some ([f_one; f_one; f_one; f_one] ++ replicate 8 f_zero
                ++ [f_one; f_one; f_one; f_one])).
Proof. vm_compute. reflexivity. Qed.


(** ** Cached setters of the facade *)

Section Setters.
Context `{Env}.

(** A send right after the health check always goes through, to the client
    the check found or created. *)
Lemma client_send_checked (m : VRayMessage) (e : ZmqExporter) :
  client_send m (checkZmqClient e)
  = Some (with_m_client (Some (send m (default (new_ZmqClient false) (m_client e))))
                        (checkZmqClient e)).
Proof. unfold client_send. rewrite checkZmqClient_client. reflexivity. Qed.

Lemma commands_send_checked (m : VRayMessage) (e : ZmqExporter) :
  commands (with_m_client (Some (send m (default (new_ZmqClient false) (m_client e))))
                          (checkZmqClient e))
  = commands e ++ [m].
Proof. unfold commands. cbn. destruct (m_client e); reflexivity. Qed.

Lemma checkZmqClient_frame_host (e : ZmqExporter) :
  current_scene_frame (checkZmqClient e) = current_scene_frame e /\
  commit_state (checkZmqClient e) = commit_state e /\
  m_started (checkZmqClient e) = m_started e /\
  hooks (checkZmqClient e) = hooks e /\
  is_viewport (checkZmqClient e) = is_viewport e.
Proof.
  unfold checkZmqClient. destruct (m_client e) as [c |]; simpl; [| tauto].
  destruct (connected c), (good c); simpl; tauto.
Qed.

Lemma set_render_size_same (rw rh : Z) (e : ZmqExporter) :
  renderWidth (m_cachedValues e) = rw ->
  renderHeight (m_cachedValues e) = rh ->
  set_render_size rw rh e = Some e.
Proof.
  intros Hw Hh. unfold set_render_size. rewrite Hw, Hh.
  rewrite !bool_decide_eq_false_2 by (intros Hne; apply Hne; reflexivity).
  reflexivity.
Qed.

Lemma set_render_size_changed (rw rh : Z) (e : ZmqExporter) :
  ~ (rw = renderWidth (m_cachedValues e) /\ rh = renderHeight (m_cachedValues e)) ->
  exists e1,
    set_render_size rw rh e = Some e1 /\
    commands e1 = commands e ++ [msgRendererResize rw rh] /\
    m_cachedValues e1 = set_renderHeight rh (set_renderWidth rw (m_cachedValues e)).
Proof.
  intros Hne.
  assert (Hb : bool_decide (rw ≠ renderWidth (m_cachedValues e))
               || bool_decide (rh ≠ renderHeight (m_cachedValues e)) = true).
  { destruct (decide (rw = renderWidth (m_cachedValues e))) as [Hw | Hw].
    - rewrite (bool_decide_eq_true_2 (rh ≠ _)) by (intros Hh; apply Hne; auto).
      apply orb_true_r.
    - rewrite (bool_decide_eq_true_2 (rw ≠ _)) by exact Hw. reflexivity. }
  unfold set_render_size. rewrite Hb, client_send_checked.
  eexists. split; [reflexivity |].
  destruct (checkZmqClient_frame
              (with_m_cachedValues
                 (set_renderHeight rh (set_renderWidth rw (m_cachedValues e))) e))
    as (_ & Hcv & _).
  split; [rewrite commands_send_checked; reflexivity |].
  cbn [m_cachedValues with_m_client]. exact Hcv.
Qed.

(** X1: [set_render_size] always returns and leaves the requested size in
    the cache; it sends one resize command when the size differs from the
    cached one and nothing otherwise, so repeating the call sends
    nothing; the rest of the cache is untouched. *)
Theorem set_render_size_cached (rw rh : Z) (e : ZmqExporter) :
  exists e1 e2,
    set_render_size rw rh e = Some e1 /\
    set_render_size rw rh e1 = Some e2 /\
    commands e1
      = commands e ++
        (if decide (rw = renderWidth (m_cachedValues e) /\ rh = renderHeight (m_cachedValues e))
         then [] else [msgRendererResize rw rh]) /\
    commands e2 = commands e1 /\
    m_cachedValues e1
      = set_renderHeight rh (set_renderWidth rw (m_cachedValues e)).
Proof.
  destruct (decide (rw = renderWidth (m_cachedValues e) /\ rh = renderHeight (m_cachedValues e)))
    as [[Hw Hh] | Hne].
  - exists e, e. rewrite (set_render_size_same rw rh e) by congruence.
    repeat split; rewrite ?app_nil_r; try reflexivity.
    destruct (m_cachedValues e). unfold set_renderHeight, set_renderWidth.
    simpl in *. congruence.
  - destruct (set_render_size_changed rw rh e Hne) as (e1 & H1 & Hc1 & Hcv).
    exists e1, e1. split; [exact H1 |].
    split; [apply set_render_size_same; rewrite Hcv; reflexivity |].
    split; [exact Hc1 |]. split; [reflexivity | exact Hcv].
Qed.

Lemma client_send_Some (m : VRayMessage) (e : ZmqExporter) (c : ZmqClient) :
  m_client e = Some c ->
  client_send m e = Some (with_m_client (Some (send m c)) e).
Proof. intros Hc. unfold client_send. rewrite Hc. reflexivity. Qed.

(** X2: [set_camera_plugin] always returns with the requested camera in
    the cache; when the camera differs from the cached one it marks the
    state dirty and sends one command, otherwise it does nothing, so
    repeating the call sends nothing. *)
Theorem set_camera_plugin_cached (pluginName : string) (e : ZmqExporter) :
  exists e1 e2,
    set_camera_plugin pluginName e = Some e1 /\
    set_camera_plugin pluginName e1 = Some e2 /\
    commands e1
      = commands e ++
        (if decide (activeCamera (m_cachedValues e) = pluginName) then []
         else [msgRendererAction SetCurrentCamera (ArgString pluginName)]) /\
    commands e2 = commands e1 /\
    m_cachedValues e1 = set_activeCamera pluginName (m_cachedValues e) /\
    m_isDirty e1
      = (if decide (activeCamera (m_cachedValues e) = pluginName) then m_isDirty e else true).
Proof.
  assert (Hsame : forall e0, activeCamera (m_cachedValues e0) = pluginName ->
                             set_camera_plugin pluginName e0 = Some e0).
  { intros e0 Hc. unfold set_camera_plugin.
    rewrite bool_decide_eq_false_2 by (intros Hne; apply Hne; exact Hc). reflexivity. }
  destruct (decide (activeCamera (m_cachedValues e) = pluginName)) as [Hc | Hne].
  - exists e, e. rewrite (Hsame e Hc).
    repeat split; rewrite ?app_nil_r; try reflexivity.
    destruct (m_cachedValues e). unfold set_activeCamera. simpl in *. congruence.
  - unfold set_camera_plugin at 1. rewrite bool_decide_eq_true_2 by exact Hne.
    cbv zeta.
    destruct (checkZmqClient_frame (with_m_isDirty true e)) as (_ & Hcv & Hd & _).
    pose proof (checkZmqClient_client (with_m_isDirty true e)) as Hcl.
    pose proof (checkZmqClient_commands (with_m_isDirty true e)) as Hcm.
    rewrite Hcv. cbn [m_cachedValues with_m_isDirty].
    erewrite client_send_Some by (cbn [m_client with_m_cachedValues]; exact Hcl).
    eexists _, _. split; [reflexivity |].
    split; [apply Hsame; reflexivity |].
    split.
    { unfold commands in *. cbn [m_client with_m_client with_m_cachedValues with_m_isDirty] in *.
      destruct (m_client e); reflexivity. }
    split; [reflexivity |]. split; [reflexivity |].
    cbn [m_isDirty with_m_client with_m_cachedValues]. exact Hd.
Qed.

(** A float that is not a NaN compares equal to itself. *)
Lemma SFeqb_refl (v : float) : v <> S754_nan -> SFeqb v v = true.
Proof.
  intros Hnan. unfold SFeqb, SFcompare.
  destruct v as [s | s | | s m ex]; try (destruct s; reflexivity); [contradiction |].
  rewrite Z.compare_refl, Pos.compare_cont_refl. destruct s; reflexivity.
Qed.

(** X3: [set_current_frame] always returns; it sends the frame when the
    frame differs from the current one in the sense of the float
    comparison [!=], so repeating the call with a frame that is not a NaN
    sends nothing, while a NaN frame is sent on every call. *)
Theorem set_current_frame_cached (frame : float) (e : ZmqExporter) :
  let msg := msgRendererAction SetCurrentFrame (ArgFloat frame) in
  exists e1 e2,
    set_current_frame frame e = Some e1 /\
    set_current_frame frame e1 = Some e2 /\
    commands e1
      = commands e ++ (if float_neq frame (current_scene_frame e) then [msg] else []) /\
    (frame <> S754_nan -> commands e2 = commands e1) /\
    (frame = S754_nan ->
     commands e1 = commands e ++ [msg] /\ commands e2 = commands e ++ [msg; msg]).
Proof.
  intros msg.
  assert (Hstep : forall e0,
             exists e1,
               set_current_frame frame e0 = Some e1 /\
               commands e1
                 = commands e0 ++ (if float_neq frame (current_scene_frame e0) then [msg] else []) /\
               (float_neq frame (current_scene_frame e0) = true ->
                current_scene_frame e1 = frame) /\
               (float_neq frame (current_scene_frame e0) = false -> e1 = e0)).
  { intros e0. unfold set_current_frame.
    destruct (float_neq frame (current_scene_frame e0)).
    - rewrite client_send_checked. eexists. split; [reflexivity |].
      split; [exact (commands_send_checked msg (with_current_scene_frame frame e0)) |].
      split; [| discriminate].
      intros _. cbn [current_scene_frame with_m_client].
      destruct (checkZmqClient_frame_host (with_current_scene_frame frame e0)) as (Hf & _).
      exact Hf.
    - exists e0. rewrite app_nil_r. repeat split; auto; discriminate. }
  destruct (Hstep e) as (e1 & H1 & Hc1 & Hset & Hkeep).
  destruct (Hstep e1) as (e2 & H2 & Hc2 & _ & _).
  exists e1, e2. split; [exact H1 |]. split; [exact H2 |]. split; [exact Hc1 |].
  split.
  - intros Hnan. rewrite Hc2.
    destruct (float_neq frame (current_scene_frame e)) eqn:Hne.
    + rewrite (Hset eq_refl). unfold float_neq. rewrite SFeqb_refl by exact Hnan.
      apply app_nil_r.
    + rewrite (Hkeep eq_refl), Hne. apply app_nil_r.
  - intros ->. rewrite Hc2, Hc1. cbn. rewrite <- app_assoc. auto.
Qed.

(** X4: [set_commit_state] always returns. For the two automatic modes it
    sends the mode when it differs from the current one and records it;
    for any other action it sends the action exactly when the state is
    dirty and then clears the dirty flag. Either way, repeating the call
    sends nothing. *)
Theorem set_commit_state_once (ca : CommitAction) (e : ZmqExporter) :
  let msg := msgRendererAction SetCommitAction (ArgCommit ca) in
  exists e1 e2,
    set_commit_state ca e = Some e1 /\
    set_commit_state ca e1 = Some e2 /\
    commands e2 = commands e1 /\
    (ca = CommitAutoOn \/ ca = CommitAutoOff ->
     commands e1 = commands e ++ (if decide (ca = commit_state e) then [] else [msg]) /\
     commit_state e1 = ca /\ m_isDirty e1 = m_isDirty e) /\
    (ca <> CommitAutoOn /\ ca <> CommitAutoOff ->
     commands e1 = commands e ++ (if m_isDirty e then [msg] else []) /\
     commit_state e1 = commit_state e /\ m_isDirty e1 = false).
Proof.
  intros msg.
  destruct (decide (ca = CommitAutoOn \/ ca = CommitAutoOff)) as [Hauto | Hman].
  - assert (Hb : bool_decide (ca = CommitAutoOn) || bool_decide (ca = CommitAutoOff) = true).
    { destruct Hauto as [-> | ->]; reflexivity. }
    assert (Hsame : forall e0, commit_state e0 = ca -> set_commit_state ca e0 = Some e0).
    { intros e0 Hc. unfold set_commit_state. rewrite Hb.
      rewrite bool_decide_eq_false_2 by (intros Hne; apply Hne; auto). reflexivity. }
    destruct (decide (ca = commit_state e)) as [Hc | Hne].
    + exists e, e. rewrite (Hsame e) by auto.
      repeat split; rewrite ?app_nil_r; auto; tauto.
    + unfold set_commit_state at 1. rewrite Hb, bool_decide_eq_true_2 by exact Hne.
      rewrite client_send_checked.
      destruct (checkZmqClient_frame_host (with_commit_state ca e)) as (_ & Hcs & _).
      destruct (checkZmqClient_frame (with_commit_state ca e)) as (_ & _ & Hd & _).
      eexists _, _. split; [reflexivity |].
      split; [apply Hsame; cbn [commit_state with_m_client]; exact Hcs |].
      split; [reflexivity |]. split; [| tauto].
      intros _. split; [exact (commands_send_checked msg (with_commit_state ca e)) |].
      split; [exact Hcs | exact Hd].
  - assert (Hb : bool_decide (ca = CommitAutoOn) || bool_decide (ca = CommitAutoOff) = false).
    { rewrite !bool_decide_eq_false_2 by tauto. reflexivity. }
    assert (Hclean : forall e0, m_isDirty e0 = false -> set_commit_state ca e0 = Some e0).
    { intros e0 Hd. unfold set_commit_state. rewrite Hb, Hd. reflexivity. }
    destruct (m_isDirty e) eqn:Hd.
    + unfold set_commit_state at 1. rewrite Hb, Hd, client_send_checked.
      cbn [mbind option_bind].
      destruct (checkZmqClient_frame_host e) as (_ & Hcs & _).
      eexists _, _. split; [reflexivity |].
      split; [apply Hclean; reflexivity |].
      split; [reflexivity |]. split; [tauto |].
      intros _. split; [apply (commands_send_checked msg e) |].
      split; [exact Hcs | reflexivity].
    + exists e, e. rewrite (Hclean e Hd).
      repeat split; rewrite ?app_nil_r; auto; tauto.
Qed.

End Setters.


(** ** Plugin export *)

Section PluginExport.
Context `{Env}.

Lemma with_m_client_same (e : ZmqExporter) : with_m_client (m_client e) e = e.
Proof. destruct e; reflexivity. Qed.

Lemma push_nil (e : ZmqExporter) : is_Some (m_client e) -> push [] e = Some e.
Proof.
  intros [c Hc]. unfold push. rewrite Hc. cbn. rewrite <- Hc, with_m_client_same. reflexivity.
Qed.

Lemma push_app (ms1 ms2 : list VRayMessage) (e : ZmqExporter) :
  push (ms1 ++ ms2) e = e1 ← push ms1 e; push ms2 e1.
Proof.
  unfold push. destruct (m_client e) as [c |]; [| reflexivity].
  cbn. rewrite foldl_app. destruct e; reflexivity.
Qed.

Lemma push_one (m : VRayMessage) (e : ZmqExporter) : client_send m e = push [m] e.
Proof. reflexivity. Qed.

Lemma push_client (ms : list VRayMessage) (e e' : ZmqExporter) :
  push ms e = Some e' -> is_Some (m_client e').
Proof.
  unfold push. destruct (m_client e); [| discriminate]. cbn. intros [= <-]. cbn. eauto.
Qed.

Lemma foldl_send_sent (ms : list VRayMessage) :
  forall c, sent (foldl (fun c m => send m c) c ms) = sent c ++ ms.
Proof.
  induction ms as [| m ms IH]; intros c; cbn [foldl].
  - rewrite app_nil_r. reflexivity.
  - rewrite IH. cbn. rewrite <- app_assoc. reflexivity.
Qed.

Lemma push_commands (ms : list VRayMessage) (e e' : ZmqExporter) :
  push ms e = Some e' -> commands e' = commands e ++ ms.
Proof.
  unfold push, commands. destruct (m_client e); [| discriminate]. cbn.
  intros [= <-]. cbn. apply foldl_send_sent.
Qed.

Lemma channel_loop_push (id : string) (entries : list (string * RenderChannelType)) :
  forall e, is_Some (m_client e) ->
    channel_loop id entries e
    = push ((fun p => msgRendererAction GetImage (ArgChannel p.2))
              <$> filter (fun p => id = p.1) entries) e.
Proof.
  induction entries as [| [first second] rest IH]; intros e Hc; cbn [channel_loop].
  - symmetry. apply push_nil, Hc.
  - rewrite filter_cons. cbn [fst]. case_bool_decide as Hid.
    + rewrite decide_True by exact Hid. rewrite fmap_cons.
      change (?a :: ?l) with ([a] ++ l). rewrite push_app, <- push_one.
      destruct (client_send _ e) as [e1 |] eqn:Es; [| reflexivity].
      cbn [mbind option_bind]. apply IH. rewrite push_one in Es. eapply push_client, Es.
    + rewrite decide_False by exact Hid. cbn [mbind option_bind]. apply IH, Hc.
Qed.

Lemma filter_absent {A : Type} (id : string) (l : list (string * A)) :
  (id ∉ l.*1) -> filter (fun p => id = p.1) l = [].
Proof.
  induction l as [| [k v] rest IH]; intros Hid; [reflexivity |].
  rewrite fmap_cons in Hid. apply not_elem_of_cons in Hid as [Hk Hrest].
  rewrite filter_cons. cbn [fst]. rewrite decide_False by exact Hk. apply IH, Hrest.
Qed.

Lemma filter_find_single {A B : Type} (g : A -> B) (id : string) (l : list (string * A)) :
  NoDup l.*1 ->
  (fun p => g p.2) <$> filter (fun p => id = p.1) l
  = match snd <$> find (fun p => bool_decide (p.1 = id)) l with
    | Some ch => [g ch]
    | None => []
    end.
Proof.
  induction l as [| [k v] rest IH]; intros Hnd; [reflexivity |].
  rewrite fmap_cons in Hnd. apply NoDup_cons in Hnd as [Hk Hnd].
  rewrite filter_cons. cbn [fst find]. case_bool_decide as Hid.
  - subst k. rewrite decide_True by reflexivity. cbn.
    rewrite (filter_absent id rest Hk). reflexivity.
  - rewrite decide_False by congruence. apply IH, Hnd.
Qed.

Lemma channelMap_NoDup : NoDup channelMap.*1.
Proof. apply (bool_decide_unpack _). vm_compute. exact I. Qed.

Lemma channelMap_single (id : string) :
  (fun p : string * RenderChannelType => msgRendererAction GetImage (ArgChannel p.2))
    <$> filter (fun p => id = p.1) channelMap
  = match channel_of id with
    | Some ch => [msgRendererAction GetImage (ArgChannel ch)]
    | None => []
    end.
Proof.
  exact (filter_find_single (fun ch => msgRendererAction GetImage (ArgChannel ch)) id
           channelMap channelMap_NoDup).
Qed.

Lemma attrs_loop_push (name : string) (attrs : list (string * PluginAttr)) :
  forall e, is_Some (m_client e) ->
    attrs_loop name attrs e = push (omap (property_command name) attrs) e.
Proof.
  induction attrs as [| [key attr] rest IH]; intros e Hc; cbn [attrs_loop omap list_omap].
  - symmetry. apply push_nil, Hc.
  - unfold property_command at 1. cbn [snd].
    destruct (attrValue attr) eqn:Ev;
      try (change (?a :: ?l) with ([a] ++ l); rewrite push_app, <- push_one;
           destruct (client_send _ e) as [e1 |] eqn:Es; [| reflexivity];
           cbn [mbind option_bind]; apply IH; rewrite push_one in Es; eapply push_client, Es).
    cbn [mbind option_bind]. apply IH, Hc.
Qed.

(** X5: an export whose description carries a plugin type always goes
    through when the counter can still be incremented: it returns a
    reference to the plugin's name, marks the state dirty, counts the
    plugin, and hands to the transport, after the commands sent before, at
    most one image request (for a channel plugin registered in the channel
    table), then the creation, then the attributes of known type in their
    order; the cache and the image buffers are untouched. *)
Theorem export_plugin_commands (d : PluginDesc) (e : ZmqExporter) :
  pluginID d <> ""%string ->
  0 <= m_exportedCount e < INT_MAX ->
  exists e',
    export_plugin_impl d e = Some (mkAttrPlugin (pluginName d), e') /\
    commands e' = commands e ++ plugin_commands d /\
    m_exportedCount e' = m_exportedCount e + 1 /\
    m_isDirty e' = true /\
    m_cachedValues e' = m_cachedValues e /\
    images_of e' = images_of e.
Proof.
  intros Hid Hcount. unfold export_plugin_impl. cbv zeta.
  rewrite bool_decide_eq_false_2 by exact Hid.
  destruct (checkZmqClient_frame (with_m_isDirty true e)) as (_ & Hcv & Hd & Hn & Hli & Hh & _).
  pose proof (checkZmqClient_client (with_m_isDirty true e)) as Hcl.
  pose proof (checkZmqClient_commands (with_m_isDirty true e)) as Hcm.
  revert Hcv Hd Hn Hli Hh Hcl Hcm.
  generalize (checkZmqClient (with_m_isDirty true e)). intros e0 Hcv Hd Hn Hli Hh Hcl Hcm.
  cbn [m_cachedValues m_isDirty m_exportedCount m_layerImages heap with_m_isDirty] in *.
  rewrite Hn, int_Some by (unfold INT_MIN, INT_MAX in *; lia).
  cbn [mbind option_bind].
  set (e1 := with_m_exportedCount (m_exportedCount e + 1) e0).
  assert (Hc1 : is_Some (m_client e1)) by (cbn; rewrite Hcl; eauto).
  assert (Hpush : exists e',
             push (plugin_commands d) e1 = Some e' /\
             (e2 ← match GetPluginDescription (pluginID d) with
                   | PluginChannel => channel_loop (pluginID d) channelMap e1
                   | PluginOther => Some e1
                   end;
              e3 ← client_send (msgPluginCreate (pluginName d) (pluginID d)) e2;
              e4 ← attrs_loop (pluginName d) (pluginAttrs d) e3;
              Some (mkAttrPlugin (pluginName d), e4))
             = Some (mkAttrPlugin (pluginName d), e')).
  { unfold plugin_commands. rewrite push_app.
    assert (Hfirst : match GetPluginDescription (pluginID d) with
                     | PluginChannel => channel_loop (pluginID d) channelMap e1
                     | PluginOther => Some e1
                     end
                     = push match GetPluginDescription (pluginID d), channel_of (pluginID d) with
                            | PluginChannel, Some ch => [msgRendererAction GetImage (ArgChannel ch)]
                            | _, _ => []
                            end e1).
    { destruct (GetPluginDescription (pluginID d)).
      - rewrite channel_loop_push, channelMap_single by exact Hc1. reflexivity.
      - symmetry. apply push_nil, Hc1. }
    rewrite Hfirst.
    destruct (push _ e1) as [e2 |] eqn:E2;
      [| exfalso; destruct Hc1 as [c Hc1]; unfold push in E2; rewrite Hc1 in E2; discriminate E2].
    cbn [mbind option_bind]. rewrite push_app, <- push_one.
    destruct (client_send _ e2) as [e3 |] eqn:E3;
      [| exfalso; apply push_client in E2 as [c Hc]; unfold client_send in E3;
         rewrite Hc in E3; discriminate E3].
    cbn [mbind option_bind].
    rewrite attrs_loop_push by (rewrite push_one in E3; eapply push_client, E3).
    destruct (push _ e3) as [e4 |] eqn:E4;
      [| exfalso; rewrite push_one in E3; apply push_client in E3 as [c Hc];
         unfold push in E4; rewrite Hc in E4; discriminate E4].
    exists e4. split; reflexivity. }
  destruct Hpush as (e' & Hp & Hrun). exists e'. split; [exact Hrun |].
  pose proof (push_commands _ _ _ Hp) as Hcmds.
  unfold push in Hp. destruct (m_client e1) as [c1 |]; [| discriminate Hp].
  cbn [mbind option_bind] in Hp. injection Hp as <-.
  split.
  { rewrite Hcmds. unfold commands at 1. cbn [m_client e1 with_m_exportedCount].
    fold (commands e0). rewrite Hcm. reflexivity. }
  unfold images_of.
  cbn [m_exportedCount m_isDirty m_cachedValues heap m_layerImages with_m_client
       with_m_exportedCount e1].
  rewrite Hd, Hcv, Hli, Hh. auto.
Qed.

End PluginExport.

(** ** The footprint of the steps *)

Section Shapes.
Context `{Env}.

Lemma with_m_client_twice (c1 c2 : option ZmqClient) (e : ZmqExporter) :
  with_m_client c2 (with_m_client c1 e) = with_m_client c2 e.
Proof. destruct e; reflexivity. Qed.

Lemma client_send_shape (m : VRayMessage) (e e' : ZmqExporter) :
  client_send m e = Some e' -> exists c, e' = with_m_client c e.
Proof.
  unfold client_send. destruct (m_client e); [| discriminate]. cbn. intros [= <-]. eauto.
Qed.

Lemma channel_loop_shape (id : string) (entries : list (string * RenderChannelType)) :
  forall e e', channel_loop id entries e = Some e' -> exists c, e' = with_m_client c e.
Proof.
  induction entries as [| [first second] rest IH]; intros e e' Hl; cbn [channel_loop] in Hl.
  - injection Hl as <-. exists (m_client e). symmetry. apply with_m_client_same.
  - destruct (bool_decide (id = first)).
    + destruct (client_send _ e) as [e1 |] eqn:Es; [| discriminate Hl].
      cbn [mbind option_bind] in Hl.
      apply client_send_shape in Es as [c1 ->]. apply IH in Hl as [c2 ->].
      exists c2. apply with_m_client_twice.
    + cbn [mbind option_bind] in Hl. apply IH, Hl.
Qed.

Lemma attrs_loop_shape (name : string) (attrs : list (string * PluginAttr)) :
  forall e e', attrs_loop name attrs e = Some e' -> exists c, e' = with_m_client c e.
Proof.
  induction attrs as [| [key attr] rest IH]; intros e e' Hl; cbn [attrs_loop] in Hl.
  - injection Hl as <-. exists (m_client e). symmetry. apply with_m_client_same.
  - destruct (attrValue attr);
      try (destruct (client_send _ e) as [e1 |] eqn:Es; [| discriminate Hl];
           cbn [mbind option_bind] in Hl;
           apply client_send_shape in Es as [c1 ->]; apply IH in Hl as [c2 ->];
           exists c2; apply with_m_client_twice).
    cbn [mbind option_bind] in Hl. apply IH, Hl.
Qed.

Lemma CHECK_UPDATE_shape {A : Type} `{EqDecision A}
    (cached : CachedValues -> A) setting set_cached upd (e e' : ZmqExporter) :
  CHECK_UPDATE cached setting set_cached upd e = Some e' ->
  exists c cv, e' = with_m_cachedValues cv (with_m_client c e).
Proof.
  unfold CHECK_UPDATE. destruct (decide _).
  - intros [= <-]. exists (m_client e), (m_cachedValues e). destruct e; reflexivity.
  - destruct (client_send _ e) as [e1 |] eqn:Es; [| discriminate].
    cbn [mbind option_bind]. intros [= <-].
    apply client_send_shape in Es as [c ->]. eauto.
Qed.

Lemma image_loop_shape (imgs : list (RenderChannelType * AttrImage)) :
  forall rt e rt' e',
    image_loop imgs rt e = Some (rt', e') ->
    exists ev lg σ m,
      e' = with_events ev (with_log lg (with_heap σ (with_m_layerImages m e))).
Proof.
  induction imgs as [| [first second] rest IH]; intros rt e rt' e' Hl; cbn [image_loop] in Hl.
  - injection Hl as <- <-. exists (events e), (log e), (heap e), (m_layerImages e).
    destruct e; reflexivity.
  - cbv zeta in Hl.
    destruct (update _ _ _ _ _ _) as [[[this1 σ1] lg] |]; cbn in Hl; [| discriminate Hl].
    destruct (_ && _ && _); apply IH in Hl as (ev & lg' & σ & m & ->);
      exists ev, lg', σ, m; destruct e; reflexivity.
Qed.

End Shapes.

Ltac shapes :=
  repeat match goal with
    | Hs : client_waitForMessages _ = Some _ |- _ =>
        apply client_waitForMessages_inv in Hs; subst
    | Hs : client_send _ _ = Some _ |- _ =>
        apply client_send_shape in Hs; destruct Hs as [? ->]
    | Hs : CHECK_UPDATE _ _ _ _ _ = Some _ |- _ =>
        apply CHECK_UPDATE_shape in Hs; destruct Hs as (? & ? & ->)
    | Hs : channel_loop _ _ _ = Some _ |- _ =>
        apply channel_loop_shape in Hs; destruct Hs as [? ->]
    | Hs : attrs_loop _ _ _ = Some _ |- _ =>
        apply attrs_loop_shape in Hs; destruct Hs as [? ->]
    | Hs : image_loop _ _ _ = Some _ |- _ =>
        apply image_loop_shape in Hs; destruct Hs as (? & ? & ? & ? & ->)
    end.

Ltac unfold_ops Hex :=
  unfold init, free, clear_frame_data, wait_for_server, sync,
    set_current_frame, set_render_region, set_render_size, set_camera_plugin,
    set_commit_state, start, reset, stop, export_vrscene, remove_plugin_impl,
    replace_plugin, export_plugin_impl, get_image, get_render_channel, deepCopy,
    resetExportedPluginsCount, zmqCallback in Hex.

Ltac project f :=
  cbn [f with_m_cachedValues with_m_client with_m_isDirty with_m_isAborted with_m_started
       with_m_exportedCount with_log with_events with_heap with_m_layerImages
       with_current_scene_frame with_commit_state add_log add_event
       with_render_progress with_progress_message with_last_rendered_frame snd] in *.

(** ** The export counter *)

Section Counter.
Context `{Env}.

Lemma checkZmqClient_count (e : ZmqExporter) :
  m_exportedCount (checkZmqClient e) = m_exportedCount e.
Proof. apply checkZmqClient_frame. Qed.

Lemma int_inv (z v : Z) : int z = Some v -> v = z.
Proof. unfold int. destruct (_ && _); congruence. Qed.

Lemma exec_counted (o : Op) (e e' : ZmqExporter) :
  exec o e = Some e' -> m_exportedCount e' = counted (m_exportedCount e) o.
Proof.
  intros Hex.
  destruct o; cbn [exec] in Hex; unfold_ops Hex; cbn [counted];
    inv_steps; try discriminate; shapes;
    repeat match goal with
      | |- context [if ?b then _ else _] => destruct b
      | Hs : context [if ?b then _ else _] |- _ => destruct b
      | Hs : int _ = Some _ |- _ => apply int_inv in Hs; subst
      end;
    project m_exportedCount; rewrite ?checkZmqClient_count;
    project m_exportedCount; try reflexivity; try discriminate.
Qed.

(** X6: along any run of operations and inbound messages the export
    counter read by [getExportedPluginsCount] is the number of accepted
    exports (those with a plugin type) since the last
    [resetExportedPluginsCount], or since the start added to the initial
    count when there was no reset; nothing else moves it. *)
Theorem exported_count_tracks_exports (ops : list Op) :
  forall e e',
    run ops e = Some e' ->
    getExportedPluginsCount e' = foldl counted (getExportedPluginsCount e) ops.
Proof.
  unfold getExportedPluginsCount.
  induction ops as [| o rest IH]; intros e e' Hrun; cbn [run foldl] in *.
  - congruence.
  - destruct (exec o e) as [e1 |] eqn:Ex; cbn [mbind option_bind] in Hrun; [| discriminate].
    rewrite (IH e1 e' Hrun), (exec_counted o e e1 Ex). reflexivity.
Qed.

End Counter.

Lemma export_plugin_commands_witness :
  let d := mkPluginDesc "chColor" "RenderChannelColor"
             [("a"%string, mkPluginAttr "alpha" (AttrInt 1));
              ("b"%string, mkPluginAttr "beta" AttrUnknown);
              ("c"%string, mkPluginAttr "gamma" (AttrString "x"))] in
  exists e',
    @export_plugin_impl sample_Env d connected_exporter = Some (mkAttrPlugin "chColor", e') /\
    commands e'
      = [msgRendererAction GetImage (ArgChannel RenderChannelTypeVfbColor);
         msgPluginCreate "chColor" "RenderChannelColor";
         msgPluginSetProperty "chColor" "alpha" (AttrInt 1);
         msgPluginSetProperty "chColor" "gamma" (AttrString "x")] /\
    m_exportedCount e' = 1.
Proof.
  intros d.
  destruct (@export_plugin_commands sample_Env d connected_exporter)
    as (e' & Hex & Hc & Hn & _); [discriminate | vm_compute; split; congruence |].
  exists e'. split; [exact Hex |]. split; [exact Hc | exact Hn].
Defined.

Lemma exported_count_tracks_exports_witness :
  let d := mkPluginDesc "n" "Node" [] in
  let ops := [op_export_plugin d; op_export_plugin (mkPluginDesc "m" "" []);
              op_resetExportedPluginsCount; op_sync; op_export_plugin d; op_stop] in
  getExportedPluginsCount <$> @run sample_Env ops connected_exporter = Some 1.
Proof.
  intros d ops.
  destruct (@run sample_Env ops connected_exporter) as [e' |] eqn:Hrun;
    [| vm_compute in Hrun; discriminate Hrun].
  cbn [fmap option_fmap option_map]. f_equal.
  exact (@exported_count_tracks_exports sample_Env ops connected_exporter e' Hrun).
Defined.


(** ** Inbound messages *)

Section Inbound.
Context `{Env}.

Lemma truncate_line_prefix (text : string) :
  exists rest,
    text = (truncate_line text ++ rest)%string /\
    (rest = ""%string \/
     exists a r, rest = String a r /\ (a = "010"%char \/ a = "013"%char)).
Proof.
  induction text as [| a text (rest & Htext & Hrest)]; cbn [truncate_line].
  - exists ""%string. auto.
  - destruct (Ascii.eqb a "010" || Ascii.eqb a "013") eqn:Hb.
    + exists (String a text). split; [reflexivity |]. right. exists a, text.
      split; [reflexivity |].
      apply orb_true_iff in Hb as [Hb | Hb]; apply Ascii.eqb_eq in Hb; auto.
    + exists rest. split; [rewrite Htext at 1; reflexivity | exact Hrest].
Qed.

Lemma truncate_line_clean (text : string) (a : ascii) :
  In a (list_ascii_of_string (truncate_line text)) -> a <> "010"%char /\ a <> "013"%char.
Proof.
  induction text as [| b text IH]; cbn [truncate_line]; [intros [] |].
  destruct (Ascii.eqb b "010" || Ascii.eqb b "013") eqn:Hb; [intros [] |].
  cbn. intros [<- | Hin]; [| exact (IH Hin)].
  apply orb_false_iff in Hb as [H1 H2].
  apply Ascii.eqb_neq in H1, H2. auto.
Qed.

Lemma c_str_prefix (s : string) :
  exists tail,
    s = (c_str s ++ tail)%string /\
    (tail = ""%string \/ exists r, tail = String "000"%char r).
Proof.
  induction s as [| a s (tail & Hs & Htail)]; cbn [c_str].
  - exists ""%string. auto.
  - destruct (Ascii.eqb a "000") eqn:Hb.
    + exists (String a s). split; [reflexivity |]. right. exists s.
      apply Ascii.eqb_eq in Hb. rewrite Hb. reflexivity.
    + exists tail. split; [rewrite Hs at 1; reflexivity | exact Htail].
Qed.

Lemma c_str_clean (s : string) (a : ascii) :
  In a (list_ascii_of_string (c_str s)) -> a <> "000"%char.
Proof.
  induction s as [| b s IH]; cbn [c_str]; [intros [] |].
  destruct (Ascii.eqb b "000") eqn:Hb; [intros [] |].
  cbn. intros [<- | Hin]; [| exact (IH Hin)].
  apply Ascii.eqb_neq in Hb. exact Hb.
Qed.

Lemma c_str_gui_prefix (msg : string) :
  c_str ("V-Ray: " ++ msg) = ("V-Ray: " ++ c_str msg)%string.
Proof. reflexivity. Qed.

(** X7: a log message from the renderer is cut before its first line feed
    or carriage return (it is kept whole when it has none), and the cut
    line, as far as its first NUL, is handed to the logger as the format
    string of a call without arguments. Where the logger gives that format
    no defined text the dispatch does not return; otherwise one entry with
    the logger's text is logged at the level of the severity band, and the
    message hook, when installed, is called with 'V-Ray: ' followed by the
    line as far as its first NUL. Neither the transport nor the image
    buffers are touched. *)
Theorem log_message_dispatch (text : string) (logLevel : Z) (e : ZmqExporter) :
  exists line rest tail,
    text = (line ++ rest)%string /\
    (forall a, In a (list_ascii_of_string line) -> a <> "010"%char /\ a <> "013"%char) /\
    (rest = ""%string \/
     exists a r, rest = String a r /\ (a = "010"%char \/ a = "013"%char)) /\
    line = (c_str line ++ tail)%string /\
    (forall a, In a (list_ascii_of_string (c_str line)) -> a <> "000"%char) /\
    (tail = ""%string \/ exists r, tail = String "000"%char r) /\
    (Logger_format (c_str line) = None -> zmqCallback (VRayLog text logLevel) e = None) /\
    (forall logged, Logger_format (c_str line) = Some logged ->
       exists e',
         zmqCallback (VRayLog text logLevel) e = Some e' /\
         log e' = log e ++ [(msgLevel logLevel, logged)] /\
         events e' = events e ++ (if callback_on_message_update (hooks e)
                                  then [on_message_update ("V-Ray: " ++ c_str line)]
                                  else []) /\
         commands e' = commands e /\
         images_of e' = images_of e).
Proof.
  destruct (truncate_line_prefix text) as (rest & Htext & Hrest).
  destruct (c_str_prefix (truncate_line text)) as (tail & Hline & Htail).
  exists (truncate_line text), rest, tail.
  split; [exact Htext |]. split; [apply truncate_line_clean |].
  split; [exact Hrest |]. split; [exact Hline |].
  split; [apply c_str_clean |]. split; [exact Htail |].
  cbn [zmqCallback]. cbv zeta. split.
  - intros ->. reflexivity.
  - intros logged ->. cbn [mbind option_bind hooks add_log with_log].
    rewrite c_str_gui_prefix.
    destruct (callback_on_message_update (hooks e)); eexists;
      (split; [reflexivity |]); cbn; rewrite ?app_nil_r; auto.
Qed.

Lemma image_loop_events (imgs : list (RenderChannelType * AttrImage)) :
  forall rt e rt' e',
    image_loop imgs rt e = Some (rt', e') ->
    rt' = rt || existsb (fun p => negb (to_bucket_hook (hooks e) p)) imgs /\
    events e' = events e
      ++ ((fun p => on_bucket_ready p.2)
            <$> filter (fun p => to_bucket_hook (hooks e) p = true) imgs).
Proof.
  induction imgs as [| [first second] rest IH]; intros rt e rt' e' Hl; cbn [image_loop] in Hl.
  - injection Hl as <- <-. cbn. rewrite orb_false_r, app_nil_r. auto.
  - cbv zeta in Hl.
    destruct (update _ _ _ _ _ _) as [[[this1 σ1] lg] |]; cbn [mbind option_bind] in Hl;
      [| discriminate Hl].
    cbn [hooks with_log with_heap with_m_layerImages] in Hl.
    change (bool_decide (first = RenderChannelTypeNone) && isBucket second
            && callback_on_bucket_ready (hooks e))
      with (to_bucket_hook (hooks e) (first, second)) in Hl.
    rewrite filter_cons. cbn [existsb].
    destruct (to_bucket_hook (hooks e) (first, second)) eqn:Hb.
    + apply IH in Hl as [-> ->]. cbn [hooks add_event with_events with_log with_heap
                                       with_m_layerImages events].
      rewrite decide_True by reflexivity. rewrite fmap_cons, <- app_assoc. cbn. auto.
    + apply IH in Hl as [-> ->]. cbn [hooks with_log with_heap with_m_layerImages events].
      rewrite decide_False by discriminate. cbn. rewrite orb_true_r. auto.
Qed.

Lemma image_loop_hooks imgs rt e rt' e' :
  image_loop imgs rt e = Some (rt', e') -> hooks e' = hooks e.
Proof. intros Hl. apply image_loop_shape in Hl as (? & ? & ? & ? & ->). reflexivity. Qed.

(** X8: an image message that is dispatched calls the hooks in this
    order: the bucket hook once for every bucket of the main channel, in
    the order of the message; then the image-updated hook once, if the
    message holds any other image (or no bucket hook is installed); then
    the image-ready hook, if the message marks the image as ready. Hooks
    that are not installed are skipped, and no other event is raised. *)
Theorem image_message_events (set : AttrImageSet) (e e' : ZmqExporter) :
  zmqCallback (Image set) e = Some e' ->
  events e' = events e ++ image_events (hooks e) set.
Proof.
  cbn [zmqCallback]. cbv zeta. intros Hz.
  destruct (image_loop (images set) false e) as [[rt e1] |] eqn:Hl;
    cbn [mbind option_bind] in Hz; [| discriminate Hz].
  pose proof (image_loop_hooks _ _ _ _ _ Hl) as Hh.
  apply image_loop_events in Hl as [-> Hev]. cbn [orb] in Hz.
  injection Hz as <-. unfold image_events.
  rewrite Hh.
  destruct (existsb _ (images set) && callback_on_rt_image_updated (hooks e));
    cbn [hooks add_event with_events]; rewrite ?Hh;
    destruct (bool_decide (sourceType set = ImageReady) && callback_on_image_ready (hooks e));
    cbn [events add_event with_events]; rewrite Hev, <- ?app_assoc; cbn; rewrite ?app_nil_r;
    reflexivity.
Qed.

Lemma image_loop_channels (imgs : list (RenderChannelType * AttrImage)) :
  forall rt e rt' e',
    image_loop imgs rt e = Some (rt', e') ->
    dom (m_layerImages e') = dom (m_layerImages e) ∪ list_to_set imgs.*1 /\
    (forall ch, (ch ∉ imgs.*1) -> m_layerImages e' !! ch = m_layerImages e !! ch).
Proof.
  induction imgs as [| [first second] rest IH]; intros rt e rt' e' Hl; cbn [image_loop] in Hl.
  - injection Hl as <- <-. cbn. rewrite (right_id_L ∅ (∪)). auto.
  - cbv zeta in Hl.
    destruct (update _ _ _ _ _ _) as [[[this1 σ1] lg] |]; cbn [mbind option_bind] in Hl;
      [| discriminate Hl].
    destruct (_ && _ && _); apply IH in Hl as [Hdom Hkeep];
      cbn [m_layerImages add_event with_events with_log with_heap with_m_layerImages] in *;
      (split;
       [ rewrite Hdom, dom_insert_L, fmap_cons; cbn [fst list_to_set];
         rewrite (comm_L (∪) {[first]} (dom (m_layerImages e))), <- (assoc_L (∪));
         reflexivity
       | intros ch Hch; rewrite fmap_cons in Hch; cbn [fst] in Hch;
         apply not_elem_of_cons in Hch as [Hne Hch];
         rewrite (Hkeep ch Hch), lookup_insert_ne by congruence; reflexivity ]).
Qed.

(** X9: an image message that is dispatched leaves an entry in the image
    table for every channel it names, creating the ones that were missing,
    and does not touch the entry of any channel it does not name. *)
Theorem image_message_channels (set : AttrImageSet) (e e' : ZmqExporter) :
  zmqCallback (Image set) e = Some e' ->
  dom (m_layerImages e') = dom (m_layerImages e) ∪ list_to_set (images set).*1 /\
  (forall ch, (ch ∉ (images set).*1) -> m_layerImages e' !! ch = m_layerImages e !! ch).
Proof.
  cbn [zmqCallback]. cbv zeta. intros Hz.
  destruct (image_loop (images set) false e) as [[rt e1] |] eqn:Hl;
    cbn [mbind option_bind] in Hz; [| discriminate Hz].
  apply image_loop_channels in Hl.
  injection Hz as <-.
  destruct (rt && _), (_ && callback_on_image_ready _);
    cbn [m_layerImages add_event with_events]; exact Hl.
Qed.

(** X10: whatever the renderer sends, dispatching it never hands a
    command to the transport and never changes the state the host calls
    work on: the client, the settings cache, the dirty flag, the export
    counter, the started flag, the current frame, the commit mode, the
    configuration and the installed hooks. *)
Theorem inbound_leaves_host_state (message : InboundMessage) (e e' : ZmqExporter) :
  zmqCallback message e = Some e' ->
  m_client e' = m_client e /\
  commands e' = commands e /\
  m_cachedValues e' = m_cachedValues e /\
  m_isDirty e' = m_isDirty e /\
  m_exportedCount e' = m_exportedCount e /\
  m_started e' = m_started e /\
  current_scene_frame e' = current_scene_frame e /\
  commit_state e' = commit_state e /\
  exporter_settings e' = exporter_settings e /\
  is_viewport e' = is_viewport e /\
  hooks e' = hooks e.
Proof.
  intros Hz. unfold zmqCallback in Hz. unfold commands.
  destruct message as [text lvl | set | action state |];
    inv_steps; try discriminate; shapes;
    repeat match goal with |- context [if ?b then _ else _] => destruct b end;
    cbn; tauto.
Qed.

End Inbound.

Lemma image_message_events_witness :
  let hk := mkHooks false true true true in
  let set := mkImageSet [(RenderChannelTypeNone, white_bucket 0 0);
                         (RenderChannelTypeNone, white_bucket 1 0);
                         (RenderChannelTypeVfbColor, rgb_pixel_frame)] ImageReady in
  let e0 := ZmqExporter_new sample_settings false hk in
  let e := default e0 (set_render_size 2 2 e0) in
  events <$> @zmqCallback sample_Env (Image set) e
  = Some [on_bucket_ready (white_bucket 0 0); on_bucket_ready (white_bucket 1 0);
          on_rt_image_updated; on_image_ready].
Proof.
  intros hk set e0 e.
  destruct (@zmqCallback sample_Env (Image set) e) as [e' |] eqn:Hz;
    [| vm_compute in Hz; discriminate Hz].
  cbn [fmap option_fmap option_map]. f_equal.
  exact (@image_message_events sample_Env set e e' Hz).
Defined.

Lemma image_message_channels_witness :
  let set := mkImageSet [(RenderChannelTypeVfbColor, rgb_pixel_frame)] RtImageUpdate in
  (fun e' => (dom (m_layerImages e'), m_layerImages e' !! RenderChannelTypeNone))
    <$> @zmqCallback sample_Env (Image set) populated_exporter
  = Some ({[RenderChannelTypeNone; RenderChannelTypeVfbColor]},
          m_layerImages populated_exporter !! RenderChannelTypeNone).
Proof.
  intros set.
  destruct (@zmqCallback sample_Env (Image set) populated_exporter) as [e' |] eqn:Hz;
    [| vm_compute in Hz; discriminate Hz].
  cbn [fmap option_fmap option_map]. f_equal.
  destruct (@image_message_channels sample_Env set populated_exporter e' Hz) as [Hdom Hkeep].
  f_equal.
  - rewrite Hdom. apply (bool_decide_unpack _). vm_compute. exact I.
  - apply Hkeep. cbn. apply not_elem_of_cons. split; [discriminate | apply not_elem_of_nil].
Defined.

Lemma inbound_leaves_host_state_witness :
  let m := ChangeRenderer SetRendererState (Progress f_one_half) in
  (fun e' => (commands e', m_isDirty e', m_exportedCount e'))
    <$> @zmqCallback sample_Env m connected_exporter
  = Some (commands connected_exporter, m_isDirty connected_exporter,
          m_exportedCount connected_exporter).
Proof.
  intros m.
  destruct (@zmqCallback sample_Env m connected_exporter) as [e' |] eqn:Hz;
    [| vm_compute in Hz; discriminate Hz].
  cbn [fmap option_fmap option_map].
  destruct (@inbound_leaves_host_state sample_Env m connected_exporter e' Hz)
    as (_ & Hc & _ & Hd & Hn & _).
  rewrite Hc, Hd, Hn. reflexivity.
Defined.


(** ** The session: connect, commit, export to file *)

Section Session.
Context `{Env}.

Lemma sends_return (m : VRayMessage) (e : ZmqExporter) :
  is_Some (m_client e) -> exists e', client_send m e = Some e' /\ is_Some (m_client e').
Proof.
  intros [c Hc]. unfold client_send. rewrite Hc. cbn. eexists. split; [reflexivity |]. cbn. eauto.
Qed.

Lemma init_client (net : LinkStatus) (e : ZmqExporter) :
  m_client e = None -> init net e = None.
Proof. intros Hc. unfold init. cbv zeta. cbn [m_client add_log with_log]. rewrite Hc. reflexivity. Qed.

(** X11: when the client is not connected and the connect of [init] does
    not succeed, [init] still returns, hands nothing to the transport,
    leaves the settings cache as it was and does not mark the session
    aborted; the failure shows only at the health check of the next
    operation, which marks it aborted. *)
Theorem init_unreachable (net : LinkStatus) (e : ZmqExporter) (c : ZmqClient) :
  m_client e = Some c ->
  connected_after net e = false ->
  exists e',
    init net e = Some e' /\
    commands e' = commands e /\
    m_cachedValues e' = m_cachedValues e /\
    m_isAborted e' = m_isAborted e /\
    m_isAborted (checkZmqClient e') = true.
Proof.
  intros Hc Hconn. unfold connected_after in Hconn. rewrite Hc in Hconn.
  apply orb_false_iff in Hconn as [Hcon Hnet].
  unfold init. cbv zeta. cbn [m_client add_log with_log exporter_settings]. rewrite Hc.
  cbn [mbind option_bind setCallback connected]. rewrite Hcon.
  cbn [connect connected]. rewrite Hnet.
  eexists. split; [reflexivity |].
  unfold commands. cbn. rewrite Hc. repeat split. rewrite Hnet. reflexivity.
Qed.

Lemma init_link_connected (net : LinkStatus) (addr : string) (cb : Callback) (c : ZmqClient) :
  connected c || link_connected net = true ->
  connected (if connected (setCallback cb c) then setCallback cb c
             else connect net addr (setCallback cb c)) = true.
Proof.
  cbn [setCallback connected]. destruct (connected c) eqn:Ec; cbn; [intros _; exact Ec | auto].
Qed.

Lemma pending_nil_sync (e : ZmqExporter) :
  pending e = [] -> exists e2, sync e = Some e2 /\ commands e2 = commands e.
Proof.
  intros Hp. destruct (sync_sends e) as (e2 & Hs & Hc & _).
  exists e2. rewrite Hc, Hp, app_nil_r. auto.
Qed.

(** X12: when [init] returns with the client connected, the settings
    cache holds the configured values of the four tracked settings, so a
    [sync] right after it sends nothing; the cached render size is zero,
    so the first [set_render_size] with a size other than 0 by 0 sends a
    resize; and the cached camera is kept. *)
Theorem init_primes_cache (net : LinkStatus) (e e' : ZmqExporter) :
  connected_after net e = true ->
  init net e = Some e' ->
  pending e' = [] /\
  (exists e2, sync e' = Some e2 /\ commands e2 = commands e') /\
  renderWidth (m_cachedValues e') = 0 /\
  renderHeight (m_cachedValues e') = 0 /\
  activeCamera (m_cachedValues e') = activeCamera (m_cachedValues e) /\
  (forall rw rh, (rw, rh) <> (0, 0) ->
     exists e2, set_render_size rw rh e' = Some e2 /\
                commands e2 = commands e' ++ [msgRendererResize rw rh]).
Proof.
  intros Hconn Hinit. unfold connected_after in Hconn.
  destruct (m_client e) as [c |] eqn:Hc; [| discriminate Hconn].
  assert (Hst : exporter_settings e' = exporter_settings e /\
                m_cachedValues e'
                = mkCached (show_vfb (exporter_settings e))
                    (viewport_image_quality (exporter_settings e))
                    (viewport_image_type (exporter_settings e))
                    (render_mode (exporter_settings e))
                    (activeCamera (m_cachedValues e)) 0 0).
  { unfold init in Hinit. cbv zeta in Hinit.
    cbn [m_client add_log with_log exporter_settings] in Hinit. rewrite Hc in Hinit.
    cbn [mbind option_bind] in Hinit.
    rewrite init_link_connected in Hinit by exact Hconn.
    inv_steps; try discriminate; shapes; cbn; auto. }
  destruct Hst as [Hst Hcv].
  assert (Hp : pending e' = []).
  { unfold pending. cbv zeta. rewrite Hst, Hcv. cbn. rewrite !decide_True by reflexivity.
    reflexivity. }
  split; [exact Hp |]. split; [apply pending_nil_sync, Hp |].
  rewrite Hcv. cbn. repeat split.
  intros rw rh Hne.
  destruct (set_render_size_changed rw rh e') as (e1 & H1 & Hc1 & _).
  { rewrite Hcv. cbn. intros [-> ->]. apply Hne. reflexivity. }
  exists e1. auto.
Qed.

Lemma string_app_assoc (a b c : string) : ((a ++ b) ++ c = a ++ (b ++ c))%string.
Proof.
  induction a as [| x a IH]; [reflexivity |].
  change (String x ((a ++ b) ++ c) = String x (a ++ (b ++ c)))%string.
  rewrite IH. reflexivity.
Qed.

Lemma pop_back_snoc (s : string) (a : ascii) :
  pop_back (s ++ String a "")%string = Some s.
Proof.
  induction s as [| x s IH]; [reflexivity |].
  change (pop_back (String x (s ++ String a ""))%string = Some (String x s)).
  cbn [pop_back]. destruct (s ++ String a "")%string eqn:Es.
  - destruct s; discriminate Es.
  - rewrite IH. reflexivity.
Qed.

Lemma join_hosts_acc (hostItems : list string) :
  forall (h acc : string),
    fold_left (fun hostsStr host => hostsStr ++ host ++ ";")%string (h :: hostItems) acc
    = (acc ++ String.concat ";" (h :: hostItems) ++ ";")%string.
Proof.
  induction hostItems as [| h' rest IH]; intros h acc.
  - reflexivity.
  - change (fold_left _ (h :: h' :: rest) acc)
      with (fold_left (fun hostsStr host => hostsStr ++ host ++ ";")%string (h' :: rest)
              (acc ++ h ++ ";")%string).
    rewrite IH.
    change (String.concat ";" (h :: h' :: rest))
      with (h ++ ";" ++ String.concat ";" (h' :: rest))%string.
    rewrite !string_app_assoc. reflexivity.
Qed.

Lemma hosts_string (hostItems : list string) :
  pop_back (join_hosts hostItems)
  = match hostItems with
    | [] => None
    | _ => Some (String.concat ";" hostItems)
    end.
Proof.
  destruct hostItems as [| h rest]; [reflexivity |].
  unfold join_hosts. rewrite join_hosts_acc.
  change ("" ++ ?s)%string with s.
  rewrite <- (pop_back_snoc (String.concat ";" (h :: rest)) ";"). reflexivity.
Qed.

(** X13: with distributed rendering switched on and the client connected,
    [init] run with an empty host list removes a character from the empty
    host string, which is undefined; with a host list that is not empty it
    returns, and the last command it sends resets the hosts to the list's
    entries separated by single semicolons, with none at the end. *)
Theorem init_distributed_hosts (net : LinkStatus) (e : ZmqExporter) :
  connected_after net e = true ->
  settings_dr_use (exporter_settings e) = true ->
  match settings_dr_hosts (exporter_settings e) with
  | [] => init net e = None
  | hosts =>
      exists e', init net e = Some e' /\
                 last (commands e')
                 = Some (msgRendererAction ResetsHosts (ArgString (String.concat ";" hosts)))
  end.
Proof.
  intros Hconn Hdr. unfold connected_after in Hconn.
  destruct (m_client e) as [c |] eqn:Hc; [| discriminate Hconn].
  unfold init. cbv zeta. cbn [m_client add_log with_log exporter_settings]. rewrite Hc.
  cbn [mbind option_bind].
  rewrite init_link_connected by exact Hconn.
  match goal with |- context [Some (if ?b then ?c1 else ?c2)] =>
    generalize (if b then c1 else c2); intros c0 end.
  match goal with |- context [client_send ?m ?e0] =>
    destruct (sends_return m e0) as (e1 & -> & H1); [cbn; eauto |] end.
  cbn [mbind option_bind].
  match goal with |- context [client_send ?m e1] =>
    destruct (sends_return m e1 H1) as (e2 & -> & H2) end.
  cbn [mbind option_bind].
  match goal with |- context [client_send ?m e2] =>
    destruct (sends_return m e2 H2) as (e3 & -> & H3) end.
  cbn [mbind option_bind].
  assert (H4 : exists e4,
             (if negb (is_viewport e3) && negb (settings_animation_use (exporter_settings e))
              then client_send (msgRendererAction GetImage
                                  (ArgChannel RenderChannelTypeVfbRealcolor)) e3
              else Some e3) = Some e4 /\ is_Some (m_client e4)).
  { destruct (_ && _); [apply sends_return, H3 | eauto]. }
  destruct H4 as (e4 & -> & H4). cbn [mbind option_bind].
  match goal with |- context [client_send ?m e4] =>
    destruct (sends_return m e4 H4) as (e5 & -> & H5) end.
  cbn [mbind option_bind].
  match goal with |- context [client_send ?m e5] =>
    destruct (sends_return m e5 H5) as (e6 & -> & H6) end.
  cbn [mbind option_bind].
  match goal with |- context [client_send ?m e6] =>
    destruct (sends_return m e6 H6) as (e7 & -> & H7) end.
  cbn [mbind option_bind].
  rewrite Hdr, hosts_string.
  destruct (settings_dr_hosts (exporter_settings e)) as [| h rest]; [reflexivity |].
  cbn [mbind option_bind].
  match goal with |- context [client_send ?m e7] =>
    destruct (client_send m e7) as [e8 |] eqn:E8;
    [| destruct (sends_return m e7 H7) as (? & ? & _); congruence] end.
  cbn [mbind option_bind]. eexists. split; [reflexivity |].
  rewrite push_one in E8. apply push_commands in E8.
  change (commands (with_m_cachedValues ?cv e8)) with (commands e8).
  rewrite E8. apply last_snoc.
Qed.

(** X14: when the directory of the file neither exists nor can be
    created, [export_vrscene] logs an error that quotes the path and gives
    the system's message, and returns without doing anything else: no
    command is sent, the client is not checked and the session is not
    marked aborted. Otherwise it sends exactly one export command carrying
    the file path and then waits for the renderer with no timeout: it
    returns exactly when that wait returns. *)
Theorem export_vrscene_directory (filepath : string) (e : ZmqExporter) :
  let waiting := send (msgRendererAction ExportScene (ArgString filepath))
                      (default (new_ZmqClient false) (m_client e)) in
  (directory_ready filepath = false ->
   exists e',
     export_vrscene filepath e = Some e' /\
     commands e' = commands e /\
     m_client e' = m_client e /\ m_isAborted e' = m_isAborted e /\
     last (log e')
       = Some (error,
               ("Failed to create directory " ++ dquote ++ c_str filepath ++ dquote ++ ": "
                ++ c_str (fs_create_directories_message (remove_filename filepath)))%string)) /\
  (directory_ready filepath = true -> waitForMessages_returns waiting = false ->
   export_vrscene filepath e = None) /\
  (directory_ready filepath = true -> waitForMessages_returns waiting = true ->
   exists e',
     export_vrscene filepath e = Some e' /\
     commands e' = commands e ++ [msgRendererAction ExportScene (ArgString filepath)]).
Proof.
  intros waiting. unfold export_vrscene, directory_ready. cbv zeta.
  set (e0 := if settings_files_use_separate (exporter_settings e) then _ else e).
  assert (He0 : m_client e0 = m_client e /\ m_isAborted e0 = m_isAborted e).
  { subst e0. destruct (settings_files_use_separate _); auto. }
  destruct He0 as [Hcl Hab].
  rewrite <- negb_orb.
  destruct (fs_exists (remove_filename filepath)
            || fs_create_directories (remove_filename filepath)); cbn [negb].
  - split; [discriminate |].
    rewrite client_send_checked. cbn [mbind option_bind].
    unfold client_waitForMessages. cbn [m_client with_m_client mbind option_bind].
    rewrite Hcl. fold waiting.
    split; intros _ Hw; rewrite Hw; [reflexivity |].
    eexists. split; [reflexivity |].
    unfold commands. cbn [m_client with_m_client waiting send sent].
    destruct (m_client e); reflexivity.
  - split; [| split; discriminate]. intros _.
    eexists. split; [reflexivity |]. unfold commands.
    cbn [m_client m_isAborted log add_log with_log]. rewrite Hcl, Hab, last_snoc.
    auto.
Qed.

(** ** Invariants of the facade *)

Lemma checkZmqClient_dirty (e : ZmqExporter) :
  m_isDirty (checkZmqClient e) = m_isDirty e.
Proof. apply checkZmqClient_frame. Qed.

Lemma exec_keeps_clean (o : Op) (e e' : ZmqExporter) :
  dirties o = false -> m_isDirty e = false -> exec o e = Some e' -> m_isDirty e' = false.
Proof.
  intros Hd Hclean Hex.
  destruct o; try discriminate Hd; cbn [exec] in Hex; unfold_ops Hex;
    inv_steps; try discriminate; shapes;
    repeat match goal with
      | |- context [if ?b then _ else _] => destruct b
      end;
    project m_isDirty; rewrite ?checkZmqClient_dirty;
    project m_isDirty; try reflexivity; try assumption.
Qed.

(** X15: once the exported state is clean (as after an explicit commit),
    it stays clean along any run that exports, removes or replaces no
    plugin and sets no camera, whatever else is called or received; an
    explicit commit at the end of such a run does nothing at all. *)
Theorem commit_not_resent (ops : list Op) :
  forall e e',
    m_isDirty e = false ->
    Forall (fun o => dirties o = false) ops ->
    run ops e = Some e' ->
    m_isDirty e' = false /\
    set_commit_state CommitNow e' = Some e' /\
    set_commit_state CommitNone e' = Some e'.
Proof.
  induction ops as [| o rest IH]; intros e e' Hclean Hall Hrun; cbn [run] in Hrun.
  - injection Hrun as <-. unfold set_commit_state. cbn. rewrite Hclean. auto.
  - apply Forall_cons in Hall as [Ho Hrest].
    destruct (exec o e) as [e1 |] eqn:Ex; cbn [mbind option_bind] in Hrun; [| discriminate].
    exact (IH e1 e' (exec_keeps_clean o e e1 Ho Hclean Ex) Hrest Hrun).
Qed.

Lemma explicit_commit_sends (ca : CommitAction) (e : ZmqExporter) :
  ca <> CommitAutoOn -> ca <> CommitAutoOff -> m_isDirty e = true ->
  exists e2,
    set_commit_state ca e = Some e2 /\
    commands e2 = commands e ++ [msgRendererAction SetCommitAction (ArgCommit ca)] /\
    m_isDirty e2 = false.
Proof.
  intros Hon Hoff Hd. unfold set_commit_state.
  rewrite !bool_decide_eq_false_2 by assumption. cbn [orb]. rewrite Hd.
  rewrite client_send_checked. cbn [mbind option_bind].
  eexists. split; [reflexivity |]. split; [| reflexivity].
  exact (commands_send_checked _ e).
Qed.

(** X16: every export, removal or replacement of a plugin that returns
    leaves the exported state dirty, also an export that is rejected for
    its empty plugin type; so the explicit commit that follows is sent,
    exactly once, and clears the flag. *)
Theorem change_is_committed (o : Op) (e e1 : ZmqExporter) :
  marks_dirty o = true ->
  exec o e = Some e1 ->
  m_isDirty e1 = true /\
  (forall ca, ca <> CommitAutoOn -> ca <> CommitAutoOff ->
     exists e2,
       set_commit_state ca e1 = Some e2 /\
       commands e2 = commands e1 ++ [msgRendererAction SetCommitAction (ArgCommit ca)] /\
       m_isDirty e2 = false /\
       set_commit_state ca e2 = Some e2).
Proof.
  intros Ho Hex.
  assert (Hd : m_isDirty e1 = true).
  { destruct o; try discriminate Ho; cbn [exec] in Hex; unfold_ops Hex;
      inv_steps; try discriminate; shapes;
      project m_isDirty; rewrite ?checkZmqClient_dirty;
      project m_isDirty; reflexivity. }
  split; [exact Hd |]. intros ca Hon Hoff.
  destruct (explicit_commit_sends ca e1 Hon Hoff Hd) as (e2 & Hs & Hc & Hclean).
  exists e2. split; [exact Hs |]. split; [exact Hc |]. split; [exact Hclean |].
  unfold set_commit_state. rewrite !bool_decide_eq_false_2 by assumption.
  cbn [orb]. rewrite Hclean. reflexivity.
Qed.

Lemma checkZmqClient_is_Some (e : ZmqExporter) : is_Some (m_client (checkZmqClient e)).
Proof. rewrite checkZmqClient_client. eauto. Qed.

Lemma client_send_client (m : VRayMessage) (e e' : ZmqExporter) :
  client_send m e = Some e' -> is_Some (m_client e').
Proof.
  unfold client_send. destruct (m_client e); [| discriminate]. cbn. intros [= <-]. cbn. eauto.
Qed.

Lemma channel_loop_client (id : string) (entries : list (string * RenderChannelType)) :
  forall e e', channel_loop id entries e = Some e' ->
               is_Some (m_client e) -> is_Some (m_client e').
Proof.
  intros e e' Hl Hc. rewrite (channel_loop_push id entries e Hc) in Hl.
  eapply push_client, Hl.
Qed.

Lemma attrs_loop_client (name : string) (attrs : list (string * PluginAttr)) :
  forall e e', attrs_loop name attrs e = Some e' ->
               is_Some (m_client e) -> is_Some (m_client e').
Proof.
  intros e e' Hl Hc. rewrite (attrs_loop_push name attrs e Hc) in Hl.
  eapply push_client, Hl.
Qed.

Lemma CHECK_UPDATE_client {A : Type} `{EqDecision A}
    (cached : CachedValues -> A) setting set_cached upd (e e' : ZmqExporter) :
  CHECK_UPDATE cached setting set_cached upd e = Some e' ->
  is_Some (m_client e) -> is_Some (m_client e').
Proof.
  unfold CHECK_UPDATE. destruct (decide _); [intros [= <-]; auto |].
  destruct (client_send _ e) as [e1 |] eqn:Es; [| discriminate].
  cbn [mbind option_bind]. intros [= <-] _. apply client_send_client in Es. exact Es.
Qed.

Lemma image_loop_client imgs rt e rt' e' :
  image_loop imgs rt e = Some (rt', e') -> m_client e' = m_client e.
Proof. intros Hl. apply image_loop_shape in Hl as (? & ? & ? & ? & ->). reflexivity. Qed.

End Session.

Ltac solve_client :=
  project m_client;
  first [ assumption | apply checkZmqClient_is_Some | solve [eauto] ].

Ltac client_facts :=
  repeat match goal with
    | Hs : client_waitForMessages _ = Some _ |- _ =>
        apply client_waitForMessages_inv in Hs; subst
    | Hs : client_send _ _ = Some ?b |- _ =>
        apply client_send_client in Hs
    | Hs : CHECK_UPDATE _ _ _ _ _ = Some ?b |- _ =>
        apply CHECK_UPDATE_client in Hs; [| solve_client]
    | Hs : channel_loop _ _ _ = Some ?b |- _ =>
        apply channel_loop_client in Hs; [| solve_client]
    | Hs : attrs_loop _ _ _ = Some ?b |- _ =>
        apply attrs_loop_client in Hs; [| solve_client]
    | Hs : image_loop _ _ _ = Some _ |- _ =>
        apply image_loop_client in Hs
    end.

Section Client.
Context `{Env}.

Lemma exec_keeps_client (o : Op) (e e' : ZmqExporter) :
  is_Some (m_client e) -> exec o e = Some e' -> is_Some (m_client e').
Proof.
  intros Hc Hex.
  destruct o; cbn [exec] in Hex; unfold_ops Hex;
    inv_steps; try discriminate; client_facts;
    repeat match goal with
      | |- context [if ?b then _ else _] => destruct b
      end;
    project m_client;
    repeat match goal with
      | Hs : m_client ?a = m_client _ |- _ => is_var a; rewrite Hs
      end;
    solve_client.
Qed.

Lemma run_keeps_client (ops : list Op) :
  forall e e', is_Some (m_client e) -> run ops e = Some e' -> is_Some (m_client e').
Proof.
  induction ops as [| o rest IH]; intros e e' Hc Hrun; cbn [run] in Hrun.
  - injection Hrun as <-. exact Hc.
  - destruct (exec o e) as [e1 |] eqn:Ex; cbn [mbind option_bind] in Hrun; [| discriminate].
    exact (IH e1 e' (exec_keeps_client o e e1 Hc Ex) Hrun).
Qed.

Lemma reset_returns (e : ZmqExporter) : is_Some (m_client e) -> is_Some (reset e).
Proof.
  intros Hc. unfold reset. cbv zeta.
  destruct (sends_return (msgRendererAction Reset ArgNone) e Hc) as (e1 & -> & H1).
  cbn [mbind option_bind].
  destruct (sends_return (msgRendererAction SetVfbShow
                            (ArgBool (show_vfb (exporter_settings e)))) e1 H1)
    as (e2 & -> & H2).
  cbn [mbind option_bind].
  destruct (sends_return (msgRendererAction SetQuality
                            (ArgInt (viewport_image_quality (exporter_settings e)))) e2 H2)
    as (e3 & -> & H3).
  cbn [mbind option_bind].
  destruct (sends_return (msgRendererAction SetViewportImageFormat
                            (ArgInt (viewport_image_type (exporter_settings e)))) e3 H3)
    as (e4 & -> & H4).
  cbn [mbind option_bind].
  destruct (sends_return (msgRendererAction SetRenderMode
                            (ArgInt (render_mode (exporter_settings e)))) e4 H4)
    as (e5 & -> & H5).
  cbn [mbind option_bind]. eauto.
Qed.

(** X17: the client pointer is never null after construction: along any
    run of operations and inbound messages it stays set. So [stop] and
    [reset], which use the client without the health check, and the
    destructor never go through a null pointer on a facade reached from
    the constructor. *)
Theorem client_never_null settings viewport hk (ops : list Op) (e : ZmqExporter) :
  run ops (ZmqExporter_new settings viewport hk) = Some e ->
  is_Some (m_client e) /\
  is_Some (stop e) /\
  is_Some (reset e) /\
  is_Some (ZmqExporter_delete e).
Proof.
  intros Hrun.
  assert (Hc : is_Some (m_client e)).
  { eapply run_keeps_client; [| exact Hrun]. apply checkZmqClient_is_Some. }
  split; [exact Hc |].
  split.
  { unfold stop. destruct (sends_return (msgRendererAction Stop ArgNone) e Hc) as (e1 & -> & _).
    eauto. }
  split; [exact (reset_returns e Hc) |].
  unfold ZmqExporter_delete, free. rewrite client_send_checked.
  cbn [mbind option_bind m_client with_m_client]. eauto.
Qed.

End Client.

Lemma init_unreachable_witness :
  exists e',
    init (mkLink false false) sample_exporter = Some e' /\
    commands e' = [] /\
    m_isAborted e' = false /\
    m_isAborted (checkZmqClient e') = true.
Proof.
  destruct (init_unreachable (mkLink false false) sample_exporter (new_ZmqClient false))
    as (e' & Hi & Hc & _ & Ha & Hnext); [reflexivity | reflexivity |].
  exists e'. split; [exact Hi |]. split; [exact Hc |]. split; [exact Ha | exact Hnext].
Defined.

Lemma init_primes_cache_witness :
  exists e' e2,
    init (mkLink true true) sample_exporter = Some e' /\
    sync e' = Some e2 /\ commands e2 = commands e' /\
    renderWidth (m_cachedValues e') = 0.
Proof.
  destruct (init (mkLink true true) sample_exporter) as [e' |] eqn:Hi;
    [| vm_compute in Hi; discriminate Hi].
  destruct (init_primes_cache (mkLink true true) sample_exporter e' eq_refl Hi)
    as (_ & (e2 & Hs & Hc) & Hw & _).
  exists e', e2. auto.
Defined.

Lemma init_distributed_hosts_witness :
  let dr hosts := mkSettings true 80 4 0 "" 5555 false false true false hosts false in
  init (mkLink true true) (ZmqExporter_new (dr []) false no_hooks) = None /\
  (fun e' => last (commands e'))
    <$> init (mkLink true true) (ZmqExporter_new (dr ["a:1"; "b:2"]%string) false no_hooks)
  = Some (Some (msgRendererAction ResetsHosts (ArgString "a:1;b:2"))).
Proof.
  intros dr. split.
  - exact (init_distributed_hosts (mkLink true true) (ZmqExporter_new (dr []) false no_hooks)
             eq_refl eq_refl).
  - destruct (init_distributed_hosts (mkLink true true)
                (ZmqExporter_new (dr ["a:1"; "b:2"]%string) false no_hooks) eq_refl eq_refl)
      as (e' & -> & Hl).
    cbn [fmap option_fmap option_map]. f_equal. exact Hl.
Defined.

Lemma commit_not_resent_witness :
  let ops := [op_sync; op_set_render_size 4 4; op_start;
              op_zmqCallback (ChangeRenderer SetRendererState (Progress f_one_half))] in
  exists e',
    @run sample_Env ops (with_m_isDirty false connected_exporter) = Some e' /\
    m_isDirty e' = false /\
    set_commit_state CommitNow e' = Some e'.
Proof.
  intros ops.
  destruct (@run sample_Env ops (with_m_isDirty false connected_exporter)) as [e' |] eqn:Hrun;
    [| vm_compute in Hrun; discriminate Hrun].
  destruct (@commit_not_resent sample_Env ops (with_m_isDirty false connected_exporter) e'
              eq_refl) as (Hd & Hn & _);
    [repeat constructor | exact Hrun |].
  exists e'. auto.
Defined.

Lemma client_never_null_witness :
  let ops := [op_init (mkLink false false); op_sync; op_free] in
  exists e e',
    @run sample_Env ops (ZmqExporter_new sample_settings true no_hooks) = Some e /\
    reset e = Some e'.
Proof.
  intros ops.
  destruct (@run sample_Env ops (ZmqExporter_new sample_settings true no_hooks)) as [e |] eqn:Hrun;
    [| vm_compute in Hrun; discriminate Hrun].
  destruct (@client_never_null sample_Env sample_settings true no_hooks ops e Hrun)
    as (_ & _ & [e' Hr] & _).
  exists e, e'. auto.
Defined.

Lemma change_is_committed_witness :
  exists e1 e2,
    @exec sample_Env (op_export_plugin (mkPluginDesc "n" "" [])) connected_exporter = Some e1 /\
    set_commit_state CommitNow e1 = Some e2 /\
    commands e2 = commands e1 ++ [msgRendererAction SetCommitAction (ArgCommit CommitNow)].
Proof.
  destruct (@exec sample_Env (op_export_plugin (mkPluginDesc "n" "" [])) connected_exporter)
    as [e1 |] eqn:Hx; [| vm_compute in Hx; discriminate Hx].
  destruct (@change_is_committed sample_Env (op_export_plugin (mkPluginDesc "n" "" []))
              connected_exporter e1 eq_refl Hx) as (_ & Hcommit).
  destruct (Hcommit CommitNow) as (e2 & Hs & Hc & _); [discriminate | discriminate |].
  exists e1, e2. auto.
Defined.


(** ** Compressed images and the heartbeat's stop *)

Section Jpeg.
Context `{Env}.

(** X18: a JPG image whose update is not flagged final (the viewport
    case) always goes through and replaces the channel's buffer wholesale:
    the image takes the message's width and height and the decoder's
    channel count, its pixels are the decoder's output (no pixels when the
    decoder returns null), the previous buffer is released, the new one is
    a block that was not in use, and no other block changes. *)
Theorem jpg_update_replaces (img : AttrImage) (renderWidth renderHeight : Z)
    (this : RenderImage) (σ : Store) :
  imageType img = JPG ->
  (forall l, pixels this = Some l -> l ∈ dom σ) ->
  exists this1 σ1,
    update img renderWidth renderHeight false this σ = Some (this1, σ1, []) /\
    w this1 = width img /\ h this1 = height img /\
    channels this1 = (jpegToPixelData img).2 /\
    (p ← pixels this1; σ1 !! p) = (jpegToPixelData img).1 /\
    (forall p, pixels this1 = Some p -> (p ∉ dom σ)) /\
    (forall l, pixels this = Some l -> σ1 !! l = None) /\
    (forall l, l ∈ dom σ -> pixels this <> Some l -> σ1 !! l = σ !! l).
Proof.
  intros Ht Hlive.
  unfold update, update_branches, is_bucket_update.
  rewrite Ht. cbn [bool_decide decide_rel andb].
  rewrite bool_decide_eq_false_2 by discriminate. cbn [andb].
  rewrite bool_decide_eq_true_2 by reflexivity.
  destruct (jpegToPixelData img) as [[content |] chs]; cbn [fst snd].
  - rewrite replace_pixels_Some.
    pose proof (is_fresh (dom σ)) as Hfresh.
    eexists _, _. split; [reflexivity |]. cbn [w h channels pixels mbind option_bind].
    repeat split.
    + destruct (pixels this) as [l |] eqn:Hp; cbn [delete_pixels].
      * rewrite lookup_delete_ne, lookup_insert_eq; [reflexivity |].
        intros Heq. apply Hfresh. rewrite <- Heq. apply Hlive. reflexivity.
      * apply lookup_insert_eq.
    + intros p [= <-]. exact Hfresh.
    + intros l Hl. rewrite Hl. cbn [delete_pixels]. apply lookup_delete_eq.
    + intros l Hin Hne.
      assert (Hlf : fresh (dom σ) <> l) by (intros Heq; apply Hfresh; rewrite Heq; exact Hin).
      destruct (pixels this) as [l0 |]; cbn [delete_pixels].
      * rewrite lookup_delete_ne by congruence. apply lookup_insert_ne, Hlf.
      * apply lookup_insert_ne, Hlf.
  - unfold replace_pixels.
    eexists _, _. split; [reflexivity |]. cbn [w h channels pixels mbind option_bind].
    repeat split.
    + intros p [=].
    + intros l Hl. rewrite Hl. cbn [delete_pixels]. apply lookup_delete_eq.
    + intros l Hin Hne.
      destruct (pixels this) as [l0 |]; cbn [delete_pixels]; [| reflexivity].
      apply lookup_delete_ne. congruence.
Qed.

End Jpeg.

(** X19: [stop] of the heartbeat monitor reports whether a client was
    installed and always leaves none installed, so the monitor is not
    running afterwards and a second [stop] reports failure; a [start]
    after it always creates a new connection and reports whether that
    connect succeeded, also when the released client was one whose connect
    had failed. *)
Theorem heartbeat_stop_releases (s : ZmqServer.State) :
  let s' := snd (ZmqServer.stop s) in
  (fst (ZmqServer.stop s) = true <-> is_Some (ZmqServer.serverCheck s)) /\
  ZmqServer.serverCheck s' = None /\
  ZmqServer.isRunning s' = false /\
  fst (ZmqServer.stop s') = false /\
  (forall net addr,
      fst (ZmqServer.start net addr s') = link_connected net /\
      ZmqServer.serverCheck (snd (ZmqServer.start net addr s'))
        = Some (connect net addr (new_ZmqClient true)) /\
      ZmqServer.isRunning (snd (ZmqServer.start net addr s'))
        = link_good net && link_connected net).
Proof.
  unfold ZmqServer.stop, ZmqServer.start, ZmqServer.isRunning.
  destruct (ZmqServer.serverCheck s) as [c |]; cbn.
  - repeat split; eauto; destruct (link_connected net); reflexivity.
  - repeat split; try discriminate; try (intros [? [=]]);
      destruct (link_connected net); reflexivity.
Qed.

Lemma jpg_update_replaces_witness :
  let img := mkAttrImage JPG [f_one; f_zero; f_one_half] 3 1 1 (-1) (-1) in
  let this := mkRenderImage (Some 1%positive) 2 2 4 in
  let σ : Store := {[ 1%positive := replicate 16 f_zero ]} in
  exists this1 σ1,
    @update sample_Env img 2 2 false this σ = Some (this1, σ1, []) /\
    (w this1, h this1, channels this1) = (1, 1, 3) /\
    (p ← pixels this1; σ1 !! p) = Some [f_one; f_zero; f_one_half] /\
    σ1 !! 1%positive = None.
Proof.
  intros img this σ.
  destruct (@jpg_update_replaces sample_Env img 2 2 this σ)
    as (this1 & σ1 & Hu & Hw & Hh & Hc & Hp & _ & Hold & _).
  - reflexivity.
  - intros l [= <-]. apply elem_of_dom. exists (replicate 16 f_zero). apply lookup_singleton_eq.
  - exists this1, σ1. split; [exact Hu |]. rewrite Hw, Hh, Hc.
    split; [reflexivity |]. split; [exact Hp | apply Hold; reflexivity].
Defined.


(** ** Full frames in the viewport *)

Section Viewport.
Context `{Env}.

(** X20: in viewport mode a message with one full-frame float image
    always dispatches, and the channel it names then holds exactly the
    converted payload (the payload itself for a 4-channel image) at the
    message's width and height: no flip, alpha reset or clamp is applied.
    On a facade whose channel pointers are live and unshared, the pixels
    of every other channel are as before. *)
Theorem viewport_frame_stored (key : RenderChannelType) (img : AttrImage)
    (source : ImageSourceType) (e : ZmqExporter) :
  is_viewport e = true ->
  wf e ->
  full_frame img ->
  is_bucket_update img = false ->
  imageType img = RGBA_REAL \/ imageType img = RGB_REAL \/ imageType img = BW_REAL ->
  exists e' blk,
    zmqCallback (Image (mkImageSet [(key, img)] source)) e = Some e' /\
    convert_float_image img = Some (Some blk, channels_out (imageType img), []) /\
    (imageType img = RGBA_REAL -> blk = data img) /\
    channel_block key e' = Some blk /\
    channel_size key e' = Some (width img, height img, channels_out (imageType img)) /\
    (forall other, other <> key -> channel_block other e' = channel_block other e).
Proof.
  intros Hview [Hlive Hsep] Hfull Hbucket Htype.
  destruct (convert_float_image_spec img Hfull Htype) as (blk & Hconv & _ & Hrgba & _).
  assert (Hjpg : bool_decide (imageType img = JPG) = false).
  { apply bool_decide_eq_false. destruct Htype as [-> | [-> | ->]]; discriminate. }
  assert (Hflt : bool_decide (imageType img = RGBA_REAL)
                 || bool_decide (imageType img = RGB_REAL)
                 || bool_decide (imageType img = BW_REAL) = true).
  { destruct Htype as [-> | [-> | ->]]; reflexivity. }
  set (this := default RenderImage_empty (m_layerImages e !! key)).
  set (image := mkRenderImage (Some (fresh (dom (heap e)))) (width img) (height img)
                              (channels_out (imageType img))).
  set (store := delete_pixels (pixels this) (<[fresh (dom (heap e)) := blk]> (heap e))).
  assert (Hupd : update img (renderWidth (m_cachedValues e)) (renderHeight (m_cachedValues e))
                        (negb (is_viewport e)) this (heap e)
                 = Some (image, store, [])).
  { rewrite Hview. unfold update, update_branches.
    rewrite Hbucket, Hjpg, Hflt, Hconv. cbn [mbind option_bind negb].
    rewrite replace_pixels_Some. reflexivity. }
  pose proof (is_fresh (dom (heap e))) as Hfresh.
  assert (Hold : forall l, pixels this = Some l -> l ∈ dom (heap e)).
  { intros l Hl. apply Hlive. subst this.
    destruct (m_layerImages e !! key) as [old |] eqn:Hk; [| discriminate Hl].
    exists key, old. auto. }
  assert (Hnew : store !! fresh (dom (heap e)) = Some blk).
  { subst store. destruct (pixels this) as [l |] eqn:Hp; cbn [delete_pixels].
    - rewrite lookup_delete_ne; [apply lookup_insert_eq |].
      intros Heq. apply Hfresh. rewrite <- Heq. apply Hold. reflexivity.
    - apply lookup_insert_eq. }
  cbn [zmqCallback images image_loop]. cbv zeta. fold this. rewrite Hupd.
  cbn [mbind option_bind].
  assert (Hproj : forall e2,
             m_layerImages e2 = <[key := image]> (m_layerImages e) ->
             heap e2 = store ->
             channel_block key e2 = Some blk /\
             channel_size key e2
               = Some (width img, height img, channels_out (imageType img)) /\
             (forall other, other <> key -> channel_block other e2 = channel_block other e)).
  { intros e2 Hli Hh. unfold channel_block, channel_size. rewrite Hli, Hh.
    rewrite lookup_insert_eq. cbn [mbind option_bind pixels w h channels image].
    split; [exact Hnew |]. split; [reflexivity |].
    intros other Hne. rewrite lookup_insert_ne by congruence.
    destruct (m_layerImages e !! other) as [oimg |] eqn:Ho; [| reflexivity].
    cbn [mbind option_bind]. destruct (pixels oimg) as [l |] eqn:Hl; [| reflexivity].
    cbn [mbind option_bind].
    assert (Hin : l ∈ dom (heap e)) by (apply Hlive; exists other, oimg; auto).
    assert (Hlf : fresh (dom (heap e)) <> l)
      by (intros Heq; apply Hfresh; rewrite Heq; exact Hin).
    subst store. destruct (pixels this) as [l0 |] eqn:Hp; cbn [delete_pixels].
    - rewrite lookup_delete_ne; [apply lookup_insert_ne, Hlf |].
      intros <-. apply Hne. subst this.
      destruct (m_layerImages e !! key) as [old |] eqn:Hk; [| discriminate Hp].
      exact (Hsep other key oimg old l0 Ho Hk Hl Hp).
    - apply lookup_insert_ne, Hlf. }
  match goal with |- context [(if ?b then _ else _) ≫= _] => destruct b end;
    cbn [mbind option_bind];
    (eexists _, blk; split; [reflexivity |]; split; [exact Hconv |]; split; [exact Hrgba |]);
    repeat match goal with |- context [if ?b then _ else _] => destruct b end;
    apply Hproj; reflexivity.
Qed.

End Viewport.

Lemma viewport_frame_stored_witness :
  let e := ZmqExporter_new sample_settings true no_hooks in
  exists e',
    @zmqCallback sample_Env
      (Image (mkImageSet [(RenderChannelTypeVfbColor, rgb_pixel_frame)] RtImageUpdate)) e
      = Some e' /\
    channel_block RenderChannelTypeVfbColor e' = Some [f_one_half; f_zero; f_one] /\
    channel_size RenderChannelTypeVfbColor e' = Some (1, 1, 3).
Proof.
  intros e.
  destruct (@viewport_frame_stored sample_Env RenderChannelTypeVfbColor rgb_pixel_frame
              RtImageUpdate e) as (e' & blk & Hz & Hconv & _ & Hb & Hs & _).
  - reflexivity.
  - apply wf_new.
  - vm_compute. repeat split; discriminate.
  - reflexivity.
  - right. left. reflexivity.
  - exists e'. split; [exact Hz |]. split; [| exact Hs].
    rewrite Hb. vm_compute in Hconv. injection Hconv as <-. reflexivity.
Defined.
